(** * secure-flask-api: authentication and account lockout

    A shallow embedding of [app/models.py], [app/routes/auth.py] and
    [app/routes/api.py], and the properties of the lockout state machine,
    the API-key life cycle and the admin routes.

    Conventions of the embedding.
    - A [datetime] is a [Z]: microseconds since the epoch.  Every
      [datetime.utcnow()] in a method or a view is one read of the clock:
      the [n]-th read of a run returns [utc n].  Nothing is assumed of
      [utc], so the readings may be any sequence.
    - [secrets.token_urlsafe] and the salt of werkzeug's hash draw from
      an entropy source: the [n]-th draw returns [entropy n].
    - bcrypt (flask_bcrypt) and werkzeug's password hash are external:
      they are parameters of the development.
    - The SQLAlchemy session is a unit of work: [db.session.add],
      [db.session.delete] and attribute assignments on loaded objects are
      staged and reach the tables at [db.session.commit()].  A Python
      object is passed by value; the method that assigns to [self] returns
      the new [self], and stages it before it commits.
    - A Python exception ends the request in the 500 handler, which rolls
      the session back.
    - Outside the model: integrity errors of the storage layer (unique
      and not-null columns), the rate limiter, CSRF and form validators,
      and request bodies that [request.get_json()] refuses.  The column
      [User.updated_at] is left out with the ORM's [onupdate] hook that
      alone writes it; the readings that hook takes are not among those
      [utc] counts. *)

From Stdlib Require Import ZArith List String Ascii Bool Lia.
From Stdlib Require DecimalString.
Import ListNotations.
Local Open Scope string_scope.
Local Open Scope list_scope.
Local Open Scope Z_scope.

(** ** Data model ([app/models.py]) *)

Definition datetime := Z.

(** [timedelta(minutes=m)], in microseconds. *)
Definition timedelta_minutes (m : Z) : Z := m * 60 * 1000000.

Module User.
Record t := mk {
  id : Z;
  username : string;
  email : string;
  password_hash : string;
  is_active : bool;
  is_admin : bool;
  failed_login_attempts : Z;
  last_failed_login : option datetime;
  account_locked_until : option datetime;
  created_at : datetime;
  last_login : option datetime
}.

Definition with_email (v : string) (u : t) : t :=
  mk (id u) (username u) v (password_hash u) (is_active u) (is_admin u)
     (failed_login_attempts u) (last_failed_login u)
     (account_locked_until u) (created_at u) (last_login u).
Definition with_is_active (v : bool) (u : t) : t :=
  mk (id u) (username u) (email u) (password_hash u) v (is_admin u)
     (failed_login_attempts u) (last_failed_login u)
     (account_locked_until u) (created_at u) (last_login u).
Definition with_is_admin (v : bool) (u : t) : t :=
  mk (id u) (username u) (email u) (password_hash u) (is_active u) v
     (failed_login_attempts u) (last_failed_login u)
     (account_locked_until u) (created_at u) (last_login u).
Definition with_failed_login_attempts (v : Z) (u : t) : t :=
  mk (id u) (username u) (email u) (password_hash u) (is_active u)
     (is_admin u) v (last_failed_login u)
     (account_locked_until u) (created_at u) (last_login u).
Definition with_last_failed_login (v : option datetime) (u : t) : t :=
  mk (id u) (username u) (email u) (password_hash u) (is_active u)
     (is_admin u) (failed_login_attempts u) v
     (account_locked_until u) (created_at u) (last_login u).
Definition with_account_locked_until (v : option datetime) (u : t) : t :=
  mk (id u) (username u) (email u) (password_hash u) (is_active u)
     (is_admin u) (failed_login_attempts u) (last_failed_login u)
     v (created_at u) (last_login u).
Definition with_last_login (v : option datetime) (u : t) : t :=
  mk (id u) (username u) (email u) (password_hash u) (is_active u)
     (is_admin u) (failed_login_attempts u) (last_failed_login u)
     (account_locked_until u) (created_at u) v.
Definition with_id (v : Z) (u : t) : t :=
  mk v (username u) (email u) (password_hash u) (is_active u)
     (is_admin u) (failed_login_attempts u) (last_failed_login u)
     (account_locked_until u) (created_at u) (last_login u).
Definition with_password_hash (v : string) (u : t) : t :=
  mk (id u) (username u) (email u) v (is_active u)
     (is_admin u) (failed_login_attempts u) (last_failed_login u)
     (account_locked_until u) (created_at u) (last_login u).
Definition with_created_at (v : datetime) (u : t) : t :=
  mk (id u) (username u) (email u) (password_hash u) (is_active u)
     (is_admin u) (failed_login_attempts u) (last_failed_login u)
     (account_locked_until u) v (last_login u).

(** [User(username=..., email=...)]: a transient object.  [id] and
    [created_at] are assigned when the row is inserted; the flags and the
    counter take their column defaults. *)
Definition init (username email : string) : t :=
  mk 0 username email "" true false 0 None None 0 None.
End User.

Module ApiKey.
Record t := mk {
  id : Z;
  key_hash : string;
  name : string;
  user_id : Z;
  is_active : bool;
  last_used : option datetime;
  created_at : datetime;
  expires_at : option datetime
}.

(** [ApiKey(name=..., user_id=...)]: a transient object.  [id] and
    [created_at] are assigned when the row is inserted; [is_active]
    takes its column default. *)
Definition init (name : string) (user_id : Z) : t :=
  mk 0 "" name user_id true None 0 None.

Definition with_id (v : Z) (k : t) : t :=
  mk v (key_hash k) (name k) (user_id k) (is_active k) (last_used k)
     (created_at k) (expires_at k).
Definition with_key_hash (v : string) (k : t) : t :=
  mk (id k) v (name k) (user_id k) (is_active k) (last_used k)
     (created_at k) (expires_at k).
Definition with_last_used (v : option datetime) (k : t) : t :=
  mk (id k) (key_hash k) (name k) (user_id k) (is_active k) v
     (created_at k) (expires_at k).
Definition with_created_at (v : datetime) (k : t) : t :=
  mk (id k) (key_hash k) (name k) (user_id k) (is_active k) (last_used k)
     v (expires_at k).

Definition with_name (v : string) (k : t) : t :=
  mk (id k) (key_hash k) v (user_id k) (is_active k) (last_used k)
     (created_at k) (expires_at k).

Definition eq_dec (a b : t) : {a = b} + {a <> b}.
Proof.
  repeat decide equality.
Defined.
End ApiKey.

(** ** The world a request runs in *)

(** Operations staged in the SQLAlchemy session. *)
Inductive op :=
| InsertKey (k : ApiKey.t)
| UpdateUser (u : User.t)
| UpdateKey (k : ApiKey.t)
| DeleteKey (key_id : Z)
| DeleteUser (user_id : Z).

(** Instrumentation: which password hashes were checked, newest first. *)
Inductive event :=
| EvCheckPassword (user_id : Z).

Record World := mkWorld {
  users : list User.t;            (* table [users], in row order *)
  api_keys : list ApiKey.t;       (* table [api_keys], in row order *)
  pending : list op;              (* staged, oldest first *)
  logged_in : option Z;           (* flask_login session identity *)
  flashes : list (string * string);  (* flash(message, category), newest first *)
  ticks : nat;                    (* clock reads so far *)
  draws : nat;                    (* entropy draws so far *)
  trace : list event
}.

Definition set_tables (us : list User.t) (ks : list ApiKey.t) (w : World) :=
  mkWorld us ks (pending w) (logged_in w) (flashes w) (ticks w) (draws w)
          (trace w).
Definition set_pending (p : list op) (w : World) :=
  mkWorld (users w) (api_keys w) p (logged_in w) (flashes w) (ticks w)
          (draws w) (trace w).
Definition set_logged_in (s : option Z) (w : World) :=
  mkWorld (users w) (api_keys w) (pending w) s (flashes w) (ticks w)
          (draws w) (trace w).
Definition add_flash (m : string * string) (w : World) :=
  mkWorld (users w) (api_keys w) (pending w) (logged_in w) (m :: flashes w)
          (ticks w) (draws w) (trace w).
Definition tick (w : World) :=
  mkWorld (users w) (api_keys w) (pending w) (logged_in w) (flashes w)
          (S (ticks w)) (draws w) (trace w).
Definition draw (w : World) :=
  mkWorld (users w) (api_keys w) (pending w) (logged_in w) (flashes w)
          (ticks w) (S (draws w)) (trace w).
Definition record_event (e : event) (w : World) :=
  mkWorld (users w) (api_keys w) (pending w) (logged_in w) (flashes w)
          (ticks w) (draws w) (e :: trace w).

(** ** A state monad with Python exceptions *)

Inductive exn := TypeError | AttributeError | KeyError.

Inductive outcome (A : Type) :=
| Return (a : A)
| Raise (e : exn).
Arguments Return {A} a.
Arguments Raise {A} e.

Definition M (A : Type) : Type := World -> outcome A * World.

Definition ret {A} (a : A) : M A := fun w => (Return a, w).
Definition raise {A} (e : exn) : M A := fun w => (Raise e, w).
Definition bind {A B} (c : M A) (k : A -> M B) : M B :=
  fun w => match c w with
           | (Return a, w') => k a w'
           | (Raise e, w') => (Raise e, w')
           end.
Definition lift {A} (o : outcome A) : M A := fun w => (o, w).

Notation "x <- c ;; k" := (bind c (fun x => k))
  (at level 61, c at next level, right associativity).
Notation "' pat <- c ;; k" := (bind c (fun x => match x with pat => k end))
  (at level 61, pat pattern, c at next level, right associativity).
Notation "c ;; k" := (bind c (fun _ => k))
  (at level 61, right associativity).

(** ** Parsed JSON bodies, with Python's operators on them *)

#[local] Unset Elimination Schemes.
Inductive json :=
| JNull
| JBool (b : bool)
| JNum (n : Z)                      (* integers only *)
| JStr (s : string)
| JArr (items : list json)
| JObj (fields : list (string * json)).
#[local] Set Elimination Schemes.

(** Python truthiness: [not data]. *)
Definition truthy (j : json) : bool :=
  match j with
  | JNull => false
  | JBool b => b
  | JNum n => negb (n =? 0)
  | JStr s => negb (s =? "")%string
  | JArr l => match l with [] => false | _ => true end
  | JObj l => match l with [] => false | _ => true end
  end.

Fixpoint lookup (k : string) (l : list (string * json)) : option json :=
  match l with
  | [] => None
  | (k', v) :: rest => if (k =? k')%string then Some v else lookup k rest
  end.

Fixpoint substring_of (k s : string) : bool :=
  String.prefix k s
  || match s with
     | EmptyString => false
     | String _ rest => substring_of k rest
     end.

Definition is_str (k : string) (j : json) : bool :=
  match j with JStr s => (s =? k)%string | _ => false end.

(** [k in data]. *)
Definition py_in (k : string) (data : json) : outcome bool :=
  match data with
  | JObj l => Return (match lookup k l with Some _ => true | None => false end)
  | JArr l => Return (existsb (is_str k) l)
  | JStr s => Return (substring_of k s)
  | _ => Raise TypeError
  end.

(** [data[k]]. *)
Definition py_getitem (data : json) (k : string) : outcome json :=
  match data with
  | JObj l => match lookup k l with Some v => Return v | None => Raise KeyError end
  | _ => Raise TypeError
  end.

(** [data.get(k, default)]. *)
Definition py_get (data : json) (k : string) (default : json) : outcome json :=
  match data with
  | JObj l => Return (match lookup k l with Some v => v | None => default end)
  | _ => Raise AttributeError
  end.

(** [str.lower()], on the ASCII letters. *)
Definition lower_ascii (c : ascii) : ascii :=
  let n := nat_of_ascii c in
  if (65 <=? n)%nat && (n <=? 90)%nat then ascii_of_nat (n + 32) else c.

Fixpoint lower (s : string) : string :=
  match s with
  | EmptyString => EmptyString
  | String c rest => String (lower_ascii c) (lower rest)
  end.

(** [x.lower()] on a parsed value: only [str] has the method. *)
Definition py_lower (j : json) : outcome string :=
  match j with
  | JStr s => Return (lower s)
  | _ => Raise AttributeError
  end.

(** ** Responses *)

Inductive body :=
| ErrorBody (error message : string)
| MessageBody (message : string)
| UserBody (user : User.t)                        (* user.to_dict(include_email=True) *)
| UpdatedBody (message : string) (user : User.t)
| LoginBody (message api_key : string) (user : User.t).

Inductive response :=
| Json (b : body) (status : Z)       (* (jsonify(...), status) *)
| Render (template : string) (status : Z)
| Redirect (location : string).

Definition status_of (r : response) : Z :=
  match r with
  | Json _ s => s
  | Render _ s => s
  | Redirect _ => 302
  end.

(** ** Storage *)

Definition next_id (ids : list Z) : Z := 1 + fold_right Z.max 0 ids.

Definition replace_user (u : User.t) (us : list User.t) : list User.t :=
  map (fun r => if User.id r =? User.id u then u else r) us.

Definition replace_key (k : ApiKey.t) (ks : list ApiKey.t) : list ApiKey.t :=
  map (fun r => if ApiKey.id r =? ApiKey.id k then k else r) ks.

Definition get_user (user_id : Z) (us : list User.t) : option User.t :=
  find (fun r => User.id r =? user_id) us.

(** ** A concrete instance

    Toy oracles and a small database, used to run the model. *)

Module Demo.
(** One minute passes between two reads of the clock. *)
Definition utc (n : nat) : datetime := Z.of_nat n * 60000000.

Definition entropy (n : nat) : string :=
  "tok-" ++ String (ascii_of_nat (97 + n)) "".

Definition bcrypt_check_password_hash (pw_hash password : string) : bool :=
  (pw_hash =? "bcrypt:" ++ password)%string.

Definition generate_password_hash (salt password : string) : string :=
  "hash:" ++ password.

Definition check_password_hash (pwhash password : string) : bool :=
  (pwhash =? "hash:" ++ password)%string.

Definition py_str (j : json) : string :=
  match j with
  | JStr s => s
  | _ => "?"
  end.

Definition is_authenticated (u : User.t) : bool := User.is_active u.

Definition admin : User.t :=
  User.mk 1 "admin" "admin@example.com" "bcrypt:changeme123" true true
          0 None None 0 None.
Definition alice : User.t :=
  User.mk 2 "alice" "alice@example.com" "bcrypt:Str0ng!Pass" true false
          0 None None 0 None.
(** bob has been deactivated *)
Definition bob : User.t :=
  User.mk 3 "bob" "bob@example.com" "bcrypt:B0b!Passw" false false
          0 None None 0 None.
(** carol is locked for the next thirty minutes *)
Definition carol : User.t :=
  User.mk 4 "carol" "carol@example.com" "bcrypt:C4rol!Pass" true false
          5 (Some 0) (Some 1800000000) 0 None.

Definition alice_key : ApiKey.t :=
  ApiKey.mk 1 "hash:alice-secret" "laptop" 2 true None 0 None.
Definition bob_key : ApiKey.t :=
  ApiKey.mk 2 "hash:bob-secret" "phone" 3 true None 0 None.
(** a key of alice that expired one microsecond after the epoch *)
Definition stale_key : ApiKey.t :=
  ApiKey.mk 3 "hash:stale-secret" "old" 2 true None 0 (Some 1).

(** The database before the [t]-th read of the clock, with nothing
    staged, for a browser session [session]. *)
Definition world_at (t : nat) (session : option Z) : World :=
  mkWorld [admin; alice; bob; carol] [alice_key; bob_key; stale_key] []
          session [] t 0 [].

Definition world : option Z -> World := world_at 1.

Definition bcrypt_generate_password_hash (salt password : string) : string :=
  "bcrypt:" ++ password.

Definition column_text (j : json) : outcome string :=
  match j with
  | JStr s => Return s
  | _ => Raise TypeError
  end.

(** Four failures on record for alice, nobody else in the tables. *)
Definition world_four_failures : World :=
  mkWorld [User.with_failed_login_attempts 4 alice] [] [] None [] 1 0 [].

(** A database without an admin. *)
Definition world_no_admin : World :=
  mkWorld [alice] [] [] None [] 1 0 [].
End Demo.

Section Program.

(** The clock, the entropy source and the external hashers. *)
Variable utc : nat -> datetime.
Variable entropy : nat -> string.
(** [bcrypt.check_password_hash(pw_hash, password)] *)
Variable bcrypt_check_password_hash : string -> string -> bool.
(** werkzeug's [generate_password_hash(password)], given the salt it draws *)
Variable generate_password_hash : string -> string -> string.
(** werkzeug's [check_password_hash(pwhash, password)] *)
Variable check_password_hash : string -> string -> bool.
(** Python's [str()] of a parsed value, as an f-string renders it *)
Variable py_str : json -> string.
(** flask_login's [UserMixin.is_authenticated] *)
Variable is_authenticated : User.t -> bool.
(** [bcrypt.generate_password_hash(password).decode('utf-8')], given the
    salt it draws *)
Variable bcrypt_generate_password_hash : string -> string -> string.
(** The text a [String] column holds for a parsed value, or the error the
    driver raises when it binds it *)
Variable column_text : json -> outcome string.

(** [datetime.utcnow()] *)
Definition utcnow : M datetime :=
  fun w => (Return (utc (ticks w)), tick w).

(** One draw from the entropy source. *)
Definition urandom : M string :=
  fun w => (Return (entropy (draws w)), draw w).

(** [secrets.token_urlsafe(nbytes)] *)
Definition token_urlsafe (nbytes : Z) : M string := urandom.

(** An operation joins the unit of work. *)
Definition stage (o : op) : M unit :=
  fun w => (Return tt, set_pending (pending w ++ [o]) w).

(** One staged operation reaches the tables.  An inserted key gets the
    next row id and its [created_at] default, a clock read. *)
Definition apply_op (w : World) (o : op) : World :=
  match o with
  | InsertKey k =>
      let row := ApiKey.with_created_at (utc (ticks w))
                   (ApiKey.with_id (next_id (map ApiKey.id (api_keys w))) k) in
      tick (set_tables (users w) (api_keys w ++ [row]) w)
  | UpdateUser u => set_tables (replace_user u (users w)) (api_keys w) w
  | UpdateKey k => set_tables (users w) (replace_key k (api_keys w)) w
  | DeleteKey key_id =>
      set_tables (users w)
        (filter (fun r => negb (ApiKey.id r =? key_id)) (api_keys w)) w
  | DeleteUser uid =>
      (* cascade='all, delete-orphan' on User.api_keys *)
      set_tables (filter (fun r => negb (User.id r =? uid)) (users w))
        (filter (fun r => negb (ApiKey.user_id r =? uid)) (api_keys w)) w
  end.

(** The staged operations reach the tables, oldest first. *)
Definition flush (w : World) : World :=
  fold_left apply_op (pending w) (set_pending [] w).

(** [db.session.commit()] *)
Definition commit : M unit := fun w => (Return tt, flush w).

(** [db.session.rollback()] *)
Definition rollback (w : World) : World := set_pending [] w.

(** [flash(message, category)] *)
Definition flash (message category : string) : M unit :=
  fun w => (Return tt, add_flash (message, category) w).

(** *** [class User] *)

(** [User.check_password]; the check is noted in the trace. *)
Definition check_password (self : User.t) (password : string) : M bool :=
  fun w => (Return (bcrypt_check_password_hash (User.password_hash self) password),
            record_event (EvCheckPassword (User.id self)) w).

(** [User.is_account_locked]: a [datetime] is always truthy, so the outer
    test is on [None]. *)
Definition is_account_locked (self : User.t) : M (bool * User.t) :=
  match User.account_locked_until self with
  | Some locked_until =>
      now <- utcnow ;;
      if now <? locked_until then ret (true, self)
      else
        let self := User.with_account_locked_until None self in
        let self := User.with_failed_login_attempts 0 self in
        stage (UpdateUser self) ;;
        commit ;;
        ret (false, self)
  | None => ret (false, self)
  end.

(** [User.record_failed_login]: the lock is set by a second read of the
    clock. *)
Definition record_failed_login (self : User.t) : M User.t :=
  let self := User.with_failed_login_attempts
                (User.failed_login_attempts self + 1) self in
  now <- utcnow ;;
  let self := User.with_last_failed_login (Some now) self in
  self <- (if User.failed_login_attempts self >=? 5 then
             now <- utcnow ;;
             ret (User.with_account_locked_until
                    (Some (now + timedelta_minutes 30)) self)
           else ret self) ;;
  stage (UpdateUser self) ;;
  commit ;;
  ret self.

(** [User.reset_failed_logins] *)
Definition reset_failed_logins (self : User.t) : M User.t :=
  let self := User.with_failed_login_attempts 0 self in
  let self := User.with_last_failed_login None self in
  let self := User.with_account_locked_until None self in
  now <- utcnow ;;
  let self := User.with_last_login (Some now) self in
  stage (UpdateUser self) ;;
  commit ;;
  ret self.

(** *** [class ApiKey] *)

(** [ApiKey.set_key] *)
Definition set_key (self : ApiKey.t) (key : string) : M ApiKey.t :=
  salt <- urandom ;;
  ret (ApiKey.with_key_hash (generate_password_hash salt key) self).

(** [ApiKey.verify_key]: the clock is read only for an active key with
    an expiry. *)
Definition verify_key (self : ApiKey.t) (key : string) : M bool :=
  if negb (ApiKey.is_active self) then ret false
  else
    match ApiKey.expires_at self with
    | Some expires_at =>
        now <- utcnow ;;
        if now >? expires_at then ret false
        else ret (check_password_hash (ApiKey.key_hash self) key)
    | None => ret (check_password_hash (ApiKey.key_hash self) key)
    end.

(** [ApiKey.record_usage] *)
Definition record_usage (self : ApiKey.t) : M ApiKey.t :=
  now <- utcnow ;;
  let self := ApiKey.with_last_used (Some now) self in
  stage (UpdateKey self) ;;
  commit ;;
  ret self.

(** *** flask_login *)

(** [current_user]: the user loaded by [load_user] from the session
    identity, or the anonymous user. *)
Definition current_user : M (option User.t) :=
  fun w => (Return match logged_in w with
                   | Some uid => get_user uid (users w)
                   | None => None
                   end, w).

Definition authenticated (cu : option User.t) : bool :=
  match cu with
  | Some u => is_authenticated u
  | None => false
  end.

(** [current_user.id]; the anonymous user has no such attribute. *)
Definition current_user_id : M Z :=
  cu <- current_user ;;
  match cu with
  | Some u => ret (User.id u)
  | None => raise AttributeError
  end.

(** [login_user(user, remember=...)]: refuses a user who is not active. *)
Definition login_user (user : User.t) (remember : bool) : M bool :=
  if negb (User.is_active user) then ret false
  else fun w => (Return true, set_logged_in (Some (User.id user)) w).

(** [@login_required]: an unauthenticated caller is sent to
    [login_manager.login_view]. *)
Definition login_required (f : M response) : M response :=
  cu <- current_user ;;
  if negb (authenticated cu) then
    flash "Please log in to access this page." "info" ;;
    ret (Redirect "auth.login")
  else f.

(** *** Queries *)

(** [User.query.filter((User.username == x) | (User.email == y)).first()] *)
Definition first_user_by (x y : string) : M (option User.t) :=
  fun w => (Return (find (fun r => (User.username r =? x)%string
                                   || (User.email r =? y)%string) (users w)), w).

(** [User.query.get(user_id)] *)
Definition query_get_user (user_id : Z) : M (option User.t) :=
  fun w => (Return (get_user user_id (users w)), w).

(** [ApiKey.query.filter_by(is_active=True).all()] *)
Definition active_api_keys : M (list ApiKey.t) :=
  fun w => (Return (filter ApiKey.is_active (api_keys w)), w).

(** [ApiKey.query.filter_by(id=key_id, user_id=uid).first()] *)
Definition first_key_by (key_id uid : Z) : M (option ApiKey.t) :=
  fun w => (Return (find (fun r => (ApiKey.id r =? key_id)
                                   && (ApiKey.user_id r =? uid)) (api_keys w)), w).

(** [key_obj.user], the relationship behind [backref='user'] *)
Definition key_user (key_obj : ApiKey.t) : M (option User.t) :=
  query_get_user (ApiKey.user_id key_obj).

(** ** [app/routes/auth.py] *)

Record LoginForm := {
  username_data : string;
  password_data : string;
  remember_me_data : bool;
  validate_on_submit : bool        (* POST, CSRF token and validators *)
}.

(** [POST /auth/login]; [next_arg] is [request.args.get('next')]. *)
Definition login (form : LoginForm) (next_arg : option string) : M response :=
  cu <- current_user ;;
  if authenticated cu then ret (Redirect "main.dashboard")
  else if validate_on_submit form then
    user <- first_user_by (username_data form) (lower (username_data form)) ;;
    '(locked, user) <- match user with
                       | Some u =>
                           '(l, u) <- is_account_locked u ;; ret (l, Some u)
                       | None => ret (false, None)
                       end ;;
    if locked then
      flash ("Your account is temporarily locked due to multiple failed login attempts. "
             ++ "Please try again later.") "warning" ;;
      ret (Render "auth/login.html" 200)
    else
      ok <- match user with
            | Some u => check_password u (password_data form)
            | None => ret false
            end ;;
      match user, ok with
      | Some u, true =>
          if negb (User.is_active u) then
            flash "Your account has been deactivated. Please contact support." "danger" ;;
            ret (Render "auth/login.html" 200)
          else
            u <- reset_failed_logins u ;;
            login_user u (remember_me_data form) ;;
            match next_arg with
            | Some next_page =>
                if negb (next_page =? "")%string && String.prefix "/" next_page
                then ret (Redirect next_page)
                else ret (Redirect "main.dashboard")
            | None => ret (Redirect "main.dashboard")
            end
      | _, _ =>
          match user with
          | Some u => record_failed_login u ;; ret tt
          | None => ret tt
          end ;;
          flash "Invalid username/email or password." "danger" ;;
          ret (Render "auth/login.html" 200)
      end
  else ret (Render "auth/login.html" 200).

(** The application's 500 handler. *)
Definition serve (h : M response) (w : World) : response * World :=
  match h w with
  | (Return r, w') => (r, w')
  | (Raise _, w') => (Render "errors/500.html" 500, rollback w')
  end.

(** ** [app/routes/api.py] *)

(** The loop of [api_key_required] over the active keys: the first key
    that verifies records its usage and yields its owner. *)
Fixpoint find_api_key (keys : list ApiKey.t) (api_key : string)
  : M (bool * option User.t) :=
  match keys with
  | [] => ret (false, None)
  | key_obj :: rest =>
      ok <- verify_key key_obj api_key ;;
      if ok then
        record_usage key_obj ;;
        user <- key_user key_obj ;;
        ret (true, user)
      else find_api_key rest api_key
  end.

(** [@api_key_required]: [x_api_key] is [request.headers.get('X-API-Key')];
    the wrapped view receives [request.api_user]. *)
Definition api_key_required (f : User.t -> M response)
           (x_api_key : option string) : M response :=
  match x_api_key with
  | None =>
      ret (Json (ErrorBody "API key required"
                   "Please provide an API key in the X-API-Key header") 401)
  | Some api_key =>
      if (api_key =? "")%string then
        ret (Json (ErrorBody "API key required"
                     "Please provide an API key in the X-API-Key header") 401)
      else
        api_key_obj <- active_api_keys ;;
        '(authenticated, user) <- find_api_key api_key_obj api_key ;;
        if negb authenticated then
          ret (Json (ErrorBody "Invalid API key"
                       "The provided API key is invalid or has expired") 401)
        else
          match user with
          | None => raise AttributeError
          | Some user =>
              if negb (User.is_active user) then
                ret (Json (ErrorBody "Account deactivated"
                             "Your account has been deactivated") 403)
              else f user
          end
  end.

(** [@admin_required] *)
Definition admin_required (f : M response) : M response :=
  cu <- current_user ;;
  if negb (authenticated cu) then
    ret (Json (ErrorBody "Authentication required"
                 "You must be logged in to access this resource") 401)
  else
    match cu with
    | None => raise AttributeError
    | Some u =>
        if negb (User.is_admin u) then
          ret (Json (ErrorBody "Admin access required"
                       "You do not have permission to access this resource") 403)
        else f
    end.

(** The hasher takes a [str]; any other parsed value makes it raise. *)
Definition py_password (j : json) : outcome string :=
  match j with
  | JStr s => Return s
  | _ => Raise TypeError
  end.

(** [POST /api/auth/login]; [data] is [request.get_json()]. *)
Definition api_login (data : json) : M response :=
  let invalid := Json (ErrorBody "Invalid request"
                         "Username and password are required") 400 in
  if negb (truthy data) then ret invalid
  else
    has_username <- lift (py_in "username" data) ;;
    if negb has_username then ret invalid
    else
      has_password <- lift (py_in "password" data) ;;
      if negb has_password then ret invalid
      else
        (* Find user *)
        name <- lift (py_getitem data "username") ;;
        lowered <- lift (py_lower name) ;;
        user <- first_user_by (match name with JStr s => s | _ => "" end) lowered ;;
        (* Verify credentials *)
        ok <- match user with
              | None => ret false
              | Some u =>
                  password <- lift (py_getitem data "password") ;;
                  password <- lift (py_password password) ;;
                  check_password u password
              end ;;
        match user, ok with
        | Some user, true =>
            (* Check account status *)
            '(locked, user) <- is_account_locked user ;;
            if locked then
              ret (Json (ErrorBody "Account locked"
                           "Your account is temporarily locked") 403)
            else if negb (User.is_active user) then
              ret (Json (ErrorBody "Account deactivated"
                           "Your account has been deactivated") 403)
            else
              (* Generate API key *)
              api_key <- token_urlsafe 32 ;;
              device <- lift (py_get data "device" (JStr "Unknown")) ;;
              let api_key_obj :=
                ApiKey.init ("API Key - " ++ py_str device) (User.id user) in
              api_key_obj <- set_key api_key_obj api_key ;;
              stage (InsertKey api_key_obj) ;;
              user <- reset_failed_logins user ;;
              commit ;;
              ret (Json (LoginBody "Authentication successful" api_key user) 200)
        | _, _ =>
            ret (Json (ErrorBody "Authentication failed"
                         "Invalid username or password") 401)
        end.

(** [GET /api/auth/me], under [@api_key_required] *)
Definition get_current_user (user : User.t) : M response :=
  ret (Json (UserBody user) 200).

(** [DELETE /api/keys/<key_id>], under [@login_required] *)
Definition revoke_api_key (key_id : Z) : M response :=
  uid <- current_user_id ;;
  api_key <- first_key_by key_id uid ;;
  match api_key with
  | None => ret (Json (ErrorBody "Not found" "API key not found") 404)
  | Some api_key =>
      stage (DeleteKey (ApiKey.id api_key)) ;;
      commit ;;
      ret (Json (MessageBody "API key revoked successfully") 200)
  end.

(** A value assigned to a [Boolean] column: the column type accepts
    [True], [False] and the integers equal to them, and refuses anything
    else when the row is written. *)
Definition py_boolean (j : json) : outcome bool :=
  match j with
  | JBool b => Return b
  | JNum 0 => Return false
  | JNum 1 => Return true
  | _ => Raise TypeError
  end.

(** [PUT /api/users/<user_id>], under [@login_required] and
    [@admin_required]; [data] is [request.get_json()]. *)
Definition update_user (user_id : Z) (data : json) : M response :=
  user <- query_get_user user_id ;;
  match user with
  | None => ret (Json (ErrorBody "Not found" "User not found") 404)
  | Some user =>
      (* Update allowed fields *)
      has <- lift (py_in "is_active" data) ;;
      user <- (if has then
                 v <- lift (py_getitem data "is_active") ;;
                 v <- lift (py_boolean v) ;;
                 ret (User.with_is_active v user)
               else ret user) ;;
      has <- lift (py_in "is_admin" data) ;;
      user <- (if has then
                 v <- lift (py_getitem data "is_admin") ;;
                 v <- lift (py_boolean v) ;;
                 ret (User.with_is_admin v user)
               else ret user) ;;
      has <- lift (py_in "email" data) ;;
      user <- (if has then
                 v <- lift (py_getitem data "email") ;;
                 v <- lift (py_lower v) ;;
                 ret (User.with_email v user)
               else ret user) ;;
      stage (UpdateUser user) ;;
      commit ;;
      ret (Json (UpdatedBody "User updated successfully" user) 200)
  end.

(** [DELETE /api/users/<user_id>], under [@login_required] and
    [@admin_required] *)
Definition delete_user (user_id : Z) : M response :=
  (* Prevent self-deletion *)
  uid <- current_user_id ;;
  if user_id =? uid then
    ret (Json (ErrorBody "Invalid operation"
                 "You cannot delete your own account") 400)
  else
    user <- query_get_user user_id ;;
    match user with
    | None => ret (Json (ErrorBody "Not found" "User not found") 404)
    | Some user =>
        stage (DeleteUser (User.id user)) ;;
        commit ;;
        ret (Json (MessageBody "User deleted successfully") 200)
    end.

(** The blueprint's 500 handler. *)
Definition serve_api (h : M response) (w : World) : response * World :=
  match h w with
  | (Return r, w') => (r, w')
  | (Raise _, w') =>
      (Json (ErrorBody "Internal server error" "An unexpected error occurred") 500,
       rollback w')
  end.

(** The routes, with their decorators in the order of the source. *)
Definition route_login form next_arg := serve (login form next_arg).
Definition route_api_login data := serve_api (api_login data).
Definition route_get_current_user x_api_key :=
  serve_api (api_key_required get_current_user x_api_key).
Definition route_revoke_api_key key_id :=
  serve_api (login_required (revoke_api_key key_id)).
Definition route_update_user user_id data :=
  serve_api (login_required (admin_required (update_user user_id data))).
Definition route_delete_user user_id :=
  serve_api (login_required (admin_required (delete_user user_id))).

(** ** The rest of [app/models.py], and [app/forms.py] *)

(** [User.set_password] *)
Definition set_password (self : User.t) (password : string) : M User.t :=
  salt <- urandom ;;
  ret (User.with_password_hash (bcrypt_generate_password_hash salt password) self).

(** [db.session.add(user)] of a new user.  The row is written at once,
    with the next row id and its [created_at] default, a clock read: in
    both callers the commit is the next statement. *)
Definition session_add_user (user : User.t) : M unit :=
  fun w =>
    let row := User.with_created_at (utc (ticks w))
                 (User.with_id (next_id (map User.id (users w))) user) in
    (Return tt, tick (set_tables (users w ++ [row]) (api_keys w) w)).

(** Characters are the code points below 256; there [\d] is [0-9]. *)
Definition in_range (lo hi : nat) (c : ascii) : bool :=
  (lo <=? nat_of_ascii c)%nat && (nat_of_ascii c <=? hi)%nat.

Definition is_uppercase : ascii -> bool := in_range 65 90.    (* A-Z *)
Definition is_lowercase : ascii -> bool := in_range 97 122.   (* a-z *)
Definition is_digit : ascii -> bool := in_range 48 57.        (* digits *)

(** The class of special characters of the validator; 34 is the double
    quote, which stands between the question mark and the colon. *)
Definition special_characters : list ascii :=
  list_ascii_of_string "!@#$%^&*(),.?" ++ [ascii_of_nat 34]
  ++ list_ascii_of_string ":{}|<>".

Definition is_special (c : ascii) : bool :=
  existsb (Ascii.eqb c) special_characters.

(** [re.search(cls, s)] for a one-character class, as a truth value. *)
Definition re_search (cls : ascii -> bool) (s : string) : bool :=
  existsb cls (list_ascii_of_string s).

(** [str(n)] of an integer *)
Definition str_int (n : Z) : string :=
  DecimalString.NilZero.string_of_int (Z.to_int n).

(** The list [errors] of [PasswordValidator.__call__]. *)
Definition password_errors (min_length : Z) (password : string) : list string :=
  (if Z.of_nat (String.length password) <? min_length
   then [("at least " ++ str_int min_length ++ " characters")%string] else [])
  ++ (if negb (re_search is_uppercase password)
      then ["at least one uppercase letter"] else [])
  ++ (if negb (re_search is_lowercase password)
      then ["at least one lowercase letter"] else [])
  ++ (if negb (re_search is_digit password)
      then ["at least one digit"] else [])
  ++ (if negb (re_search is_special password)
      then ["at least one special character"] else []).

(** [PasswordValidator(min_length)(form, field)]: [None] when the password
    passes, the message of the [ValidationError] otherwise. *)
Definition PasswordValidator (min_length : Z) (password : string) : option string :=
  match password_errors min_length password with
  | [] => None
  | errors =>
      Some ("Password must contain " ++ String.concat ", " errors ++ ".")%string
  end.

(** The forms; [*_library_valid] stands for what wtforms checks by
    itself: the POST, the CSRF token and the validators [DataRequired],
    [Length], [Regexp], [Email] and [EqualTo]. *)
Record RegistrationForm := {
  reg_username_data : string;
  reg_email_data : string;
  reg_password_data : string;
  reg_password2_data : string;
  reg_library_valid : bool
}.

Record ChangePasswordForm := {
  current_password_data : string;
  new_password_data : string;
  new_password2_data : string;
  change_library_valid : bool
}.

Record ProfileUpdateForm := {
  profile_email_data : string;
  profile_library_valid : bool
}.

(** [User.query.filter_by(username=x).first()] *)
Definition first_user_by_username (x : string) : M (option User.t) :=
  fun w => (Return (find (fun r => (User.username r =? x)%string) (users w)), w).

(** [User.query.filter_by(email=x).first()] *)
Definition first_user_by_email (x : string) : M (option User.t) :=
  fun w => (Return (find (fun r => (User.email r =? x)%string) (users w)), w).

(** [RegistrationForm.validate_username]: [true] when no error is raised. *)
Definition RegistrationForm_validate_username (username_data : string) : M bool :=
  user <- first_user_by_username username_data ;;
  match user with
  | Some _ => ret false
  | None => ret true
  end.

(** [RegistrationForm.validate_email] *)
Definition RegistrationForm_validate_email (email_data : string) : M bool :=
  user <- first_user_by_email (lower email_data) ;;
  match user with
  | Some _ => ret false
  | None => ret true
  end.

(** [ProfileUpdateForm.validate_email] *)
Definition ProfileUpdateForm_validate_email
           (original_email email_data : string) : M bool :=
  if negb (lower email_data =? lower original_email)%string then
    user <- first_user_by_email (lower email_data) ;;
    match user with
    | Some _ => ret false
    | None => ret true
    end
  else ret true.

(** [form.validate_on_submit()]: every validator runs, and the form is
    valid when none has raised. *)
Definition RegistrationForm_validate_on_submit (form : RegistrationForm) : M bool :=
  let strong := match PasswordValidator 8 (reg_password_data form) with
                | None => true
                | Some _ => false
                end in
  free_name <- RegistrationForm_validate_username (reg_username_data form) ;;
  free_email <- RegistrationForm_validate_email (reg_email_data form) ;;
  ret (reg_library_valid form && strong && free_name && free_email).

Definition ChangePasswordForm_validate_on_submit (form : ChangePasswordForm) : bool :=
  change_library_valid form
  && match PasswordValidator 8 (new_password_data form) with
     | None => true
     | Some _ => false
     end.

Definition ProfileUpdateForm_validate_on_submit
           (original_email : string) (form : ProfileUpdateForm) : M bool :=
  free_email <- ProfileUpdateForm_validate_email original_email
                  (profile_email_data form) ;;
  ret (profile_library_valid form && free_email).

(** ** The rest of [app/routes/auth.py], and [app/routes/main.py] *)

(** [GET/POST /auth/register].  The [except] branch answers integrity
    errors of the storage layer and is outside the model. *)
Definition register (form : RegistrationForm) : M response :=
  cu <- current_user ;;
  if authenticated cu then ret (Redirect "main.dashboard")
  else
    valid <- RegistrationForm_validate_on_submit form ;;
    if valid then
      (* Create new user *)
      let user := User.init (reg_username_data form)
                            (lower (reg_email_data form)) in
      user <- set_password user (reg_password_data form) ;;
      session_add_user user ;;
      commit ;;
      flash "Registration successful! You can now log in." "success" ;;
      ret (Redirect "auth.login")
    else ret (Render "auth/register.html" 200).

(** flask_login's [logout_user()] *)
Definition logout_user : M unit :=
  fun w => (Return tt, set_logged_in None w).

(** [GET /auth/logout], under [@login_required] *)
Definition logout : M response :=
  logout_user ;;
  flash "You have been logged out successfully." "info" ;;
  ret (Redirect "main.index").

(** [GET/POST /auth/profile], under [@login_required] *)
Definition profile (form : ProfileUpdateForm) : M response :=
  cu <- current_user ;;
  match cu with
  | None => raise AttributeError
  | Some user =>
      valid <- ProfileUpdateForm_validate_on_submit (User.email user) form ;;
      if valid then
        let user := User.with_email (lower (profile_email_data form)) user in
        stage (UpdateUser user) ;;
        commit ;;
        flash "Your profile has been updated successfully." "success" ;;
        ret (Redirect "auth.profile")
      else ret (Render "auth/profile.html" 200)
  end.

(** [GET/POST /auth/change-password], under [@login_required] *)
Definition change_password (form : ChangePasswordForm) : M response :=
  if ChangePasswordForm_validate_on_submit form then
    cu <- current_user ;;
    match cu with
    | None => raise AttributeError
    | Some user =>
        (* Verify current password *)
        ok <- check_password user (current_password_data form) ;;
        if negb ok then
          flash "Current password is incorrect." "danger" ;;
          ret (Render "auth/change_password.html" 200)
        else
          (* Check that new password is different *)
          same <- check_password user (new_password_data form) ;;
          if same then
            flash "New password must be different from current password." "warning" ;;
            ret (Render "auth/change_password.html" 200)
          else
            (* Update password *)
            user <- set_password user (new_password_data form) ;;
            stage (UpdateUser user) ;;
            commit ;;
            flash "Your password has been changed successfully." "success" ;;
            ret (Redirect "auth.profile")
    end
  else ret (Render "auth/change_password.html" 200).

(** [GET /dashboard], under [@login_required] *)
Definition dashboard : M response := ret (Render "dashboard.html" 200).

Definition route_register form := serve (register form).
Definition route_logout := serve (login_required logout).
Definition route_profile form := serve (login_required (profile form)).
Definition route_change_password form :=
  serve (login_required (change_password form)).
Definition route_dashboard := serve (login_required dashboard).

(** ** The rest of [app/routes/api.py] *)

(** [GET /api/users/<user_id>], the view [get_user], under
    [@login_required] and [@admin_required] *)
Definition get_user_view (user_id : Z) : M response :=
  user <- query_get_user user_id ;;
  match user with
  | None => ret (Json (ErrorBody "Not found" "User not found") 404)
  | Some user => ret (Json (UserBody user) 200)
  end.

Definition route_get_user user_id :=
  serve_api (login_required (admin_required (get_user_view user_id))).

(** The answers of the key views: those above, the list of keys, each as
    [key.to_dict()], and the answer to a created key. *)
Inductive api_reply :=
| Plain (r : response)
| KeysBody (keys : list ApiKey.t) (status : Z)
| CreatedBody (message api_key : string) (key_info : ApiKey.t)
              (warning : string) (status : Z).

Definition reply_status (r : api_reply) : Z :=
  match r with
  | Plain r => status_of r
  | KeysBody _ s => s
  | CreatedBody _ _ _ _ s => s
  end.

(** [@login_required] and the blueprint's 500 handler, around a key view. *)
Definition login_required_reply (f : M api_reply) : M api_reply :=
  cu <- current_user ;;
  if negb (authenticated cu) then
    flash "Please log in to access this page." "info" ;;
    ret (Plain (Redirect "auth.login"))
  else f.

Definition serve_api_reply (h : M api_reply) (w : World) : api_reply * World :=
  match h w with
  | (Return r, w') => (r, w')
  | (Raise _, w') =>
      (Plain (Json (ErrorBody "Internal server error"
                      "An unexpected error occurred") 500),
       rollback w')
  end.

(** [ApiKey.query.filter_by(user_id=uid).all()] *)
Definition api_keys_of (uid : Z) : M (list ApiKey.t) :=
  fun w => (Return (filter (fun r => ApiKey.user_id r =? uid) (api_keys w)), w).

(** [GET /api/keys] *)
Definition list_api_keys : M api_reply :=
  uid <- current_user_id ;;
  keys <- api_keys_of uid ;;
  ret (KeysBody keys 200).

(** The object after the commit that inserted it: the last row. *)
Definition refreshed (api_key_obj : ApiKey.t) : M ApiKey.t :=
  fun w => (Return (last (api_keys w) api_key_obj), w).

(** [POST /api/keys]; [data] is [request.get_json()].  The name reaches
    its column when the row is written. *)
Definition create_api_key (data : json) : M api_reply :=
  let invalid := Plain (Json (ErrorBody "Invalid request"
                                "API key name is required") 400) in
  if negb (truthy data) then ret invalid
  else
    has_name <- lift (py_in "name" data) ;;
    if negb has_name then ret invalid
    else
      (* Generate new API key *)
      api_key <- token_urlsafe 32 ;;
      name <- lift (py_getitem data "name") ;;
      uid <- current_user_id ;;
      api_key_obj <- set_key (ApiKey.init "" uid) api_key ;;
      name <- lift (column_text name) ;;
      stage (InsertKey (ApiKey.with_name name api_key_obj)) ;;
      commit ;;
      key_info <- refreshed api_key_obj ;;
      ret (CreatedBody "API key created successfully" api_key key_info
             "Save this key now. You will not be able to see it again." 201).

Definition route_list_api_keys :=
  serve_api_reply (login_required_reply list_api_keys).
Definition route_create_api_key data :=
  serve_api_reply (login_required_reply (create_api_key data)).

(** ** [app/__init__.py] *)

(** The default admin of [create_app]; the arguments are the environment
    variables [ADMIN_EMAIL] and [ADMIN_PASSWORD]. *)
Definition create_default_admin (admin_email admin_password : option string)
  : M unit :=
  admin <- first_user_by_username "admin" ;;
  match admin with
  | Some _ => ret tt
  | None =>
      let admin :=
        User.with_is_admin true
          (User.init "admin" (match admin_email with
                              | Some e => e
                              | None => "admin@example.com"
                              end)) in
      admin <- set_password admin (match admin_password with
                                   | Some p => p
                                   | None => "changeme123"
                                   end) ;;
      session_add_user admin ;;
      commit
  end.

(** ** Vocabulary of the properties *)

(** [n] consecutive calls of [record_failed_login] on one user object. *)
Fixpoint record_failures (n : nat) (self : User.t) : M User.t :=
  match n with
  | O => ret self
  | S n' => self <- record_failed_login self ;; record_failures n' self
  end.

(** The value a run returns, if it returns one. *)
Definition value {A} (r : outcome A * World) : option A :=
  match fst r with
  | Return a => Some a
  | Raise _ => None
  end.

(** The body of a login request with string credentials. *)
Definition credentials (username password : string) : json :=
  JObj [("username", JStr username); ("password", JStr password)].

(** The world after [n] more reads of the clock. *)
Definition advance (n : nat) (w : World) : World := Nat.iter n tick w.

(** From the [lo]-th clock reading on, the stored key [k] turns the
    presented [key] down: it is inactive, or expired, or its hash does
    not match. *)
Definition refused (lo : nat) (key : string) (k : ApiKey.t) : Prop :=
  ApiKey.is_active k = false
  \/ (exists e, ApiKey.expires_at k = Some e /\ forall m, (lo <= m)%nat -> e < utc m)
  \/ check_password_hash (ApiKey.key_hash k) key = false.

(** From the [lo]-th clock reading on, the stored key [k] takes the
    presented [key]: it is active, not expired, and its hash matches. *)
Definition accepted (lo : nat) (key : string) (k : ApiKey.t) : Prop :=
  ApiKey.is_active k = true
  /\ (forall e, ApiKey.expires_at k = Some e -> forall m, (lo <= m)%nat -> utc m <= e)
  /\ check_password_hash (ApiKey.key_hash k) key = true.

(** [u'] agrees with [u] on every field but [is_active], [is_admin]
    and [email]. *)
Definition same_outside_update (u u' : User.t) : Prop :=
  User.id u' = User.id u
  /\ User.username u' = User.username u
  /\ User.password_hash u' = User.password_hash u
  /\ User.failed_login_attempts u' = User.failed_login_attempts u
  /\ User.last_failed_login u' = User.last_failed_login u
  /\ User.account_locked_until u' = User.account_locked_until u
  /\ User.created_at u' = User.created_at u
  /\ User.last_login u' = User.last_login u.

(** The session of [w] belongs to [cu], an authenticated user. *)
Definition signed_in (cu : User.t) (w : World) : Prop :=
  logged_in w = Some (User.id cu)
  /\ get_user (User.id cu) (users w) = Some cu
  /\ is_authenticated cu = true.

(** The 401 responses of [api_key_required]. *)
Definition key_required : response :=
  Json (ErrorBody "API key required"
          "Please provide an API key in the X-API-Key header") 401.
Definition key_invalid : response :=
  Json (ErrorBody "Invalid API key"
          "The provided API key is invalid or has expired") 401.

(** The name or address [name] resolves the user [u] in [w]. *)
Definition resolves (name : string) (u : User.t) (w : World) : Prop :=
  find (fun r => (User.username r =? name)%string
                 || (User.email r =? lower name)%string) (users w) = Some u.

(** [u'] is the account [u]: the identity, the credentials and the flags
    are the same; the lockout fields and [last_login] may differ. *)
Definition same_account (u u' : User.t) : Prop :=
  User.id u' = User.id u
  /\ User.username u' = User.username u
  /\ User.email u' = User.email u
  /\ User.password_hash u' = User.password_hash u
  /\ User.is_active u' = User.is_active u
  /\ User.is_admin u' = User.is_admin u
  /\ User.created_at u' = User.created_at u.

(** Where a successful login sends the browser. *)
Definition login_target (next_arg : option string) : string :=
  match next_arg with
  | Some next_page =>
      if String.prefix "/" next_page then next_page else "main.dashboard"
  | None => "main.dashboard"
  end.

(** The flashes of [login]. *)
Definition flash_invalid : string * string :=
  ("Invalid username/email or password.", "danger").
Definition flash_locked : string * string :=
  (("Your account is temporarily locked due to multiple failed login attempts. "
    ++ "Please try again later.")%string, "warning").
Definition flash_deactivated : string * string :=
  ("Your account has been deactivated. Please contact support.", "danger").

(** The answers of [api_login] to a request it turns down. *)
Definition login_invalid_request : response :=
  Json (ErrorBody "Invalid request" "Username and password are required") 400.
Definition login_failed : response :=
  Json (ErrorBody "Authentication failed" "Invalid username or password") 401.
Definition server_error : response :=
  Json (ErrorBody "Internal server error" "An unexpected error occurred") 500.

(** The answers of the guards and of the admin views. *)
Definition admin_only : response :=
  Json (ErrorBody "Admin access required"
          "You do not have permission to access this resource") 403.
Definition user_not_found : response :=
  Json (ErrorBody "Not found" "User not found") 404.
Definition flash_please_log_in : string * string :=
  ("Please log in to access this page.", "info").

(** The browser of [w] has no authenticated user behind it. *)
Definition signed_out (w : World) : Prop :=
  match logged_in w with
  | Some uid =>
      match get_user uid (users w) with
      | Some u => is_authenticated u = false
      | None => True
      end
  | None => True
  end.

(** The accounts of [w] are told apart by id, by name and by address. *)
Definition unique_accounts (w : World) : Prop :=
  NoDup (map User.id (users w))
  /\ NoDup (map User.username (users w))
  /\ NoDup (map User.email (users w)).

(** Every stored address is in lower case. *)
Definition emails_lowercase (w : World) : Prop :=
  forall r, In r (users w) -> lower (User.email r) = User.email r.

(** The row [register] writes for a form, given the salt and the clock
    reading of the request. *)
Definition registered (form : RegistrationForm) (w : World) : User.t :=
  User.mk (next_id (map User.id (users w)))
          (reg_username_data form)
          (lower (reg_email_data form))
          (bcrypt_generate_password_hash (entropy (draws w))
                                         (reg_password_data form))
          true false 0 None None (utc (ticks w)) None.

Definition flash_registered : string * string :=
  ("Registration successful! You can now log in.", "success").

(** The row [create_api_key] writes for the caller [cu] and the column
    text [name], given the draws and the clock reading of the request. *)
Definition created_key (cu : User.t) (name : string) (w : World) : ApiKey.t :=
  ApiKey.mk (next_id (map ApiKey.id (api_keys w)))
            (generate_password_hash (entropy (S (draws w))) (entropy (draws w)))
            name (User.id cu) true None (utc (ticks w)) None.

Definition key_name_required : api_reply :=
  Plain (Json (ErrorBody "Invalid request" "API key name is required") 400).

(** ** Properties *)

Ltac mrun :=
  unfold bind, ret, raise, lift, utcnow, urandom, stage, commit, flash; simpl.

(** *** Lockout policy *)

(** C4. [is_account_locked] at the clock reading [now]: with a lock set
    and [now] before it, it answers locked and leaves the user object and
    the tables as they are (only the clock was read); with a lock set and
    [now] at or past it, it clears [account_locked_until], resets
    [failed_login_attempts] to 0, commits that row and answers unlocked;
    with no lock set it answers unlocked and touches nothing. *)
Theorem is_account_locked_spec (self : User.t) (w : World) :
  (forall locked_until,
      User.account_locked_until self = Some locked_until ->
      utc (ticks w) < locked_until ->
      is_account_locked self w = (Return (true, self), tick w)) /\
  (forall locked_until,
      User.account_locked_until self = Some locked_until ->
      locked_until <= utc (ticks w) ->
      let self' := User.with_failed_login_attempts 0
                     (User.with_account_locked_until None self) in
      exists w',
        is_account_locked self w = (Return (false, self'), w') /\
        User.account_locked_until self' = None /\
        User.failed_login_attempts self' = 0 /\
        (pending w = [] ->
         w' = set_tables (replace_user self' (users w)) (api_keys w) (tick w))) /\
  (User.account_locked_until self = None ->
   is_account_locked self w = (Return (false, self), w)).
Proof.
  unfold is_account_locked. repeat split.
  - intros t Ht Hlt. rewrite Ht. mrun.
    apply Z.ltb_lt in Hlt. rewrite Hlt. reflexivity.
  - intros t Ht Hle. rewrite Ht. mrun.
    apply Z.ltb_ge in Hle. rewrite Hle.
    eexists. split; [reflexivity|]. repeat split.
    intros Hp. destruct w; simpl in Hp; subst. reflexivity.
  - intros H. rewrite H. reflexivity.
Qed.

(** One call of [record_failed_login] in a session with nothing staged. *)
Lemma record_failed_login_run (self : User.t) (w : World) :
  pending w = [] ->
  let n := User.failed_login_attempts self + 1 in
  let s1 := User.with_last_failed_login (Some (utc (ticks w)))
              (User.with_failed_login_attempts n self) in
  let s2 := User.with_account_locked_until
              (Some (utc (S (ticks w)) + timedelta_minutes 30)) s1 in
  record_failed_login self w =
  if n >=? 5
  then (Return s2, set_tables (replace_user s2 (users w)) (api_keys w) (tick (tick w)))
  else (Return s1, set_tables (replace_user s1 (users w)) (api_keys w) (tick w)).
Proof.
  intros Hp. destruct w as [us ks p li fl tk dr tr]; simpl in Hp; subst p.
  unfold record_failed_login. mrun.
  destruct (User.failed_login_attempts self + 1 >=? 5); reflexivity.
Qed.

(** Below the threshold, [n] failures count up and leave the lock alone. *)
Lemma record_failures_below (n : nat) :
  forall (u : User.t) (w : World),
    pending w = [] ->
    User.failed_login_attempts u + Z.of_nat n < 5 ->
    exists u' w',
      record_failures n u w = (Return u', w') /\
      User.failed_login_attempts u' = User.failed_login_attempts u + Z.of_nat n /\
      User.account_locked_until u' = User.account_locked_until u /\
      pending w' = [] /\
      ticks w' = (ticks w + n)%nat.
Proof.
  induction n as [|n IH]; intros u w Hp Hlt.
  - exists u, w. simpl. repeat split; auto with zarith.
  - change (record_failures (S n) u w)
      with (match record_failed_login u w with
            | (Return s, w') => record_failures n s w'
            | (Raise e, w') => (Raise e, w')
            end).
    rewrite (record_failed_login_run u w Hp). cbv zeta.
    destruct (User.failed_login_attempts u + 1 >=? 5) eqn:E.
    { apply Z.geb_le in E. lia. }
    match goal with
    | |- context [record_failures n ?s ?w0] =>
        destruct (IH s w0) as (u' & w' & Hr & Hf & Hl & Hp' & Ht)
    end.
    + exact Hp.
    + simpl. lia.
    + exists u', w'. rewrite Hr. simpl in Hf, Hl, Ht.
      repeat split; auto; lia.
Qed.

(** [n + 1] failures are [n] failures and one more. *)
Lemma record_failures_snoc (n : nat) :
  forall (u : User.t) (w : World),
    record_failures (n + 1) u w
    = match record_failures n u w with
      | (Return s, w') => record_failed_login s w'
      | (Raise e, w') => (Raise e, w')
      end.
Proof.
  induction n as [|n IH]; intros u w; simpl; unfold bind, ret.
  - destruct (record_failed_login u w) as [[s|e] w']; reflexivity.
  - destruct (record_failed_login u w) as [[s|e] w']; [apply IH|reflexivity].
Qed.

(** C3, as the code has it.  From a user with no recorded failure, four
    calls of [record_failed_login] leave [account_locked_until] as it
    was; the fifth sets it to its own clock reading plus thirty minutes.
    The transition is not one-shot: a sixth call sets
    [account_locked_until] again, to the sixth call's clock reading plus
    thirty minutes. *)
Theorem record_failed_login_lockout (u : User.t) (w : World) :
  User.failed_login_attempts u = 0 ->
  pending w = [] ->
  (exists u4 w4,
      record_failures 4 u w = (Return u4, w4) /\
      User.failed_login_attempts u4 = 4 /\
      User.account_locked_until u4 = User.account_locked_until u) /\
  exists u5 w5,
    record_failures 5 u w = (Return u5, w5) /\
    User.failed_login_attempts u5 = 5 /\
    User.last_failed_login u5 = Some (utc (ticks w + 4)) /\
    User.account_locked_until u5
    = Some (utc (ticks w + 5) + timedelta_minutes 30) /\
    exists u6 w6,
      record_failed_login u5 w5 = (Return u6, w6) /\
      User.failed_login_attempts u6 = 6 /\
      User.last_failed_login u6 = Some (utc (ticks w + 6)) /\
      User.account_locked_until u6
      = Some (utc (ticks w + 7) + timedelta_minutes 30).
Proof.
  intros Hf Hp.
  destruct (record_failures_below 4 u w Hp) as (u4 & w4 & Hr & Hf4 & Hl4 & Hp4 & Ht4).
  { rewrite Hf. reflexivity. }
  rewrite Hf in Hf4. simpl in Hf4.
  split.
  - exists u4, w4. auto.
  - change 5%nat with (4 + 1)%nat. rewrite record_failures_snoc, Hr.
    rewrite (record_failed_login_run u4 w4 Hp4). cbv zeta.
    rewrite Hf4, Ht4. simpl (4 + 1 >=? 5).
    do 2 eexists. split; [reflexivity|].
    split; [reflexivity|]. split; [reflexivity|].
    split; [simpl; do 2 f_equal; f_equal; lia|].
    match goal with
    | |- context [record_failed_login ?s ?w0] =>
        rewrite (record_failed_login_run s w0 Hp4)
    end.
    cbv zeta. simpl (User.failed_login_attempts _ + 1 >=? 5). cbv iota.
    do 2 eexists. split; [reflexivity|].
    split; [reflexivity|]. simpl. rewrite Ht4.
    split; do 2 f_equal; try f_equal; lia.
Qed.

(** *** API keys *)

Lemma advance_fields (n : nat) (w : World) :
  users (advance n w) = users w /\
  api_keys (advance n w) = api_keys w /\
  pending (advance n w) = pending w /\
  logged_in (advance n w) = logged_in w /\
  ticks (advance n w) = (ticks w + n)%nat.
Proof.
  unfold advance. induction n as [|n (Hu & Hk & Hp & Hl & Ht)]; simpl.
  - repeat split; lia.
  - rewrite Hu, Hk, Hp, Hl, Ht. repeat split; lia.
Qed.

Lemma refused_mono (lo lo' : nat) (key : string) (k : ApiKey.t) :
  (lo <= lo')%nat -> refused lo key k -> refused lo' key k.
Proof.
  intros Hle [H | [(e & He & H) | H]]; [left | right; left | right; right]; auto.
  exists e. split; [exact He|]. intros m Hm. apply H. lia.
Qed.

(** A refused key makes [verify_key] answer [False], after at most one
    read of the clock. *)
Lemma verify_key_refused (k : ApiKey.t) (key : string) (w : World) :
  refused (ticks w) key k ->
  exists n, (n <= 1)%nat /\ verify_key k key w = (Return false, advance n w).
Proof.
  intros Href. unfold verify_key.
  destruct (ApiKey.is_active k) eqn:Ha; simpl.
  2:{ exists 0%nat. split; [lia | reflexivity]. }
  destruct (ApiKey.expires_at k) as [e|] eqn:He.
  - exists 1%nat. split; [lia|]. mrun.
    destruct Href as [H | [(e' & He' & H) | H]].
    + congruence.
    + assert (e' = e) as -> by congruence. specialize (H (ticks w) (Nat.le_refl _)).
      apply Z.gtb_lt in H. rewrite H. reflexivity.
    + rewrite H. destruct (utc (ticks w) >? e); reflexivity.
  - exists 0%nat. split; [lia|].
    destruct Href as [H | [(e' & He' & H) | H]]; try congruence.
    rewrite H. reflexivity.
Qed.

(** When every key of the list is refused, the loop finds nothing and
    only the clock has been read. *)
Lemma find_api_key_refused (key : string) (keys : list ApiKey.t) :
  forall w : World,
    (forall k, In k keys -> refused (ticks w) key k) ->
    exists n, find_api_key keys key w = (Return (false, None), advance n w).
Proof.
  induction keys as [|k rest IH]; intros w Hall.
  - exists 0%nat. reflexivity.
  - destruct (verify_key_refused k key w) as (n & Hn & Hv).
    { apply Hall. left. reflexivity. }
    destruct (IH (advance n w)) as (n' & Hr).
    { intros k' Hin. apply refused_mono with (lo := ticks w).
      - destruct (advance_fields n w) as (_ & _ & _ & _ & Ht). lia.
      - apply Hall. right. exact Hin. }
    simpl. unfold bind at 1. rewrite Hv, Hr.
    exists (n' + n)%nat. unfold advance. rewrite Nat.iter_add. reflexivity.
Qed.

(** C6. A key whose [expires_at] is set and before the clock reading
    fails [verify_key], whatever its [is_active] flag and whatever the
    presented value; and when no other stored key takes the presented
    value, the request guarded by [api_key_required] resolves no user:
    it is answered 401 and the tables are as before. *)
Theorem expired_key_fails_verification
        (self : ApiKey.t) (key : string) (w : World) (e : datetime) :
  ApiKey.expires_at self = Some e ->
  e < utc (ticks w) ->
  verify_key self key w
  = (Return false, if ApiKey.is_active self then tick w else w)
  /\ ((forall m, (ticks w <= m)%nat -> e < utc m) ->
      (forall k, In k (api_keys w) -> k <> self ->
                 check_password_hash (ApiKey.key_hash k) key = false) ->
      forall f, exists n r,
        api_key_required f (Some key) w = (Return r, advance n w)
        /\ status_of r = 401).
Proof.
  intros He Hlt. split.
  - unfold verify_key. destruct (ApiKey.is_active self); simpl; [|reflexivity].
    rewrite He. mrun. apply Z.gtb_lt in Hlt. rewrite Hlt. reflexivity.
  - intros Hexp Hother f. unfold api_key_required.
    destruct (key =? "")%string.
    + exists 0%nat. eexists. split; reflexivity.
    + destruct (find_api_key_refused key (filter ApiKey.is_active (api_keys w)) w)
        as (n & Hr).
      { intros k Hin. apply filter_In in Hin. destruct Hin as [Hin _].
        destruct (ApiKey.eq_dec k self) as [-> | Hne].
        - right. left. exists e. split; [exact He | exact Hexp].
        - right. right. apply Hother; assumption. }
      mrun. unfold active_api_keys. rewrite Hr.
      exists n. eexists. split; reflexivity.
Qed.

Lemma accepted_mono (lo lo' : nat) (key : string) (k : ApiKey.t) :
  (lo <= lo')%nat -> accepted lo key k -> accepted lo' key k.
Proof.
  intros Hle (Ha & He & Hc). repeat split; auto.
  intros e Hx m Hm. apply (He e Hx). lia.
Qed.

Lemma verify_key_accepted (k : ApiKey.t) (key : string) (w : World) :
  accepted (ticks w) key k ->
  exists n, verify_key k key w = (Return true, advance n w).
Proof.
  intros (Ha & He & Hc). unfold verify_key. rewrite Ha. simpl.
  destruct (ApiKey.expires_at k) as [e|].
  - exists 1%nat. mrun.
    specialize (He e eq_refl (ticks w) (Nat.le_refl _)).
    destruct (utc (ticks w) >? e) eqn:E.
    + apply Z.gtb_lt in E. lia.
    + rewrite Hc. reflexivity.
  - exists 0%nat. rewrite Hc. reflexivity.
Qed.

(** [record_usage] in a session with nothing staged. *)
Lemma record_usage_run (k : ApiKey.t) (w : World) :
  pending w = [] ->
  let k' := ApiKey.with_last_used (Some (utc (ticks w))) k in
  record_usage k w
  = (Return k', set_tables (users w) (replace_key k' (api_keys w)) (tick w)).
Proof.
  intros Hp. destruct w as [us ks p li fl tk dr tr]; simpl in Hp; subst p.
  reflexivity.
Qed.

(** The loop stops at the first accepted key: its usage is recorded and
    its owner is the user the request resolves to. *)
Lemma find_api_key_first (key : string) (k : ApiKey.t) (post pre : list ApiKey.t) :
  forall w : World,
    pending w = [] ->
    (forall k', In k' pre -> refused (ticks w) key k') ->
    accepted (ticks w) key k ->
    exists w' t,
      find_api_key (pre ++ k :: post) key w
      = (Return (true, get_user (ApiKey.user_id k) (users w)), w')
      /\ users w' = users w
      /\ api_keys w' = replace_key (ApiKey.with_last_used (Some t) k) (api_keys w)
      /\ pending w' = []
      /\ logged_in w' = logged_in w.
Proof.
  induction pre as [|k0 pre IH]; intros w Hp Hpre Hacc.
  - destruct (verify_key_accepted k key w Hacc) as (n & Hv).
    destruct (advance_fields n w) as (Hu & Hk & Hpn & Hl & Ht).
    simpl. unfold bind at 1. rewrite Hv.
    unfold bind at 1. rewrite record_usage_run by congruence. cbv zeta.
    unfold bind, key_user, query_get_user, ret. simpl.
    do 2 eexists. split; [rewrite Hu; reflexivity|].
    unfold set_tables, tick; cbn [users api_keys pending logged_in].
    rewrite Hk. repeat split; congruence.
  - destruct (verify_key_refused k0 key w) as (n & Hn & Hv).
    { apply Hpre. left. reflexivity. }
    destruct (advance_fields n w) as (Hu & Hk & Hpn & Hl & Ht).
    destruct (IH (advance n w)) as (w' & t & Hr & Hu' & Hk' & Hp' & Hl').
    + congruence.
    + intros k' Hin. apply refused_mono with (lo := ticks w); [lia|].
      apply Hpre. right. exact Hin.
    + apply accepted_mono with (lo := ticks w); [lia | exact Hacc].
    + simpl. unfold bind at 1. rewrite Hv, Hr.
      exists w', t. rewrite Hu. rewrite Hu in Hu'. rewrite Hk in Hk'.
      rewrite Hl in Hl'. repeat split; assumption.
Qed.

(** C7. Under [api_key_required], whatever the guarded view [f]: a
    request without a key, or with an empty one, is answered 401; a
    request whose key matches the hash of no active stored key is answered
    401 and only the clock has been read; and when the first key that
    verifies belongs to a user whose [is_active] flag is false, the
    request is answered 403, so the guarded view does not run. *)
Theorem api_key_required_guard (f : User.t -> M response) (w : World) :
  api_key_required f None w = (Return key_required, w)
  /\ (forall key,
        (forall k, In k (api_keys w) -> ApiKey.is_active k = true ->
                   check_password_hash (ApiKey.key_hash k) key = false) ->
        exists n,
          api_key_required f (Some key) w
          = (Return (if (key =? "")%string then key_required else key_invalid),
             advance n w))
  /\ (forall key pre k post u,
        pending w = [] ->
        key <> "" ->
        filter ApiKey.is_active (api_keys w) = pre ++ k :: post ->
        (forall k', In k' pre -> refused (ticks w) key k') ->
        accepted (ticks w) key k ->
        get_user (ApiKey.user_id k) (users w) = Some u ->
        User.is_active u = false ->
        exists w',
          api_key_required f (Some key) w
          = (Return (Json (ErrorBody "Account deactivated"
                             "Your account has been deactivated") 403), w')
          /\ users w' = users w).
Proof.
  split; [reflexivity|]. split.
  - intros key Hno. unfold api_key_required.
    destruct (key =? "")%string.
    + exists 0%nat. reflexivity.
    + destruct (find_api_key_refused key (filter ApiKey.is_active (api_keys w)) w)
        as (n & Hr).
      { intros k Hin. apply filter_In in Hin. destruct Hin as [Hin Ha].
        right. right. apply Hno; assumption. }
      mrun. unfold active_api_keys. rewrite Hr.
      exists n. reflexivity.
  - intros key pre k post u Hp Hkey Hsplit Hpre Hacc Hu Hina.
    unfold api_key_required.
    destruct (key =? "")%string eqn:E; [apply String.eqb_eq in E; contradiction|].
    destruct (find_api_key_first key k post pre w Hp Hpre Hacc)
      as (w' & t & Hr & Hu' & _).
    mrun. unfold active_api_keys. rewrite Hsplit, Hr, Hu. simpl.
    rewrite Hina. simpl. exists w'. split; [reflexivity | exact Hu'].
Qed.

(** *** Session-authenticated routes *)

Lemma current_user_signed_in (cu : User.t) (w : World) :
  signed_in cu w -> current_user w = (Return (Some cu), w).
Proof.
  intros (Hl & Hg & _). unfold current_user. rewrite Hl, Hg. reflexivity.
Qed.

(** The decorators let an authenticated caller through. *)
Lemma login_route_run (h : M response) (cu : User.t) (w : World) :
  signed_in cu w -> login_required h w = h w.
Proof.
  intros Hs. pose proof (current_user_signed_in cu w Hs) as Hcu.
  destruct Hs as (_ & _ & Ha).
  unfold login_required, bind. rewrite Hcu. simpl. rewrite Ha. reflexivity.
Qed.

Lemma admin_route_run (h : M response) (cu : User.t) (w : World) :
  signed_in cu w -> User.is_admin cu = true ->
  login_required (admin_required h) w = h w.
Proof.
  intros Hs Hadm. rewrite (login_route_run _ cu w Hs).
  pose proof (current_user_signed_in cu w Hs) as Hcu.
  destruct Hs as (_ & _ & Ha).
  unfold admin_required, bind. rewrite Hcu. simpl. rewrite Ha, Hadm. reflexivity.
Qed.

Lemma find_none_iff {A} (p : A -> bool) (l : list A) :
  find p l = None <-> forall x, In x l -> p x = false.
Proof.
  split.
  - intros H x Hin. apply (find_none p l H x Hin).
  - induction l as [|a l IH]; intros H; simpl; [reflexivity|].
    rewrite (H a (or_introl eq_refl)). apply IH.
    intros x Hin. apply H. right. exact Hin.
Qed.

(** [DELETE /api/keys/<key_id>] for an authenticated caller. *)
Lemma revoke_api_key_run (key_id : Z) (cu : User.t) (w : World) :
  signed_in cu w ->
  pending w = [] ->
  route_revoke_api_key key_id w
  = match find (fun r => (ApiKey.id r =? key_id)
                         && (ApiKey.user_id r =? User.id cu)) (api_keys w) with
    | Some k =>
        (Json (MessageBody "API key revoked successfully") 200,
         set_tables (users w)
           (filter (fun r => negb (ApiKey.id r =? ApiKey.id k)) (api_keys w)) w)
    | None => (Json (ErrorBody "Not found" "API key not found") 404, w)
    end.
Proof.
  intros Hs Hp. unfold route_revoke_api_key, serve_api.
  rewrite (login_route_run _ cu w Hs).
  unfold revoke_api_key, current_user_id, bind.
  rewrite (current_user_signed_in cu w Hs). mrun. unfold first_key_by.
  destruct (find _ (api_keys w)) as [k|]; [|reflexivity].
  destruct w as [us ks p li fl tk dr tr]; simpl in Hp; subst p. reflexivity.
Qed.

(** C8. For an authenticated caller, [DELETE /api/keys/<key_id>]
    succeeds when a key with that id is owned by the caller, and then
    removes the row with that id and no other; when no key has that id,
    or the key belongs to another user, it is answered 404 and nothing
    is deleted.  It succeeds in no other case. *)
Theorem revoke_api_key_owner_only (key_id : Z) (cu : User.t) (w : World) :
  signed_in cu w ->
  pending w = [] ->
  ((exists k, In k (api_keys w) /\ ApiKey.id k = key_id
              /\ ApiKey.user_id k = User.id cu) ->
   route_revoke_api_key key_id w
   = (Json (MessageBody "API key revoked successfully") 200,
      set_tables (users w)
        (filter (fun r => negb (ApiKey.id r =? key_id)) (api_keys w)) w))
  /\ ((forall k, In k (api_keys w) -> ApiKey.id k = key_id ->
                 ApiKey.user_id k <> User.id cu) ->
      route_revoke_api_key key_id w
      = (Json (ErrorBody "Not found" "API key not found") 404, w))
  /\ (status_of (fst (route_revoke_api_key key_id w)) = 200 ->
      exists k, In k (api_keys w) /\ ApiKey.id k = key_id
                /\ ApiKey.user_id k = User.id cu).
Proof.
  intros Hs Hp. rewrite (revoke_api_key_run key_id cu w Hs Hp).
  destruct (find _ (api_keys w)) as [k|] eqn:Hf.
  - apply find_some in Hf. destruct Hf as [Hin Hk].
    apply andb_true_iff in Hk. destruct Hk as [Hid Hown].
    apply Z.eqb_eq in Hid. apply Z.eqb_eq in Hown.
    split; [|split].
    + intros _. rewrite Hid. reflexivity.
    + intros Hno. exfalso. apply (Hno k Hin Hid Hown).
    + intros _. exists k. auto.
  - rewrite find_none_iff in Hf.
    split; [|split].
    + intros (k & Hin & Hid & Hown). specialize (Hf k Hin). simpl in Hf.
      rewrite Hid, Hown, !Z.eqb_refl in Hf. discriminate.
    + intros _. reflexivity.
    + simpl. discriminate.
Qed.

(** C9. An authenticated admin who asks [DELETE /api/users/<id>] with
    their own id is answered 400, and the world, the caller's row
    included, is as before. *)
Theorem delete_user_self_rejected (cu : User.t) (w : World) :
  signed_in cu w ->
  User.is_admin cu = true ->
  route_delete_user (User.id cu) w
  = (Json (ErrorBody "Invalid operation"
             "You cannot delete your own account") 400, w).
Proof.
  intros Hs Hadm.
  unfold route_delete_user, serve_api.
  rewrite (admin_route_run _ cu w Hs Hadm).
  unfold delete_user, current_user_id, bind.
  rewrite (current_user_signed_in cu w Hs). mrun.
  rewrite Z.eqb_refl. reflexivity.
Qed.

(** The three field updates of [update_user], each on its own: either
    the request raises, or the user object changes in that field only. *)
Lemma update_user_run (user_id : Z) (data : json) (u : User.t) (w : World) :
  pending w = [] ->
  get_user user_id (users w) = Some u ->
  (exists e, update_user user_id data w = (Raise e, w))
  \/ exists u',
      update_user user_id data w
      = (Return (Json (UpdatedBody "User updated successfully" u') 200),
         set_tables (replace_user u' (users w)) (api_keys w) w)
      /\ same_outside_update u u'
      /\ (User.email u' = User.email u
          \/ exists s, py_getitem data "email" = Return (JStr s)
                       /\ User.email u' = lower s).
Proof.
  intros Hp Hg.
  destruct w as [us ks p li fl tk dr tr]; simpl in Hp, Hg; subst p.
  unfold update_user, query_get_user, bind, lift, ret, stage, commit, flush.
  simpl. rewrite Hg.
  repeat (match goal with
          | |- context [match py_in ?k ?d with _ => _ end] =>
              destruct (py_in k d) as [[|]|?]
          | |- context [match py_getitem ?d ?k with _ => _ end] =>
              destruct (py_getitem d k) as [?|?] eqn:?
          | |- context [match py_boolean ?v with _ => _ end] =>
              destruct (py_boolean v) as [?|?]
          | |- context [match py_lower ?v with _ => _ end] =>
              destruct (py_lower v) as [?|?] eqn:?
          end; simpl);
    try (left; eexists; reflexivity);
    right; eexists; (split; [reflexivity|]); (split; [repeat split|]);
    try (left; reflexivity);
    right;
    match goal with
    | H : py_lower ?v = Return _ |- _ =>
        destruct v; simpl in H; try discriminate; injection H as <-
    end;
    eexists; split; reflexivity.
Qed.

(** C10. An admin [PUT /api/users/<id>] on an existing user either ends
    in the 500 handler with the tables as before, or is answered 200
    with that user's row replaced by one that agrees with it on
    [username], [password_hash], [failed_login_attempts],
    [last_failed_login], [account_locked_until] and [created_at] (and on
    [id] and [last_login]); a changed [email] is the lowercased string of
    the request.  The keys are untouched in both cases. *)
Theorem update_user_frame
        (user_id : Z) (data : json) (cu u : User.t) (w : World) :
  signed_in cu w ->
  User.is_admin cu = true ->
  pending w = [] ->
  get_user user_id (users w) = Some u ->
  exists r w',
    route_update_user user_id data w = (r, w')
    /\ api_keys w' = api_keys w
    /\ ((status_of r = 500 /\ users w' = users w)
        \/ exists u',
            r = Json (UpdatedBody "User updated successfully" u') 200
            /\ users w' = replace_user u' (users w)
            /\ same_outside_update u u'
            /\ (User.email u' = User.email u
                \/ exists s, py_getitem data "email" = Return (JStr s)
                             /\ User.email u' = lower s)).
Proof.
  intros Hs Hadm Hp Hg.
  unfold route_update_user, serve_api.
  rewrite (admin_route_run _ cu w Hs Hadm).
  destruct (update_user_run user_id data u w Hp Hg)
    as [(e & ->) | (u' & -> & Hsame & Hem)].
  - do 2 eexists. split; [reflexivity|]. split; [reflexivity|].
    left. split; reflexivity.
  - do 2 eexists. split; [reflexivity|]. split; [reflexivity|].
    right. exists u'. split; [reflexivity|]. split; [reflexivity|]. split; assumption.
Qed.

(** *** Issuing, verifying and revoking a key *)

Lemma replace_user_ids (u : User.t) (us : list User.t) :
  map User.id (replace_user u us) = map User.id us.
Proof.
  induction us as [|r us IH]; simpl; [reflexivity|].
  rewrite IH. destruct (User.id r =? User.id u) eqn:E; [|reflexivity].
  apply Z.eqb_eq in E. congruence.
Qed.

Lemma get_user_replace (u : User.t) (us : list User.t) :
  In (User.id u) (map User.id us) ->
  get_user (User.id u) (replace_user u us) = Some u.
Proof.
  unfold get_user. induction us as [|r us IH]; simpl; [contradiction|].
  intros [Hid | Hin].
  - rewrite Hid, Z.eqb_refl. simpl. rewrite Z.eqb_refl. reflexivity.
  - destruct (User.id r =? User.id u) eqn:E; simpl.
    + rewrite Z.eqb_refl. reflexivity.
    + rewrite E. apply IH. exact Hin.
Qed.

(** The lock check in a session with nothing staged: it returns, keeps
    the identity of the user, and writes at most that user's row. *)
Lemma is_account_locked_run (u : User.t) (w : World) :
  pending w = [] ->
  exists locked u1 w1,
    is_account_locked u w = (Return (locked, u1), w1)
    /\ User.id u1 = User.id u
    /\ User.is_active u1 = User.is_active u
    /\ pending w1 = []
    /\ api_keys w1 = api_keys w
    /\ draws w1 = draws w
    /\ logged_in w1 = logged_in w
    /\ map User.id (users w1) = map User.id (users w).
Proof.
  intros Hp. destruct w as [us ks p li fl tk dr tr]; simpl in Hp; subst p.
  unfold is_account_locked.
  destruct (User.account_locked_until u) as [t|].
  - mrun. destruct (utc tk <? t).
    + do 3 eexists. split; [reflexivity|]. repeat split; reflexivity.
    + do 3 eexists. split; [reflexivity|]. simpl.
      repeat split; try reflexivity. apply replace_user_ids.
  - do 3 eexists. split; [reflexivity|]. repeat split; reflexivity.
Qed.

(** What a successful [POST /api/auth/login] leaves behind: one new
    active key without expiry, hashed from the returned value and owned
    by the returned user, whose row is in the table. *)
Lemma api_login_success_inv
      (name pw msg raw : string) (u' : User.t) (w w1 : World) :
  pending w = [] ->
  route_api_login (credentials name pw) w = (Json (LoginBody msg raw u') 200, w1) ->
  exists (row : ApiKey.t) (salt : string),
    raw = entropy (draws w)
    /\ api_keys w1 = api_keys w ++ [row]
    /\ ApiKey.key_hash row = generate_password_hash salt raw
    /\ ApiKey.is_active row = true
    /\ ApiKey.expires_at row = None
    /\ ApiKey.user_id row = User.id u'
    /\ get_user (User.id u') (users w1) = Some u'
    /\ User.is_active u' = true
    /\ pending w1 = [].
Proof.
  intros Hp Hrun.
  destruct w as [us ks p li fl tk dr tr]; simpl in Hp; subst p.
  unfold route_api_login, serve_api, api_login, credentials in Hrun.
  unfold bind, lift, ret, first_user_by, check_password, token_urlsafe, set_key,
    urandom, stage, reset_failed_logins, utcnow, commit in Hrun.
  simpl in Hrun.
  destruct (find _ us) as [u|] eqn:Hfind; [|discriminate].
  destruct (bcrypt_check_password_hash (User.password_hash u) pw); [|discriminate].
  apply find_some in Hfind. destruct Hfind as [Hin _].
  match type of Hrun with
  | context [is_account_locked u ?w0] =>
      destruct (is_account_locked_run u w0 eq_refl)
        as (locked & u1 & w0' & Hl & Hid & Hact & Hp0 & Hk0 & Hd0 & _ & Hids)
  end.
  rewrite Hl in Hrun. simpl in Hk0, Hd0, Hids.
  destruct locked; [discriminate|].
  destruct (User.is_active u1) eqn:Ha1; simpl in Hrun; [|discriminate].
  destruct w0' as [us0 ks0 p0 li0 fl0 tk0 dr0 tr0].
  simpl in Hp0, Hk0, Hd0, Hids. subst p0 ks0 dr0.
  unfold flush in Hrun. simpl in Hrun.
  injection Hrun as _ Hraw Hu' Hw1. subst raw u' w1.
  do 2 eexists. split; [reflexivity|]. split; [reflexivity|].
  split; [reflexivity|]. split; [reflexivity|]. split; [reflexivity|].
  split; [reflexivity|]. split; [|split; [exact Ha1 | reflexivity]].
  simpl users.
  match goal with
  | |- get_user (User.id ?x) (replace_user ?x _) = _ =>
      apply (get_user_replace x)
  end.
  simpl. rewrite Hids, Hid. apply in_map. exact Hin.
Qed.

Section RoundTrip.

(** The contract of the hasher: a hash verifies the plaintext it was
    made from, and no other. *)
Hypothesis check_generate :
  forall salt p q,
    check_password_hash (generate_password_hash salt p) q = true <-> p = q.

(** C5. Whenever [POST /api/auth/login] issues a key and returns its
    raw value, fresh with respect to the stored hashes: presenting
    that value right away resolves the user the key was issued to;
    presenting any other value, which no stored key had accepted
    either, resolves no user (401); and once the owner has revoked the
    key, presenting the original value resolves no user (401). *)
Theorem api_key_round_trip
        (name pw msg raw : string) (u' : User.t) (w w1 : World) :
  pending w = [] ->
  route_api_login (credentials name pw) w
  = (Json (LoginBody msg raw u') 200, w1) ->
  raw <> "" ->
  (forall k, In k (api_keys w) ->
             check_password_hash (ApiKey.key_hash k) raw = false) ->
  (exists w2,
      route_get_current_user (Some raw) w1 = (Json (UserBody u') 200, w2))
  /\ (forall raw',
        raw' <> raw ->
        (forall k, In k (api_keys w) ->
                   check_password_hash (ApiKey.key_hash k) raw' = false) ->
        exists n r,
          route_get_current_user (Some raw') w1 = (r, advance n w1)
          /\ status_of r = 401)
  /\ (is_authenticated u' = true ->
      exists k w3,
        In k (api_keys w1)
        /\ ApiKey.user_id k = User.id u'
        /\ check_password_hash (ApiKey.key_hash k) raw = true
        /\ route_revoke_api_key (ApiKey.id k)
             (set_logged_in (Some (User.id u')) w1)
           = (Json (MessageBody "API key revoked successfully") 200, w3)
        /\ exists n r,
            route_get_current_user (Some raw) w3 = (r, advance n w3)
            /\ status_of r = 401).
Proof.
  intros Hp Hrun Hraw Hfresh.
  destruct (api_login_success_inv name pw msg raw u' w w1 Hp Hrun)
    as (row & salt & _ & Hkeys & Hhash & Hact & Hexp & Hown & Hget & Hua & Hp1).
  assert (Hself : check_password_hash (ApiKey.key_hash row) raw = true).
  { rewrite Hhash. apply check_generate. reflexivity. }
  split; [|split].
  - unfold route_get_current_user, serve_api, api_key_required.
    destruct (raw =? "")%string eqn:E;
      [apply String.eqb_eq in E; contradiction|].
    destruct (find_api_key_first raw row [] (filter ApiKey.is_active (api_keys w)) w1)
      as (w2 & t & Hr & _).
    + exact Hp1.
    + intros k Hin. apply filter_In in Hin. right. right.
      apply Hfresh. apply Hin.
    + repeat split; [exact Hact | | exact Hself].
      intros e He. congruence.
    + mrun. unfold active_api_keys. rewrite Hkeys, filter_app. simpl.
      rewrite Hact, Hr, Hown, Hget. simpl. rewrite Hua. simpl.
      exists w2. reflexivity.
  - intros raw' Hne Hother.
    unfold route_get_current_user, serve_api, api_key_required.
    destruct (raw' =? "")%string.
    + exists 0%nat. eexists. split; reflexivity.
    + destruct (find_api_key_refused raw' (filter ApiKey.is_active (api_keys w1)) w1)
        as (n & Hr).
      { intros k Hin. apply filter_In in Hin. destruct Hin as [Hin _].
        right. right. rewrite Hkeys in Hin. apply in_app_or in Hin.
        destruct Hin as [Hin | [<- | []]]; [apply Hother; exact Hin|].
        rewrite Hhash. destruct (check_password_hash _ raw') eqn:E; [|reflexivity].
        apply check_generate in E. congruence. }
      mrun. unfold active_api_keys. rewrite Hr.
      exists n. eexists. split; reflexivity.
  - intros Hauth.
    assert (Hs : signed_in u' (set_logged_in (Some (User.id u')) w1)).
    { repeat split; [exact Hget | exact Hauth]. }
    assert (Hin : In row (api_keys w1)).
    { rewrite Hkeys. apply in_or_app. right. left. reflexivity. }
    pose proof (revoke_api_key_run (ApiKey.id row) u' _ Hs Hp1) as Hrev.
    simpl api_keys in Hrev.
    destruct (find _ (api_keys w1)) as [k0|] eqn:Hf.
    2:{ rewrite find_none_iff in Hf. specialize (Hf row Hin). simpl in Hf.
        rewrite Hown, !Z.eqb_refl in Hf. discriminate. }
    apply find_some in Hf. destruct Hf as [_ Hk0].
    apply andb_true_iff in Hk0. destruct Hk0 as [Hid0 _].
    apply Z.eqb_eq in Hid0. rewrite Hid0 in Hrev.
    match type of Hrev with _ = (_, ?x) => set (w3 := x) in * end.
    exists row, w3. split; [exact Hin|]. split; [exact Hown|].
    split; [exact Hself|]. split; [exact Hrev|].
    unfold route_get_current_user, serve_api, api_key_required.
    destruct (raw =? "")%string.
    + exists 0%nat. eexists. split; reflexivity.
    + destruct (find_api_key_refused raw
                  (filter ApiKey.is_active (api_keys w3)) w3) as (n & Hr).
      { intros k Hk. apply filter_In in Hk. destruct Hk as [Hk _].
        unfold w3 in Hk. simpl in Hk. apply filter_In in Hk. destruct Hk as [Hk Hnid].
        right. right. rewrite Hkeys in Hk. apply in_app_or in Hk.
        destruct Hk as [Hk | [<- | []]]; [apply Hfresh; exact Hk|].
        rewrite Z.eqb_refl in Hnid. discriminate. }
      clearbody w3. mrun. unfold active_api_keys. rewrite Hr.
      exists n. eexists. split; reflexivity.
Qed.

End RoundTrip.

(** *** The two login flows *)

(** Session login, wrong password on an account without a lock: the
    failure is recorded on the user's row and the generic message is
    flashed. *)
Lemma login_wrong_password_recorded
      (form : LoginForm) (next_arg : option string) (u : User.t) (w : World) :
  pending w = [] ->
  logged_in w = None ->
  validate_on_submit form = true ->
  find (fun r => (User.username r =? username_data form)%string
                 || (User.email r =? lower (username_data form))%string)
       (users w) = Some u ->
  User.account_locked_until u = None ->
  bcrypt_check_password_hash (User.password_hash u) (password_data form) = false ->
  exists u1 w1,
    record_failed_login u (record_event (EvCheckPassword (User.id u)) w)
    = (Return u1, w1)
    /\ User.failed_login_attempts u1 = User.failed_login_attempts u + 1
    /\ User.last_failed_login u1 = Some (utc (ticks w))
    /\ route_login form next_arg w
       = (Render "auth/login.html" 200,
          add_flash ("Invalid username/email or password.", "danger") w1).
Proof.
  intros Hp Hl Hv Hf Hlock Hb.
  destruct w as [us ks p li fl tk dr tr]; simpl in Hp, Hl; subst p li.
  unfold route_login, serve, login, current_user, first_user_by, check_password,
    is_account_locked, bind, ret, flash.
  simpl. rewrite Hv, Hf, Hlock. simpl. rewrite Hb.
  match goal with
  | |- context [record_failed_login u ?w0] =>
      pose proof (record_failed_login_run u w0 eq_refl) as Hrun
  end.
  cbv zeta in Hrun. simpl in Hrun. rewrite Hrun.
  destruct (User.failed_login_attempts u + 1 >=? 5);
    do 2 eexists; (split; [reflexivity|]); repeat split; reflexivity.
Qed.

(** Session login on a locked account: the request is turned down before
    the password is looked at, and nothing is recorded. *)
Lemma login_locked_skips_password
      (form : LoginForm) (next_arg : option string) (u : User.t) (w : World)
      (locked_until : datetime) :
  logged_in w = None ->
  validate_on_submit form = true ->
  find (fun r => (User.username r =? username_data form)%string
                 || (User.email r =? lower (username_data form))%string)
       (users w) = Some u ->
  User.account_locked_until u = Some locked_until ->
  utc (ticks w) < locked_until ->
  route_login form next_arg w
  = (Render "auth/login.html" 200,
     add_flash (("Your account is temporarily locked due to multiple failed login attempts. "
                 ++ "Please try again later.")%string, "warning") (tick w)).
Proof.
  intros Hl Hv Hf Hlock Hlt.
  destruct w as [us ks p li fl tk dr tr]; simpl in Hl, Hlt; subst li.
  unfold route_login, serve, login, current_user, first_user_by,
    is_account_locked, bind, ret, flash, utcnow.
  simpl. rewrite Hv, Hf, Hlock. simpl.
  apply Z.ltb_lt in Hlt. rewrite Hlt. reflexivity.
Qed.

(** C1, as [api_login] behaves.  When the name resolves a user and the
    password does not match the stored hash, [POST /api/auth/login] is
    answered with the generic 401, and the world is as before but for
    the note that the hash was checked: [record_failed_login] is not
    called, so [failed_login_attempts] and [last_failed_login] keep
    their values. *)
Theorem api_login_wrong_password_unrecorded
        (name pw : string) (u : User.t) (w : World) :
  find (fun r => (User.username r =? name)%string
                 || (User.email r =? lower name)%string) (users w) = Some u ->
  bcrypt_check_password_hash (User.password_hash u) pw = false ->
  route_api_login (credentials name pw) w
  = (Json (ErrorBody "Authentication failed" "Invalid username or password") 401,
     record_event (EvCheckPassword (User.id u)) w).
Proof.
  intros Hf Hb.
  unfold route_api_login, serve_api, api_login, credentials, first_user_by,
    check_password, bind, lift, ret.
  simpl. rewrite Hf, Hb. reflexivity.
Qed.

(** C2, as [api_login] behaves.  For a user whose lock is still running,
    [POST /api/auth/login] checks the password first: a wrong password is
    answered with the generic 401 and the lock is never looked at; only a
    right password reaches the lock check and is answered 403. *)
Theorem api_login_checks_password_before_lock
        (name pw : string) (u : User.t) (w : World) (locked_until : datetime) :
  find (fun r => (User.username r =? name)%string
                 || (User.email r =? lower name)%string) (users w) = Some u ->
  User.account_locked_until u = Some locked_until ->
  utc (ticks w) < locked_until ->
  route_api_login (credentials name pw) w
  = if bcrypt_check_password_hash (User.password_hash u) pw
    then (Json (ErrorBody "Account locked" "Your account is temporarily locked") 403,
          tick (record_event (EvCheckPassword (User.id u)) w))
    else (Json (ErrorBody "Authentication failed" "Invalid username or password") 401,
          record_event (EvCheckPassword (User.id u)) w).
Proof.
  intros Hf Hlock Hlt.
  unfold route_api_login, serve_api, api_login, credentials, first_user_by,
    check_password, is_account_locked, bind, lift, ret, utcnow.
  simpl. rewrite Hf.
  destruct (bcrypt_check_password_hash (User.password_hash u) pw); [|reflexivity].
  rewrite Hlock. simpl. apply Z.ltb_lt in Hlt. rewrite Hlt. reflexivity.
Qed.

(** ** Further properties *)

(** *** Session login *)

(** A lookup by predicate finds the rewritten row after the row it found
    has been rewritten, as long as the new row still answers to it. *)
Lemma find_replace_user (p : User.t -> bool) (u u1 : User.t) (us : list User.t) :
  find p us = Some u ->
  p u1 = true ->
  User.id u1 = User.id u ->
  find p (replace_user u1 us) = Some u1.
Proof.
  intros Hf Hp Hid. induction us as [|r us IH]; simpl in *; [discriminate|].
  destruct (p r) eqn:Hr.
  - injection Hf as ->. rewrite Hid, Z.eqb_refl. simpl. rewrite Hp. reflexivity.
  - destruct (User.id r =? User.id u1); simpl.
    + rewrite Hp. reflexivity.
    + rewrite Hr. apply IH. exact Hf.
Qed.

(** The tail of a successful login: the redirect. *)
Ltac login_redirect :=
  unfold login_target;
  match goal with
  | |- context [match ?n with Some _ => _ | None => _ end] =>
      destruct n as [[|? ?]|]; simpl
  end;
  repeat match goal with
         | |- context [if ?b then _ else _] => destruct b
         end.

(** X1. Session login of an active account without a lock, with the right
    password, from an anonymous browser: the browser is redirected (to
    [next] when it starts with a slash, to the dashboard otherwise), the
    session belongs to the user, and the user's row is the same account
    with the failure counter at 0, no last failure, no lock, and
    [last_login] at the clock reading. *)
Theorem login_success
        (form : LoginForm) (next_arg : option string) (u : User.t) (w : World) :
  pending w = [] ->
  logged_in w = None ->
  validate_on_submit form = true ->
  resolves (username_data form) u w ->
  User.account_locked_until u = None ->
  bcrypt_check_password_hash (User.password_hash u) (password_data form) = true ->
  User.is_active u = true ->
  exists u1 w1,
    route_login form next_arg w = (Redirect (login_target next_arg), w1)
    /\ logged_in w1 = Some (User.id u)
    /\ users w1 = replace_user u1 (users w)
    /\ api_keys w1 = api_keys w
    /\ same_account u u1
    /\ User.failed_login_attempts u1 = 0
    /\ User.last_failed_login u1 = None
    /\ User.account_locked_until u1 = None
    /\ User.last_login u1 = Some (utc (ticks w)).
Proof.
  intros Hp Hl Hv Hf Hlock Hb Ha. unfold resolves in Hf.
  destruct w as [us ks p li fl tk dr tr]; simpl in Hp, Hl; subst p li.
  unfold route_login, serve, login, current_user, first_user_by, check_password,
    is_account_locked, reset_failed_logins, login_user, bind, ret, flash, utcnow,
    stage, commit.
  simpl. rewrite Hv, Hf, Hlock. simpl. rewrite Hb, Ha. simpl. rewrite ?Ha. simpl.
  login_redirect;
    (do 2 eexists; split; [reflexivity|]; simpl; repeat split; reflexivity).
Qed.

Lemma replace_user_twice (u0 u1 : User.t) (us : list User.t) :
  User.id u0 = User.id u1 ->
  replace_user u1 (replace_user u0 us) = replace_user u1 us.
Proof.
  intros Hid. unfold replace_user. rewrite map_map. apply map_ext.
  intros r. rewrite Hid.
  destruct (User.id r =? User.id u1) eqn:E; [|rewrite E; reflexivity].
  rewrite Hid, Z.eqb_refl. reflexivity.
Qed.

(** X2. Lazy unlock through the login route.  When the lock of an account
    has run out at the clock reading, session login lets the attempt
    through: with the right password the login succeeds and the row ends
    with the counter at 0 and no lock; with a wrong password the counter
    restarts at 1 and the account stays unlocked. *)
Theorem login_after_lock_expired
        (form : LoginForm) (next_arg : option string) (u : User.t) (w : World)
        (locked_until : datetime) :
  pending w = [] ->
  logged_in w = None ->
  validate_on_submit form = true ->
  resolves (username_data form) u w ->
  User.account_locked_until u = Some locked_until ->
  locked_until <= utc (ticks w) ->
  exists u1 w1 r,
    route_login form next_arg w = (r, w1)
    /\ users w1 = replace_user u1 (users w)
    /\ same_account u u1
    /\ User.account_locked_until u1 = None
    /\ (bcrypt_check_password_hash (User.password_hash u) (password_data form) = true ->
        User.is_active u = true ->
        r = Redirect (login_target next_arg)
        /\ logged_in w1 = Some (User.id u)
        /\ User.failed_login_attempts u1 = 0
        /\ User.last_login u1 = Some (utc (S (ticks w))))
    /\ (bcrypt_check_password_hash (User.password_hash u) (password_data form) = false ->
        r = Render "auth/login.html" 200
        /\ logged_in w1 = None
        /\ User.failed_login_attempts u1 = 1
        /\ User.last_failed_login u1 = Some (utc (S (ticks w)))).
Proof.
  intros Hp Hl Hv Hf Hlock Hexp. unfold resolves in Hf.
  destruct w as [us ks p li fl tk dr tr]; simpl in Hp, Hl, Hexp; subst p li.
  apply Z.ltb_ge in Hexp.
  unfold route_login, serve, login, current_user, first_user_by, check_password,
    is_account_locked, reset_failed_logins, record_failed_login, login_user,
    bind, ret, flash, utcnow, stage, commit.
  simpl. rewrite Hv, Hf, Hlock. simpl. rewrite Hexp. simpl.
  destruct (bcrypt_check_password_hash (User.password_hash u) (password_data form)).
  - destruct (User.is_active u) eqn:Ha; simpl; rewrite ?Ha; simpl.
    + login_redirect;
        (do 3 eexists; split; [reflexivity|]; simpl;
         split; [apply replace_user_twice; reflexivity|];
         split; [repeat split; exact Ha|];
         split; [reflexivity|];
         split; [intros _ _; repeat split | intros H; discriminate]).
    + do 3 eexists. split; [reflexivity|]. simpl.
      split; [reflexivity|]. split; [repeat split; exact Ha|].
      split; [reflexivity|].
      split; [intros _ H; discriminate | intros H; discriminate].
  - do 3 eexists. split; [reflexivity|]. simpl.
    split; [apply replace_user_twice; reflexivity|].
    split; [repeat split|]. split; [reflexivity|].
    split; [intros H; discriminate | intros _; repeat split].
Qed.

(** X3. Session login of a deactivated account with the right password
    (no lock set): the login is denied with its own message, no session
    is established, and the tables are as before: the failure counter is
    neither reset nor incremented. *)
Theorem login_deactivated
        (form : LoginForm) (next_arg : option string) (u : User.t) (w : World) :
  logged_in w = None ->
  validate_on_submit form = true ->
  resolves (username_data form) u w ->
  User.account_locked_until u = None ->
  bcrypt_check_password_hash (User.password_hash u) (password_data form) = true ->
  User.is_active u = false ->
  route_login form next_arg w
  = (Render "auth/login.html" 200,
     add_flash flash_deactivated (record_event (EvCheckPassword (User.id u)) w)).
Proof.
  intros Hl Hv Hf Hlock Hb Ha. unfold resolves in Hf.
  destruct w as [us ks p li fl tk dr tr]; simpl in Hl; subst li.
  unfold route_login, serve, login, current_user, first_user_by, check_password,
    is_account_locked, bind, ret, flash.
  simpl. rewrite Hv, Hf, Hlock. simpl. rewrite Hb, Ha. reflexivity.
Qed.

(** X4. Session login does not tell an unknown name from a wrong
    password: a name that resolves no user, and a wrong password for an
    account without a lock, get the same page and the same flashed
    message; for the unknown name nothing else happens, no hash is
    checked. *)
Theorem login_failures_indistinguishable
        (form form' : LoginForm) (next_arg next_arg' : option string)
        (u : User.t) (w w' : World) :
  logged_in w = None ->
  validate_on_submit form = true ->
  find (fun r => (User.username r =? username_data form)%string
                 || (User.email r =? lower (username_data form))%string)
       (users w) = None ->
  pending w' = [] ->
  logged_in w' = None ->
  validate_on_submit form' = true ->
  resolves (username_data form') u w' ->
  User.account_locked_until u = None ->
  bcrypt_check_password_hash (User.password_hash u) (password_data form') = false ->
  route_login form next_arg w
  = (Render "auth/login.html" 200, add_flash flash_invalid w)
  /\ fst (route_login form' next_arg' w') = fst (route_login form next_arg w)
  /\ hd_error (flashes (snd (route_login form' next_arg' w')))
     = hd_error (flashes (snd (route_login form next_arg w))).
Proof.
  intros Hl Hv Hf Hp' Hl' Hv' Hf' Hlock Hb.
  assert (H1 : route_login form next_arg w
               = (Render "auth/login.html" 200, add_flash flash_invalid w)).
  { destruct w as [us ks p li fl tk dr tr]; simpl in Hl; subst li.
    unfold route_login, serve, login, current_user, first_user_by, bind, ret, flash.
    simpl. rewrite Hv, Hf. reflexivity. }
  destruct (login_wrong_password_recorded form' next_arg' u w'
              Hp' Hl' Hv' Hf' Hlock Hb) as (u1 & w1 & _ & _ & _ & H2).
  rewrite H1, H2. repeat split.
Qed.

(** X5. The lockout engages through the login route.  When a wrong
    password brings the counter of an account without a lock to five or
    more, the account is locked for thirty minutes from the second clock
    reading of that request; and a later attempt on the same name, whatever
    its password, while the lock is running, is turned down as locked: no
    session, no change to the tables, no hash checked. *)
Theorem login_lockout_engages
        (form form2 : LoginForm) (next_arg next_arg2 : option string)
        (u : User.t) (w : World) :
  pending w = [] ->
  logged_in w = None ->
  validate_on_submit form = true ->
  resolves (username_data form) u w ->
  User.account_locked_until u = None ->
  bcrypt_check_password_hash (User.password_hash u) (password_data form) = false ->
  5 <= User.failed_login_attempts u + 1 ->
  validate_on_submit form2 = true ->
  username_data form2 = username_data form ->
  exists u1 w1,
    route_login form next_arg w = (Render "auth/login.html" 200, w1)
    /\ resolves (username_data form) u1 w1
    /\ same_account u u1
    /\ User.account_locked_until u1
       = Some (utc (S (ticks w)) + timedelta_minutes 30)
    /\ ticks w1 = S (S (ticks w))
    /\ (utc (ticks w1) < utc (S (ticks w)) + timedelta_minutes 30 ->
        route_login form2 next_arg2 w1
        = (Render "auth/login.html" 200, add_flash flash_locked (tick w1))).
Proof.
  intros Hp Hl Hv Hf Hlock Hb Hfive Hv2 Hname.
  destruct (login_wrong_password_recorded form next_arg u w Hp Hl Hv Hf Hlock Hb)
    as (u1 & w1 & Hrec & _ & _ & Hrun).
  rewrite (record_failed_login_run u (record_event (EvCheckPassword (User.id u)) w) Hp) in Hrec.
  cbv zeta in Hrec.
  apply Z.geb_le in Hfive.
  rewrite Hfive in Hrec. injection Hrec as <- <-.
  do 2 eexists. split; [exact Hrun|].
  assert (Hres : resolves (username_data form)
                   (User.with_account_locked_until
                      (Some (utc (S (ticks (record_event (EvCheckPassword (User.id u)) w)))
                             + timedelta_minutes 30))
                      (User.with_last_failed_login
                         (Some (utc (ticks (record_event (EvCheckPassword (User.id u)) w))))
                         (User.with_failed_login_attempts
                            (User.failed_login_attempts u + 1) u)))
                   (add_flash flash_invalid
                      (set_tables
                         (replace_user
                            (User.with_account_locked_until
                               (Some (utc (S (ticks (record_event (EvCheckPassword (User.id u)) w)))
                                      + timedelta_minutes 30))
                               (User.with_last_failed_login
                                  (Some (utc (ticks (record_event (EvCheckPassword (User.id u)) w))))
                                  (User.with_failed_login_attempts
                                     (User.failed_login_attempts u + 1) u)))
                            (users (record_event (EvCheckPassword (User.id u)) w)))
                         (api_keys (record_event (EvCheckPassword (User.id u)) w))
                         (tick (tick (record_event (EvCheckPassword (User.id u)) w)))))).
  { unfold resolves in *. simpl.
    apply find_replace_user with (u := u); [exact Hf | | reflexivity].
    apply find_some in Hf. destruct Hf as [_ Hf]. exact Hf. }
  split; [exact Hres|]. split; [repeat split|]. split; [reflexivity|].
  split; [reflexivity|].
  intros Hlt.
  apply login_locked_skips_password
    with (u := User.with_account_locked_until
                 (Some (utc (S (ticks w)) + timedelta_minutes 30))
                 (User.with_last_failed_login (Some (utc (ticks w)))
                    (User.with_failed_login_attempts
                       (User.failed_login_attempts u + 1) u)))
         (locked_until := utc (S (ticks w)) + timedelta_minutes 30).
  - simpl. exact Hl.
  - exact Hv2.
  - rewrite Hname. exact Hres.
  - reflexivity.
  - exact Hlt.
Qed.

(** *** API login *)

(** X6. [POST /api/auth/login] with a body that is empty, or is an object
    that lacks [username], or has it and lacks [password], is answered 400
    before any lookup: the world is as before. *)
Theorem api_login_malformed_body (data : json) (w : World) :
  truthy data = false
  \/ py_in "username" data = Return false
  \/ (py_in "username" data = Return true /\ py_in "password" data = Return false) ->
  route_api_login data w = (login_invalid_request, w).
Proof.
  unfold route_api_login, serve_api, api_login, bind, lift, ret.
  intros [H | [H | [H1 H2]]].
  - rewrite H. reflexivity.
  - destruct (truthy data); [|reflexivity]. simpl. rewrite H. reflexivity.
  - destruct (truthy data); [|reflexivity]. simpl. rewrite H1, H2. reflexivity.
Qed.

(** X7. [POST /api/auth/login] with an object whose [username] is not a
    string (and a [password] of any kind) is not answered 400: the call
    of [.lower()] raises, the request ends in the 500 handler, and
    nothing but the rollback has happened. *)
Theorem api_login_username_not_a_string
        (fields : list (string * json)) (name password : json) (w : World) :
  lookup "username" fields = Some name ->
  lookup "password" fields = Some password ->
  (forall s, name <> JStr s) ->
  route_api_login (JObj fields) w = (server_error, rollback w).
Proof.
  intros Hn Hpw Hns.
  unfold route_api_login, serve_api, api_login, bind, lift, ret.
  assert (Ht : truthy (JObj fields) = true).
  { destruct fields; [discriminate | reflexivity]. }
  rewrite Ht. simpl. rewrite Hn, Hpw. simpl.
  destruct name; simpl; try reflexivity.
  exfalso. apply (Hns s). reflexivity.
Qed.

(** X8. [POST /api/auth/login] for a name that resolves no user is
    answered with the 401 of a wrong password, without any hash being
    checked and with the world as before. *)
Theorem api_login_unknown_user (name pw : string) (w : World) :
  find (fun r => (User.username r =? name)%string
                 || (User.email r =? lower name)%string) (users w) = None ->
  route_api_login (credentials name pw) w = (login_failed, w).
Proof.
  intros Hf.
  unfold route_api_login, serve_api, api_login, credentials, first_user_by,
    bind, lift, ret.
  simpl. rewrite Hf. reflexivity.
Qed.

(** X9. [POST /api/auth/login] of a deactivated account with the right
    password (no lock set) is answered 403: no key is issued and no row
    changes, the failure counter included. *)
Theorem api_login_deactivated (name pw : string) (u : User.t) (w : World) :
  resolves name u w ->
  bcrypt_check_password_hash (User.password_hash u) pw = true ->
  User.account_locked_until u = None ->
  User.is_active u = false ->
  route_api_login (credentials name pw) w
  = (Json (ErrorBody "Account deactivated" "Your account has been deactivated") 403,
     record_event (EvCheckPassword (User.id u)) w).
Proof.
  intros Hf Hb Hlock Ha. unfold resolves in Hf.
  unfold route_api_login, serve_api, api_login, credentials, first_user_by,
    check_password, is_account_locked, bind, lift, ret.
  simpl. rewrite Hf, Hb, Hlock. simpl. rewrite Ha. reflexivity.
Qed.


(** *** The guarded views *)

(** X11. When the first key that verifies belongs to an active user, the
    guarded view runs as that user, in a world where the tables differ
    from before only in the [last_used] stamp of the rows with that key's
    id; for [GET /api/auth/me] the answer is the owner's record. *)
Theorem api_key_required_runs_as_owner
        (f : User.t -> M response) (key : string)
        (pre post : list ApiKey.t) (k : ApiKey.t) (u : User.t) (w : World) :
  pending w = [] ->
  key <> "" ->
  filter ApiKey.is_active (api_keys w) = pre ++ k :: post ->
  (forall k', In k' pre -> refused (ticks w) key k') ->
  accepted (ticks w) key k ->
  get_user (ApiKey.user_id k) (users w) = Some u ->
  User.is_active u = true ->
  exists w' t,
    api_key_required f (Some key) w = f u w'
    /\ route_get_current_user (Some key) w = (Json (UserBody u) 200, w')
    /\ users w' = users w
    /\ api_keys w' = replace_key (ApiKey.with_last_used (Some t) k) (api_keys w)
    /\ pending w' = []
    /\ logged_in w' = logged_in w.
Proof.
  intros Hp Hkey Hsplit Hpre Hacc Hu Ha.
  destruct (find_api_key_first key k post pre w Hp Hpre Hacc)
    as (w' & t & Hr & Hu' & Hk' & Hp' & Hl').
  assert (Hrun : forall g, api_key_required g (Some key) w = g u w').
  { intros g. unfold api_key_required.
    destruct (key =? "")%string eqn:E; [apply String.eqb_eq in E; contradiction|].
    mrun. unfold active_api_keys. rewrite Hsplit, Hr, Hu. simpl.
    rewrite Ha. reflexivity. }
  exists w', t. split; [apply Hrun|]. split.
  - unfold route_get_current_user, serve_api. rewrite Hrun. reflexivity.
  - repeat split; assumption.
Qed.

(** The two guards in front of any view, for a caller who is not let
    through. *)
Lemma admin_route_refused (h : M response) (w : World) :
  (signed_out w ->
   serve_api (login_required (admin_required h)) w
   = (Redirect "auth.login", add_flash flash_please_log_in w))
  /\ (forall cu, signed_in cu w -> User.is_admin cu = false ->
      serve_api (login_required (admin_required h)) w = (admin_only, w)).
Proof.
  split.
  - intros Hout. unfold signed_out in Hout.
    unfold serve_api, login_required, current_user, bind, ret, flash.
    destruct (logged_in w) as [uid|]; [|reflexivity].
    destruct (get_user uid (users w)) as [u|]; [|reflexivity].
    simpl. rewrite Hout. reflexivity.
  - intros cu Hs Hadm. unfold serve_api.
    rewrite (login_route_run _ cu w Hs).
    pose proof (current_user_signed_in cu w Hs) as Hcu.
    destruct Hs as (_ & _ & Ha).
    unfold admin_required, bind. rewrite Hcu. simpl. rewrite Ha, Hadm. reflexivity.
Qed.

(** X12. The admin views [GET], [PUT] and [DELETE /api/users/<id>] do
    nothing for a caller who is not an authenticated admin: without an
    authenticated session the browser is sent to the login page, and an
    authenticated user who is not an admin is answered 403; in both cases
    the tables are as before. *)
Theorem admin_views_guarded (user_id : Z) (data : json) (w : World) :
  (signed_out w ->
   route_get_user user_id w
   = (Redirect "auth.login", add_flash flash_please_log_in w)
   /\ route_update_user user_id data w
      = (Redirect "auth.login", add_flash flash_please_log_in w)
   /\ route_delete_user user_id w
      = (Redirect "auth.login", add_flash flash_please_log_in w))
  /\ (forall cu, signed_in cu w -> User.is_admin cu = false ->
      route_get_user user_id w = (admin_only, w)
      /\ route_update_user user_id data w = (admin_only, w)
      /\ route_delete_user user_id w = (admin_only, w)).
Proof.
  split.
  - intros Hout. repeat split;
      apply (proj1 (admin_route_refused _ w)); exact Hout.
  - intros cu Hs Hadm. repeat split;
      apply (proj2 (admin_route_refused _ w) cu Hs Hadm).
Qed.

(** [DELETE /api/users/<user_id>] by an admin, for another id. *)
Lemma delete_user_run (user_id : Z) (cu : User.t) (w : World) :
  signed_in cu w ->
  User.is_admin cu = true ->
  pending w = [] ->
  user_id <> User.id cu ->
  route_delete_user user_id w
  = match get_user user_id (users w) with
    | Some _ =>
        (Json (MessageBody "User deleted successfully") 200,
         set_tables (filter (fun r => negb (User.id r =? user_id)) (users w))
           (filter (fun r => negb (ApiKey.user_id r =? user_id)) (api_keys w)) w)
    | None => (user_not_found, w)
    end.
Proof.
  intros Hs Hadm Hp Hne. unfold route_delete_user, serve_api.
  rewrite (admin_route_run _ cu w Hs Hadm).
  unfold delete_user, current_user_id, bind.
  rewrite (current_user_signed_in cu w Hs). mrun.
  destruct (user_id =? User.id cu) eqn:E; [apply Z.eqb_eq in E; contradiction|].
  unfold query_get_user.
  destruct (get_user user_id (users w)) as [u|] eqn:Hg; [|reflexivity].
  unfold get_user in Hg. apply find_some in Hg. destruct Hg as [_ Hid].
  apply Z.eqb_eq in Hid. rewrite Hid.
  destruct w as [us ks p li fl tk dr tr]; simpl in Hp; subst p. reflexivity.
Qed.

(** X13. An admin who deletes another existing user removes every row
    with that id and, by the cascade, every key owned by that id, and
    nothing else: the other users and the other keys stay as they are,
    the admin's own row included. *)
Theorem delete_user_cascades (user_id : Z) (cu u : User.t) (w : World) :
  signed_in cu w ->
  User.is_admin cu = true ->
  pending w = [] ->
  user_id <> User.id cu ->
  get_user user_id (users w) = Some u ->
  exists w',
    route_delete_user user_id w
    = (Json (MessageBody "User deleted successfully") 200, w')
    /\ get_user user_id (users w') = None
    /\ (forall k, In k (api_keys w') <->
                  In k (api_keys w) /\ ApiKey.user_id k <> user_id)
    /\ (forall r, In r (users w') <-> In r (users w) /\ User.id r <> user_id)
    /\ signed_in cu w'.
Proof.
  intros Hs Hadm Hp Hne Hg.
  rewrite (delete_user_run user_id cu w Hs Hadm Hp Hne), Hg.
  eexists. split; [reflexivity|]. simpl.
  assert (Hkeep : forall r, In r (filter (fun r => negb (User.id r =? user_id)) (users w))
                            <-> In r (users w) /\ User.id r <> user_id).
  { intros r. rewrite filter_In, negb_true_iff, Z.eqb_neq. reflexivity. }
  split; [|split; [|split; [exact Hkeep|]]].
  - unfold get_user. apply find_none_iff. intros r Hin.
    apply Hkeep in Hin. apply Z.eqb_neq. apply Hin.
  - intros k. rewrite filter_In, negb_true_iff, Z.eqb_neq. reflexivity.
  - destruct Hs as (Hl & Hgc & Ha). repeat split; [exact Hl | | exact Ha].
    simpl. unfold get_user in *.
    clear - Hgc Hne. induction (users w) as [|r us IH]; simpl in *; [discriminate|].
    destruct (User.id r =? User.id cu) eqn:E.
    + injection Hgc as ->. 
      destruct (User.id cu =? user_id) eqn:E2;
        [apply Z.eqb_eq in E2; congruence|].
      simpl. rewrite Z.eqb_refl. reflexivity.
    + destruct (User.id r =? user_id); simpl; [|rewrite E]; apply IH; exact Hgc.
Qed.

(** X14. Once an admin has deleted a user, a key that only that user's
    keys took no longer authenticates: the guarded request is answered
    401. *)
Theorem deleted_user_keys_stop_working
        (f : User.t -> M response) (key : string)
        (user_id : Z) (cu u : User.t) (w : World) :
  signed_in cu w ->
  User.is_admin cu = true ->
  pending w = [] ->
  user_id <> User.id cu ->
  get_user user_id (users w) = Some u ->
  (forall k, In k (api_keys w) -> ApiKey.user_id k <> user_id ->
             check_password_hash (ApiKey.key_hash k) key = false) ->
  exists w' n,
    route_delete_user user_id w
    = (Json (MessageBody "User deleted successfully") 200, w')
    /\ api_key_required f (Some key) w'
       = (Return (if (key =? "")%string then key_required else key_invalid),
          advance n w').
Proof.
  intros Hs Hadm Hp Hne Hg Honly.
  rewrite (delete_user_run user_id cu w Hs Hadm Hp Hne), Hg.
  match goal with
  | |- exists w' n, (_, ?x) = (_, w') /\ _ => set (w1 := x)
  end.
  unfold api_key_required.
  destruct (key =? "")%string.
  - exists w1, 0%nat. split; reflexivity.
  - destruct (find_api_key_refused key (filter ApiKey.is_active (api_keys w1)) w1)
      as (n & Hr).
    { intros k Hin. apply filter_In in Hin. destruct Hin as [Hin _].
      unfold w1 in Hin. simpl in Hin. apply filter_In in Hin.
      destruct Hin as [Hin Hk]. apply negb_true_iff, Z.eqb_neq in Hk.
      right. right. apply Honly; assumption. }
    exists w1, n. split; [reflexivity|].
    clearbody w1. mrun. unfold active_api_keys. rewrite Hr. reflexivity.
Qed.

(** X15. For an admin, [GET /api/users/<id>] answers with the row of that
    id and changes nothing; and [GET], [PUT] and [DELETE] of an id that
    no user has (for [DELETE], other than the admin's own) are answered
    404 with the world as before. *)
Theorem admin_views_lookup (user_id : Z) (data : json) (cu : User.t) (w : World) :
  signed_in cu w ->
  User.is_admin cu = true ->
  (forall u, get_user user_id (users w) = Some u ->
             route_get_user user_id w = (Json (UserBody u) 200, w))
  /\ (get_user user_id (users w) = None ->
      route_get_user user_id w = (user_not_found, w)
      /\ route_update_user user_id data w = (user_not_found, w)
      /\ (pending w = [] -> user_id <> User.id cu ->
          route_delete_user user_id w = (user_not_found, w))).
Proof.
  intros Hs Hadm.
  assert (Hget : route_get_user user_id w
                 = match get_user user_id (users w) with
                   | Some u => (Json (UserBody u) 200, w)
                   | None => (user_not_found, w)
                   end).
  { unfold route_get_user, serve_api. rewrite (admin_route_run _ cu w Hs Hadm).
    unfold get_user_view, query_get_user, bind, ret.
    destruct (get_user user_id (users w)); reflexivity. }
  split.
  - intros u Hg. rewrite Hget, Hg. reflexivity.
  - intros Hg. split; [rewrite Hget, Hg; reflexivity|]. split.
    + unfold route_update_user, serve_api. rewrite (admin_route_run _ cu w Hs Hadm).
      unfold update_user, query_get_user, bind, ret. rewrite Hg. reflexivity.
    + intros Hp Hne. rewrite (delete_user_run user_id cu w Hs Hadm Hp Hne), Hg.
      reflexivity.
Qed.

(** *** The password policy *)

Lemma chars_app (p q : string) :
  list_ascii_of_string (p ++ q)
  = list_ascii_of_string p ++ list_ascii_of_string q.
Proof.
  induction p as [|c p IH]; simpl; [reflexivity|]. rewrite IH. reflexivity.
Qed.

Lemma chars_length (p : string) :
  List.length (list_ascii_of_string p) = String.length p.
Proof.
  induction p as [|c p IH]; simpl; [reflexivity|]. rewrite IH. reflexivity.
Qed.

Lemma password_errors_nil (m : Z) (p : string) :
  password_errors m p = []
  <-> (Z.of_nat (String.length p) <? m) = false
      /\ re_search is_uppercase p = true
      /\ re_search is_lowercase p = true
      /\ re_search is_digit p = true
      /\ re_search is_special p = true.
Proof.
  unfold password_errors.
  destruct (Z.of_nat (String.length p) <? m),
    (re_search is_uppercase p), (re_search is_lowercase p),
    (re_search is_digit p), (re_search is_special p); simpl;
    split; intros H; try discriminate; try reflexivity;
    try (repeat split; reflexivity);
    destruct H as (H1 & H2 & H3 & H4 & H5); discriminate.
Qed.

Lemma PasswordValidator_None (m : Z) (p : string) :
  PasswordValidator m p = None <-> password_errors m p = [].
Proof.
  unfold PasswordValidator.
  destruct (password_errors m p); split; intros H; try reflexivity; discriminate.
Qed.

(** X16. [PasswordValidator(min_length)] lets a password through exactly
    when it has at least [min_length] characters and holds an uppercase
    letter, a lowercase letter, a digit and one of the twenty special
    characters. *)
Theorem PasswordValidator_accepts (min_length : Z) (password : string) :
  PasswordValidator min_length password = None
  <-> min_length <= Z.of_nat (String.length password)
      /\ (exists c, In c (list_ascii_of_string password)
                    /\ (65 <= nat_of_ascii c <= 90)%nat)
      /\ (exists c, In c (list_ascii_of_string password)
                    /\ (97 <= nat_of_ascii c <= 122)%nat)
      /\ (exists c, In c (list_ascii_of_string password)
                    /\ (48 <= nat_of_ascii c <= 57)%nat)
      /\ (exists c, In c (list_ascii_of_string password)
                    /\ In c special_characters).
Proof.
  rewrite PasswordValidator_None, password_errors_nil.
  unfold re_search, is_uppercase, is_lowercase, is_digit, is_special, in_range.
  rewrite Z.ltb_ge, !existsb_exists.
  assert (Hr : forall lo hi c,
             ((lo <=? nat_of_ascii c)%nat && (nat_of_ascii c <=? hi)%nat = true)
             <-> (lo <= nat_of_ascii c <= hi)%nat).
  { intros lo hi c. rewrite andb_true_iff, !Nat.leb_le. reflexivity. }
  assert (Hs : forall c, existsb (Ascii.eqb c) special_characters = true
                         <-> In c special_characters).
  { intros c. rewrite existsb_exists. split.
    - intros (x & Hin & Heq). apply Ascii.eqb_eq in Heq. subst. exact Hin.
    - intros Hin. exists c. split; [exact Hin | apply Ascii.eqb_refl]. }
  split.
  - intros (H0 & (a & Ha & Ha') & (b & Hb & Hb') & (d & Hd & Hd') & (s & Hs1 & Hs2)).
    split; [exact H0|].
    split; [exists a; split; [exact Ha | apply Hr; exact Ha']|].
    split; [exists b; split; [exact Hb | apply Hr; exact Hb']|].
    split; [exists d; split; [exact Hd | apply Hr; exact Hd']|].
    exists s. split; [exact Hs1 | apply Hs; exact Hs2].
  - intros (H0 & (a & Ha & Ha') & (b & Hb & Hb') & (d & Hd & Hd') & (s & Hs1 & Hs2)).
    split; [exact H0|].
    split; [exists a; split; [exact Ha | apply Hr; exact Ha']|].
    split; [exists b; split; [exact Hb | apply Hr; exact Hb']|].
    split; [exists d; split; [exact Hd | apply Hr; exact Hd']|].
    exists s. split; [exact Hs1 | apply Hs; exact Hs2].
Qed.

Lemma special_not_alphanumeric (c : ascii) :
  In c special_characters ->
  ~ (65 <= nat_of_ascii c <= 90)%nat
  /\ ~ (97 <= nat_of_ascii c <= 122)%nat
  /\ ~ (48 <= nat_of_ascii c <= 57)%nat.
Proof.
  unfold special_characters. simpl.
  intros H. repeat (destruct H as [<- | H]; [compute; lia|]). contradiction.
Qed.

(** X17. Whatever [min_length] is, a password that [PasswordValidator]
    lets through has at least four characters (one of each kind, and the
    kinds do not overlap); and it is still let through with anything put
    before or after it. *)
Theorem PasswordValidator_four_kinds (min_length : Z) (password : string) :
  PasswordValidator min_length password = None ->
  (4 <= String.length password)%nat
  /\ forall before after,
      PasswordValidator min_length (before ++ password ++ after) = None.
Proof.
  intros Hacc. split.
  - apply PasswordValidator_None, password_errors_nil in Hacc.
    destruct Hacc as (_ & H1 & H2 & H3 & H4).
    unfold re_search in H1, H2, H3, H4.
    apply existsb_exists in H1, H2, H3, H4.
    destruct H1 as (a & Ha & Ha'), H2 as (b & Hb & Hb'), H3 as (d & Hd & Hd'),
      H4 as (s & Hs1 & Hs2).
    unfold is_uppercase, is_lowercase, is_digit, in_range in Ha', Hb', Hd'.
    apply andb_true_iff in Ha', Hb', Hd'.
    rewrite !Nat.leb_le in Ha', Hb', Hd'.
    unfold is_special in Hs2. apply existsb_exists in Hs2.
    destruct Hs2 as (x & Hx & Heq). apply Ascii.eqb_eq in Heq. subst x.
    destruct (special_not_alphanumeric s Hx) as (N1 & N2 & N3).
    rewrite <- chars_length.
    change 4%nat with (List.length [a; b; d; s]).
    apply NoDup_incl_length.
    + repeat constructor; simpl; intros H;
        repeat (destruct H as [H | H]; [subst; lia|]); try contradiction.
    + intros x [<- | [<- | [<- | [<- | []]]]]; assumption.
  - intros before after.
    apply PasswordValidator_None, password_errors_nil in Hacc.
    destruct Hacc as (H0 & H1 & H2 & H3 & H4).
    apply PasswordValidator_None, password_errors_nil.
    unfold re_search in *. rewrite !chars_app, !existsb_app.
    rewrite H1, H2, H3, H4, !orb_true_r. simpl.
    repeat split; try reflexivity.
    apply Z.ltb_ge. apply Z.ltb_ge in H0.
    rewrite <- chars_length, !chars_app, !length_app, !chars_length. lia.
Qed.

(** *** Registration *)

Lemma next_id_fresh (ids : list Z) (x : Z) :
  In x ids -> x < next_id ids.
Proof.
  unfold next_id. induction ids as [|a ids IH]; cbn [fold_right In];
    [contradiction|].
  intros [-> | Hin]; [lia|]. specialize (IH Hin). lia.
Qed.

Lemma lower_ascii_idempotent (c : ascii) :
  lower_ascii (lower_ascii c) = lower_ascii c.
Proof.
  destruct c as [[] [] [] [] [] [] [] []]; reflexivity.
Qed.

Lemma lower_idempotent (s : string) : lower (lower s) = lower s.
Proof.
  induction s as [|c s IH]; simpl; [reflexivity|].
  rewrite lower_ascii_idempotent, IH. reflexivity.
Qed.

(** The answer of the form to a submission, as a truth value. *)
Lemma RegistrationForm_validate_run (form : RegistrationForm) (w : World) :
  RegistrationForm_validate_on_submit form w
  = (Return (reg_library_valid form
             && match PasswordValidator 8 (reg_password_data form) with
                | None => true
                | Some _ => false
                end
             && match find (fun r => (User.username r =? reg_username_data form)%string)
                           (users w) with
                | Some _ => false
                | None => true
                end
             && match find (fun r => (User.email r =? lower (reg_email_data form))%string)
                           (users w) with
                | Some _ => false
                | None => true
                end), w).
Proof.
  unfold RegistrationForm_validate_on_submit, RegistrationForm_validate_username,
    RegistrationForm_validate_email, first_user_by_username, first_user_by_email,
    bind, ret.
  destruct (find _ (users w)); destruct (find _ (users w)); reflexivity.
Qed.

Lemma current_user_signed_out (w : World) :
  signed_out w ->
  exists cu, current_user w = (Return cu, w) /\ authenticated cu = false.
Proof.
  unfold signed_out, current_user. intros H.
  destruct (logged_in w) as [uid|]; [|exists None; split; reflexivity].
  destruct (get_user uid (users w)) as [u|];
    [exists (Some u) | exists None]; split; try reflexivity. exact H.
Qed.

(** [POST /auth/register] from a browser without an authenticated user. *)
Lemma register_run (form : RegistrationForm) (w : World) :
  signed_out w ->
  pending w = [] ->
  route_register form w
  = match RegistrationForm_validate_on_submit form w with
    | (Return true, _) =>
        (Redirect "auth.login",
         add_flash flash_registered
           (tick (draw (set_tables (users w ++ [registered form w])
                                   (api_keys w) w))))
    | _ => (Render "auth/register.html" 200, w)
    end.
Proof.
  intros Hout Hp. destruct (current_user_signed_out w Hout) as (cu & Hcu & Hauth).
  unfold route_register, serve, register. unfold bind at 1. rewrite Hcu, Hauth.
  unfold bind at 1. rewrite RegistrationForm_validate_run.
  match goal with |- _ = (if ?b then _ else _) => destruct b end; [|reflexivity].
  destruct w as [us ks p li fl tk dr tr]; simpl in Hp; subst p. reflexivity.
Qed.

(** X18. A valid registration (the library's validators and the password
    policy pass, the name and the lowercased address are free) appends
    exactly one row: the name as given, the address in lower case, the
    hash of the password, active, not an admin, no failure on record; the
    keys and the session are untouched and the browser is sent to the
    login page. *)
Theorem register_creates_account (form : RegistrationForm) (w : World) :
  signed_out w ->
  pending w = [] ->
  reg_library_valid form = true ->
  PasswordValidator 8 (reg_password_data form) = None ->
  (forall r, In r (users w) -> User.username r <> reg_username_data form) ->
  (forall r, In r (users w) -> User.email r <> lower (reg_email_data form)) ->
  exists w1,
    route_register form w = (Redirect "auth.login", w1)
    /\ users w1 = users w ++ [registered form w]
    /\ api_keys w1 = api_keys w
    /\ logged_in w1 = logged_in w
    /\ pending w1 = []
    /\ flashes w1 = flash_registered :: flashes w.
Proof.
  intros Hout Hp Hlib Hpw Hname Hmail.
  rewrite (register_run form w Hout Hp), RegistrationForm_validate_run.
  rewrite Hlib, Hpw.
  assert (H1 : find (fun r => (User.username r =? reg_username_data form)%string)
                    (users w) = None).
  { apply find_none_iff. intros r Hin. apply String.eqb_neq. apply Hname, Hin. }
  assert (H2 : find (fun r => (User.email r =? lower (reg_email_data form))%string)
                    (users w) = None).
  { apply find_none_iff. intros r Hin. apply String.eqb_neq. apply Hmail, Hin. }
  rewrite H1, H2. simpl. eexists. split; [reflexivity|].
  simpl. repeat split. exact Hp.
Qed.

(** X19. Registration refuses a taken name or a taken address: when some
    account has the submitted name, whatever the address, or has the
    submitted address in lower case, the form is shown again and the world
    is as before. *)
Theorem register_refuses_duplicates
        (form : RegistrationForm) (r : User.t) (w : World) :
  signed_out w ->
  pending w = [] ->
  In r (users w) ->
  User.username r = reg_username_data form
  \/ User.email r = lower (reg_email_data form) ->
  route_register form w = (Render "auth/register.html" 200, w).
Proof.
  intros Hout Hp Hin Hdup.
  rewrite (register_run form w Hout Hp), RegistrationForm_validate_run.
  destruct Hdup as [Hn | He].
  - destruct (find (fun r => (User.username r =? reg_username_data form)%string)
                   (users w)) eqn:Hf.
    + rewrite andb_false_r. reflexivity.
    + rewrite find_none_iff in Hf. specialize (Hf r Hin). simpl in Hf.
      rewrite Hn, String.eqb_refl in Hf. discriminate.
  - destruct (find (fun r => (User.email r =? lower (reg_email_data form))%string)
                   (users w)) eqn:Hf.
    + rewrite andb_false_r. reflexivity.
    + rewrite find_none_iff in Hf. specialize (Hf r Hin). simpl in Hf.
      rewrite He, String.eqb_refl in Hf. discriminate.
Qed.

(** X20. Registration keeps the accounts apart: if ids, names and
    addresses are pairwise distinct and the addresses are in lower case
    before, they are so after, whatever was submitted. *)
Theorem register_keeps_accounts_unique (form : RegistrationForm) (w : World) :
  signed_out w ->
  pending w = [] ->
  unique_accounts w ->
  emails_lowercase w ->
  unique_accounts (snd (route_register form w))
  /\ emails_lowercase (snd (route_register form w)).
Proof.
  intros Hout Hp (Hid & Hn & He) Hlow.
  rewrite (register_run form w Hout Hp), RegistrationForm_validate_run.
  destruct (reg_library_valid form); simpl;
    [|split; [repeat split; assumption | exact Hlow]].
  destruct (PasswordValidator 8 (reg_password_data form)); simpl;
    [split; [repeat split; assumption | exact Hlow]|].
  destruct (find (fun r => (User.username r =? reg_username_data form)%string)
                 (users w)) eqn:H1; simpl;
    [split; [repeat split; assumption | exact Hlow]|].
  destruct (find (fun r => (User.email r =? lower (reg_email_data form))%string)
                 (users w)) eqn:H2; simpl;
    [split; [repeat split; assumption | exact Hlow]|].
  rewrite find_none_iff in H1, H2.
  assert (Hsnoc : forall (A : Type) (l : list A) (x : A),
             NoDup l -> ~ In x l -> NoDup (l ++ [x])).
  { intros A l x Hl Hx. apply NoDup_app; [exact Hl | repeat constructor; intros [] |].
    intros a Ha [<- | []]. contradiction. }
  split; [repeat split|]; unfold unique_accounts; simpl.
  - rewrite map_app. apply Hsnoc; [exact Hid|]. simpl.
    intros Hin. apply next_id_fresh in Hin. lia.
  - rewrite map_app. apply Hsnoc; [exact Hn|]. simpl.
    intros Hin. apply in_map_iff in Hin. destruct Hin as (r & Hr & Hin).
    specialize (H1 r Hin). simpl in H1. rewrite Hr, String.eqb_refl in H1.
    discriminate.
  - rewrite map_app. apply Hsnoc; [exact He|]. simpl.
    intros Hin. apply in_map_iff in Hin. destruct Hin as (r & Hr & Hin).
    specialize (H2 r Hin). simpl in H2. rewrite Hr, String.eqb_refl in H2.
    discriminate.
  - intros r Hin. simpl in Hin. apply in_app_or in Hin.
    destruct Hin as [Hin | [<- | []]]; [apply Hlow; exact Hin|].
    simpl. apply lower_idempotent.
Qed.

Lemma find_app_none {A} (p : A -> bool) (l1 l2 : list A) :
  find p l1 = None -> find p (l1 ++ l2) = find p l2.
Proof.
  induction l1 as [|a l1 IH]; simpl; [reflexivity|].
  destruct (p a); [discriminate | exact IH].
Qed.

(** X21. Register, then log in.  After a valid registration the new
    account can log in at once with the name and the password it
    registered: the login succeeds and the session belongs to the new
    row.  The hasher is asked only to verify the plaintext it hashed; the
    name must not be the address of an older account. *)
Theorem register_then_login
        (form : RegistrationForm) (lform : LoginForm)
        (next_arg : option string) (w : World) :
  (forall salt p,
      bcrypt_check_password_hash (bcrypt_generate_password_hash salt p) p = true) ->
  logged_in w = None ->
  pending w = [] ->
  reg_library_valid form = true ->
  PasswordValidator 8 (reg_password_data form) = None ->
  (forall r, In r (users w) -> User.username r <> reg_username_data form) ->
  (forall r, In r (users w) -> User.email r <> lower (reg_email_data form)) ->
  (forall r, In r (users w) -> User.email r <> lower (reg_username_data form)) ->
  validate_on_submit lform = true ->
  username_data lform = reg_username_data form ->
  password_data lform = reg_password_data form ->
  exists w1 w2,
    route_register form w = (Redirect "auth.login", w1)
    /\ route_login lform next_arg w1 = (Redirect (login_target next_arg), w2)
    /\ logged_in w2 = Some (User.id (registered form w))
    /\ get_user (User.id (registered form w)) (users w2)
       = Some (User.with_last_login (Some (utc (S (ticks w)))) (registered form w)).
Proof.
  intros Hhash Hl Hp Hlib Hpw Hname Hmail Hmail2 Hv Hu Hpass.
  assert (Hout : signed_out w) by (unfold signed_out; rewrite Hl; exact I).
  rewrite (register_run form w Hout Hp), RegistrationForm_validate_run.
  rewrite Hlib, Hpw.
  assert (H1 : find (fun r => (User.username r =? reg_username_data form)%string)
                    (users w) = None).
  { apply find_none_iff. intros r Hin. apply String.eqb_neq. apply Hname, Hin. }
  assert (H2 : find (fun r => (User.email r =? lower (reg_email_data form))%string)
                    (users w) = None).
  { apply find_none_iff. intros r Hin. apply String.eqb_neq. apply Hmail, Hin. }
  rewrite H1, H2. simpl.
  assert (H3 : find (fun r => (User.username r =? username_data lform)%string
                              || (User.email r =? lower (username_data lform))%string)
                    (users w ++ [registered form w]) = Some (registered form w)).
  { rewrite find_app_none.
    - simpl. rewrite Hu, String.eqb_refl. reflexivity.
    - apply find_none_iff. intros r Hin. rewrite Hu. apply orb_false_iff. split.
      + apply String.eqb_neq. apply Hname, Hin.
      + apply String.eqb_neq. apply Hmail2, Hin. }
  assert (Hfresh : forall r, In r (users w) ->
                             (User.id r =? User.id (registered form w)) = false).
  { intros r Hin. apply Z.eqb_neq. simpl.
    pose proof (next_id_fresh (map User.id (users w)) (User.id r)
                  (in_map User.id _ _ Hin)). lia. }
  destruct w as [us ks p li fl tk dr tr]; simpl in Hp, Hl; subst p li.
  unfold registered in H3, Hfresh |- *. simpl in H3, Hfresh |- *.
  assert (Hrow : forall t,
             get_user (next_id (map User.id us))
               (replace_user
                  (User.mk (next_id (map User.id us)) (reg_username_data form)
                     (lower (reg_email_data form))
                     (bcrypt_generate_password_hash (entropy dr)
                                                    (reg_password_data form))
                     true false 0 None None (utc tk) t)
                  (us ++ [User.mk (next_id (map User.id us)) (reg_username_data form)
                            (lower (reg_email_data form))
                            (bcrypt_generate_password_hash (entropy dr)
                                                           (reg_password_data form))
                            true false 0 None None (utc tk) None]))
             = Some (User.mk (next_id (map User.id us)) (reg_username_data form)
                       (lower (reg_email_data form))
                       (bcrypt_generate_password_hash (entropy dr)
                                                      (reg_password_data form))
                       true false 0 None None (utc tk) t)).
  { intros t. unfold get_user, replace_user. rewrite map_app, find_app_none.
    - simpl. rewrite Z.eqb_refl. simpl. rewrite Z.eqb_refl. reflexivity.
    - apply find_none_iff. intros r Hin. apply in_map_iff in Hin.
      destruct Hin as (r0 & <- & Hin). simpl. rewrite (Hfresh r0 Hin).
      exact (Hfresh r0 Hin). }
  match goal with
  | |- exists w1 w2, (_, ?x) = _ /\ _ => exists x
  end.
  eexists. split; [reflexivity|].
  unfold route_login, serve, login, current_user, first_user_by, check_password,
    is_account_locked, reset_failed_logins, login_user, bind, ret, flash, utcnow,
    stage, commit.
  unfold add_flash, tick, draw, set_tables.
  cbn [users api_keys pending logged_in flashes ticks draws trace authenticated].
  cbv beta iota delta [users].
  rewrite Hv, H3. simpl. rewrite Hpass, Hhash. simpl.
  login_redirect;
    (split; [reflexivity|]; split; [reflexivity|]; simpl; apply Hrow).
Qed.

(** *** Changing the password, the profile, logging out *)

(** [POST /auth/change-password] for an authenticated caller. *)
Lemma change_password_run (form : ChangePasswordForm) (cu : User.t) (w : World) :
  signed_in cu w ->
  pending w = [] ->
  route_change_password form w
  = if ChangePasswordForm_validate_on_submit form then
      let w0 := record_event (EvCheckPassword (User.id cu)) w in
      if negb (bcrypt_check_password_hash (User.password_hash cu)
                                          (current_password_data form))
      then (Render "auth/change_password.html" 200,
            add_flash ("Current password is incorrect.", "danger") w0)
      else
        let w1 := record_event (EvCheckPassword (User.id cu)) w0 in
        if bcrypt_check_password_hash (User.password_hash cu)
                                      (new_password_data form)
        then (Render "auth/change_password.html" 200,
              add_flash ("New password must be different from current password.",
                         "warning") w1)
        else
          let cu1 := User.with_password_hash
                       (bcrypt_generate_password_hash (entropy (draws w))
                                                      (new_password_data form)) cu in
          (Redirect "auth.profile",
           add_flash ("Your password has been changed successfully.", "success")
             (set_tables (replace_user cu1 (users w)) (api_keys w) (draw w1)))
    else (Render "auth/change_password.html" 200, w).
Proof.
  intros Hs Hp. unfold route_change_password, serve.
  rewrite (login_route_run _ cu w Hs). unfold change_password.
  destruct (ChangePasswordForm_validate_on_submit form); [|reflexivity].
  unfold bind at 1. rewrite (current_user_signed_in cu w Hs).
  destruct w as [us ks p li fl tk dr tr]; simpl in Hp; subst p.
  unfold check_password, set_password, urandom, bind, ret, flash, stage, commit.
  simpl.
  destruct (bcrypt_check_password_hash (User.password_hash cu)
                                       (current_password_data form)); [|reflexivity].
  simpl.
  destruct (bcrypt_check_password_hash (User.password_hash cu)
                                       (new_password_data form)); reflexivity.
Qed.

(** X22. A password change is refused, and no row changes, when the form
    is not valid (the new password fails the policy, say), when the
    current password is wrong, or when the new password verifies against
    the current hash. *)
Theorem change_password_refused
        (form : ChangePasswordForm) (cu : User.t) (w : World) :
  signed_in cu w ->
  pending w = [] ->
  ChangePasswordForm_validate_on_submit form = false
  \/ bcrypt_check_password_hash (User.password_hash cu)
                                (current_password_data form) = false
  \/ bcrypt_check_password_hash (User.password_hash cu)
                                (new_password_data form) = true ->
  fst (route_change_password form w) = Render "auth/change_password.html" 200
  /\ users (snd (route_change_password form w)) = users w
  /\ api_keys (snd (route_change_password form w)) = api_keys w
  /\ logged_in (snd (route_change_password form w)) = logged_in w.
Proof.
  intros Hs Hp H. rewrite (change_password_run form cu w Hs Hp). cbv zeta.
  destruct (ChangePasswordForm_validate_on_submit form) eqn:Hv;
    [|repeat split].
  destruct (bcrypt_check_password_hash (User.password_hash cu)
                                       (current_password_data form)) eqn:Hc;
    simpl; [|repeat split].
  destruct (bcrypt_check_password_hash (User.password_hash cu)
                                       (new_password_data form)) eqn:Hn;
    [repeat split|].
  destruct H as [H | [H | H]]; discriminate.
Qed.

(** X23. A password change that goes through rewrites the caller's row
    in [password_hash] only; and under the contract of the hasher the new
    password verifies against the new hash and the old one does not. *)
Theorem change_password_replaces_hash
        (form : ChangePasswordForm) (cu : User.t) (w : World) :
  (forall salt p q,
      bcrypt_check_password_hash (bcrypt_generate_password_hash salt p) q = true
      <-> p = q) ->
  signed_in cu w ->
  pending w = [] ->
  ChangePasswordForm_validate_on_submit form = true ->
  bcrypt_check_password_hash (User.password_hash cu)
                             (current_password_data form) = true ->
  bcrypt_check_password_hash (User.password_hash cu)
                             (new_password_data form) = false ->
  exists cu1 w1 new_hash,
    route_change_password form w = (Redirect "auth.profile", w1)
    /\ cu1 = User.with_password_hash new_hash cu
    /\ users w1 = replace_user cu1 (users w)
    /\ api_keys w1 = api_keys w
    /\ bcrypt_check_password_hash new_hash (new_password_data form) = true
    /\ bcrypt_check_password_hash new_hash (current_password_data form) = false.
Proof.
  intros Hhash Hs Hp Hv Hc Hn. rewrite (change_password_run form cu w Hs Hp).
  rewrite Hv, Hc, Hn. cbv zeta. simpl.
  do 3 eexists. split; [reflexivity|]. split; [reflexivity|].
  split; [reflexivity|]. split; [reflexivity|]. split.
  - apply Hhash. reflexivity.
  - match goal with
    | |- bcrypt_check_password_hash ?h _ = false =>
        destruct (bcrypt_check_password_hash h (current_password_data form)) eqn:E
    end; [|reflexivity].
    apply Hhash in E. rewrite E, Hc in Hn. discriminate.
Qed.

Lemma replace_user_absent (u : User.t) (us : list User.t) :
  ~ In (User.id u) (map User.id us) -> replace_user u us = us.
Proof.
  induction us as [|r us IH]; simpl; [reflexivity|]. intros Hn.
  destruct (User.id r =? User.id u) eqn:E.
  - apply Z.eqb_eq in E. exfalso. apply Hn. left. exact E.
  - rewrite IH; [reflexivity|]. intros H. apply Hn. right. exact H.
Qed.

Lemma replace_user_emails (u : User.t) (us : list User.t) (x : string) :
  In x (map User.email (replace_user u us)) ->
  x = User.email u \/ In x (map User.email us).
Proof.
  induction us as [|r us IH]; simpl; [contradiction|].
  destruct (User.id r =? User.id u); intros [H | H]; auto;
    destruct (IH H); auto.
Qed.

Lemma replace_user_rows (u : User.t) (us : list User.t) (r : User.t) :
  In r (replace_user u us) -> r = u \/ In r us.
Proof.
  induction us as [|a us IH]; simpl; [contradiction|].
  destruct (User.id a =? User.id u); intros [H | H]; auto;
    destruct (IH H); auto.
Qed.

Lemma replace_user_email_unique (u : User.t) (us : list User.t) :
  NoDup (map User.id us) ->
  NoDup (map User.email us) ->
  ~ In (User.email u) (map User.email us) ->
  NoDup (map User.email (replace_user u us)).
Proof.
  induction us as [|r us IH]; simpl; intros Hid Hem Hnew; [constructor|].
  inversion Hid as [|? ? Hid1 Hid2]; subst. inversion Hem as [|? ? Hem1 Hem2]; subst.
  destruct (User.id r =? User.id u) eqn:E.
  - apply Z.eqb_eq in E. rewrite replace_user_absent by (rewrite <- E; exact Hid1).
    simpl. constructor; [|exact Hem2]. intros H. apply Hnew. right. exact H.
  - simpl. constructor.
    + intros H. apply replace_user_emails in H. destruct H as [H | H].
      * apply Hnew. left. exact H.
      * contradiction.
    + apply IH; [exact Hid2 | exact Hem2 |]. intros H. apply Hnew. right. exact H.
Qed.

Lemma replace_user_same (u : User.t) (us : list User.t) :
  NoDup (map User.id us) -> In u us -> replace_user u us = us.
Proof.
  induction us as [|r us IH]; simpl; [contradiction|]. intros Hid Hin.
  inversion Hid as [|? ? Hid1 Hid2]; subst.
  destruct Hin as [-> | Hin].
  - rewrite Z.eqb_refl, replace_user_absent by exact Hid1. reflexivity.
  - destruct (User.id r =? User.id u) eqn:E.
    + apply Z.eqb_eq in E. exfalso. apply Hid1. rewrite E. apply in_map. exact Hin.
    + rewrite IH by assumption. reflexivity.
Qed.

Lemma with_email_same (u : User.t) : User.with_email (User.email u) u = u.
Proof. destruct u. reflexivity. Qed.

(** [POST /auth/profile] for an authenticated caller. *)
Lemma profile_run (form : ProfileUpdateForm) (cu : User.t) (w : World) :
  signed_in cu w ->
  pending w = [] ->
  route_profile form w
  = if profile_library_valid form
       && (if negb (lower (profile_email_data form) =? lower (User.email cu))%string
           then match find (fun r => (User.email r
                                      =? lower (profile_email_data form))%string)
                           (users w) with
                | Some _ => false
                | None => true
                end
           else true)
    then (Redirect "auth.profile",
          add_flash ("Your profile has been updated successfully.", "success")
            (set_tables
               (replace_user (User.with_email (lower (profile_email_data form)) cu)
                             (users w))
               (api_keys w) w))
    else (Render "auth/profile.html" 200, w).
Proof.
  intros Hs Hp. unfold route_profile, serve.
  rewrite (login_route_run _ cu w Hs). unfold profile.
  unfold bind at 1. rewrite (current_user_signed_in cu w Hs).
  unfold ProfileUpdateForm_validate_on_submit, ProfileUpdateForm_validate_email,
    first_user_by_email.
  destruct w as [us ks p li fl tk dr tr]; simpl in Hp; subst p.
  unfold bind, ret, flash, stage, commit. simpl.
  destruct (negb (lower (profile_email_data form) =? lower (User.email cu))%string);
    simpl;
    repeat match goal with
           | |- context [find ?p us] => destruct (find p us)
           end;
    simpl; destruct (profile_library_valid form); reflexivity.
Qed.

(** X24. A profile update keeps the addresses apart and in lower case:
    if ids and addresses are pairwise distinct and every address is in
    lower case before, they are so after; no row but the caller's
    changes, and the caller's changes in [email] only, to the submitted
    address in lower case; ids and keys are as before. *)
Theorem profile_keeps_emails_unique
        (form : ProfileUpdateForm) (cu : User.t) (w : World) :
  signed_in cu w ->
  pending w = [] ->
  NoDup (map User.id (users w)) ->
  NoDup (map User.email (users w)) ->
  emails_lowercase w ->
  let w' := snd (route_profile form w) in
  NoDup (map User.email (users w'))
  /\ emails_lowercase w'
  /\ map User.id (users w') = map User.id (users w)
  /\ api_keys w' = api_keys w
  /\ forall r, In r (users w') ->
               In r (users w)
               \/ r = User.with_email (lower (profile_email_data form)) cu.
Proof.
  intros Hs Hp Hid Hem Hlow w'. subst w'.
  rewrite (profile_run form cu w Hs Hp).
  assert (Hcu : In cu (users w)).
  { destruct Hs as (_ & Hg & _). unfold get_user in Hg.
    apply find_some in Hg. apply Hg. }
  assert (Hkeep : NoDup (map User.email (users w)) /\ emails_lowercase w
                  /\ map User.id (users w) = map User.id (users w)
                  /\ api_keys w = api_keys w
                  /\ forall r, In r (users w) ->
                       In r (users w)
                       \/ r = User.with_email (lower (profile_email_data form)) cu).
  { repeat split; auto. }
  destruct (profile_library_valid form); simpl; [|exact Hkeep].
  destruct (lower (profile_email_data form) =? lower (User.email cu))%string eqn:E;
    simpl.
  - apply String.eqb_eq in E. rewrite (Hlow cu Hcu) in E.
    rewrite E, with_email_same, (replace_user_same cu (users w) Hid Hcu).
    repeat split; auto.
  - destruct (find _ (users w)) eqn:Hf; [exact Hkeep|]. simpl.
    rewrite find_none_iff in Hf.
    assert (Hnew : ~ In (lower (profile_email_data form)) (map User.email (users w))).
    { intros H. apply in_map_iff in H. destruct H as (r & Hr & Hin).
      specialize (Hf r Hin). simpl in Hf. rewrite Hr, String.eqb_refl in Hf.
      discriminate. }
    split; [apply replace_user_email_unique; assumption|].
    split; [|split; [apply replace_user_ids|split; [reflexivity|]]].
    + intros r Hin. simpl in Hin. apply replace_user_rows in Hin.
      destruct Hin as [-> | Hin]; [apply lower_idempotent | apply Hlow, Hin].
    + intros r Hin. apply replace_user_rows in Hin. destruct Hin; auto.
Qed.

(** X25. Logging out ends the session and touches no table; from then on
    every view behind [@login_required], the dashboard among them, sends
    the browser to the login page without running. *)
Theorem logout_ends_session (cu : User.t) (w : World) :
  signed_in cu w ->
  exists w',
    route_logout w = (Redirect "main.index", w')
    /\ logged_in w' = None
    /\ users w' = users w
    /\ api_keys w' = api_keys w
    /\ (forall h, serve (login_required h) w'
                  = (Redirect "auth.login", add_flash flash_please_log_in w'))
    /\ route_dashboard w'
       = (Redirect "auth.login", add_flash flash_please_log_in w').
Proof.
  intros Hs. unfold route_logout, serve at 1.
  rewrite (login_route_run _ cu w Hs).
  eexists. split; [reflexivity|]. simpl.
  repeat split; reflexivity.
Qed.

(** *** The caller's keys *)

Lemma login_reply_run (h : M api_reply) (cu : User.t) (w : World) :
  signed_in cu w -> login_required_reply h w = h w.
Proof.
  intros Hs. pose proof (current_user_signed_in cu w Hs) as Hcu.
  destruct Hs as (_ & _ & Ha).
  unfold login_required_reply, bind. rewrite Hcu. simpl. rewrite Ha. reflexivity.
Qed.

(** [POST /api/keys] with a name the column takes. *)
Lemma create_api_key_run (data name : json) (text : string) (cu : User.t) (w : World) :
  signed_in cu w ->
  pending w = [] ->
  truthy data = true ->
  py_in "name" data = Return true ->
  py_getitem data "name" = Return name ->
  column_text name = Return text ->
  route_create_api_key data w
  = (CreatedBody "API key created successfully" (entropy (draws w))
       (created_key cu text w)
       "Save this key now. You will not be able to see it again." 201,
     tick (draw (draw (set_tables (users w)
                         (api_keys w ++ [created_key cu text w]) w)))).
Proof.
  intros Hs Hp Ht Hin Hget Hcol.
  unfold route_create_api_key, serve_api_reply.
  rewrite (login_reply_run _ cu w Hs). unfold create_api_key.
  rewrite Ht. simpl. unfold bind at 1. unfold lift at 1. rewrite Hin. simpl.
  unfold token_urlsafe, urandom. unfold bind at 1.
  unfold bind at 1. unfold lift at 1. rewrite Hget.
  unfold bind at 1. unfold current_user_id, bind at 1.
  assert (Hcu : current_user (draw w) = (Return (Some cu), draw w)).
  { pose proof (current_user_signed_in cu w Hs) as H. unfold current_user in *.
    simpl. injection H as H. rewrite H. reflexivity. }
  rewrite Hcu. unfold ret at 1.
  unfold set_key, urandom, bind, lift, ret, stage, commit, refreshed.
  rewrite Hcol.
  destruct w as [us ks p li fl tk dr tr]; simpl in Hp; subst p.
  unfold flush, created_key. simpl. rewrite last_last. reflexivity.
Qed.

(** X26. Creating a key and using it.  [POST /api/keys] with a name the
    column takes appends one key row owned by the caller, active and
    without expiry, and answers 201 with the raw value and that row; the
    users are untouched.  When the hasher verifies the plaintext it
    hashed, the raw value is fresh and the caller is active, presenting
    the raw value to [GET /api/auth/me] resolves the caller, and
    [GET /api/keys] lists the new row. *)
Theorem create_api_key_round_trip
        (data name : json) (text : string) (cu : User.t) (w : World) :
  (forall salt p, check_password_hash (generate_password_hash salt p) p = true) ->
  signed_in cu w ->
  pending w = [] ->
  truthy data = true ->
  py_in "name" data = Return true ->
  py_getitem data "name" = Return name ->
  column_text name = Return text ->
  entropy (draws w) <> "" ->
  (forall k, In k (api_keys w) ->
             check_password_hash (ApiKey.key_hash k) (entropy (draws w)) = false) ->
  User.is_active cu = true ->
  exists w1 w2 keys,
    route_create_api_key data w
    = (CreatedBody "API key created successfully" (entropy (draws w))
         (created_key cu text w)
         "Save this key now. You will not be able to see it again." 201, w1)
    /\ api_keys w1 = api_keys w ++ [created_key cu text w]
    /\ users w1 = users w
    /\ route_get_current_user (Some (entropy (draws w))) w1
       = (Json (UserBody cu) 200, w2)
    /\ route_list_api_keys w1 = (KeysBody keys 200, w1)
    /\ In (created_key cu text w) keys.
Proof.
  intros Hhash Hs Hp Ht Hin Hget Hcol Hraw Hfresh Ha.
  rewrite (create_api_key_run data name text cu w Hs Hp Ht Hin Hget Hcol).
  match goal with
  | |- exists w1 w2 keys, (_, ?x) = _ /\ _ => set (w1 := x)
  end.
  assert (Hs1 : signed_in cu w1).
  { destruct Hs as (Hl & Hg & Hau). repeat split; assumption. }
  assert (Hp1 : pending w1 = []) by exact Hp.
  destruct (find_api_key_first (entropy (draws w)) (created_key cu text w) []
              (filter ApiKey.is_active (api_keys w)) w1)
    as (w2 & t & Hr & _).
  { exact Hp1. }
  { intros k Hk. apply filter_In in Hk. right. right. apply Hfresh, Hk. }
  { repeat split; [|apply Hhash]. intros e He. discriminate. }
  exists w1, w2, (filter (fun r => ApiKey.user_id r =? User.id cu) (api_keys w1)).
  split; [reflexivity|]. split; [reflexivity|]. split; [reflexivity|]. split.
  - unfold route_get_current_user, serve_api, api_key_required.
    destruct (entropy (draws w) =? "")%string eqn:E;
      [apply String.eqb_eq in E; contradiction|].
    assert (Hkeys : filter ApiKey.is_active (api_keys w1)
                    = filter ApiKey.is_active (api_keys w) ++ [created_key cu text w]).
    { unfold w1. simpl. rewrite filter_app. reflexivity. }
    destruct Hs1 as (_ & Hg1 & _).
    clearbody w1. mrun. unfold active_api_keys.
    rewrite Hkeys, Hr. simpl. rewrite Hg1. simpl. rewrite Ha. reflexivity.
  - split.
    + unfold route_list_api_keys, serve_api_reply.
      rewrite (login_reply_run _ cu w1 Hs1).
      unfold list_api_keys, current_user_id, bind.
      rewrite (current_user_signed_in cu w1 Hs1). reflexivity.
    + apply filter_In. split.
      * unfold w1. simpl. apply in_or_app. right. left. reflexivity.
      * simpl. apply Z.eqb_refl.
Qed.

(** X27. [POST /api/keys] creates nothing when the body is empty or has
    no [name] (400, the world as before), and when the column refuses the
    name (500, the tables as before). *)
Theorem create_api_key_refused (data : json) (cu : User.t) (w : World) :
  signed_in cu w ->
  pending w = [] ->
  (truthy data = false \/ py_in "name" data = Return false ->
   route_create_api_key data w = (key_name_required, w))
  /\ (forall name e,
         truthy data = true ->
         py_in "name" data = Return true ->
         py_getitem data "name" = Return name ->
         column_text name = Raise e ->
         reply_status (fst (route_create_api_key data w)) = 500
         /\ users (snd (route_create_api_key data w)) = users w
         /\ api_keys (snd (route_create_api_key data w)) = api_keys w).
Proof.
  intros Hs Hp. split.
  - intros H. unfold route_create_api_key, serve_api_reply.
    rewrite (login_reply_run _ cu w Hs). unfold create_api_key, bind, lift, ret.
    destruct H as [H | H].
    + rewrite H. reflexivity.
    + destruct (truthy data); [|reflexivity]. simpl. rewrite H. reflexivity.
  - intros name e Ht Hin Hget Hcol.
    assert (Hrun : route_create_api_key data w
                   = (Plain server_error, rollback (draw (draw w)))).
    { unfold route_create_api_key, serve_api_reply.
      rewrite (login_reply_run _ cu w Hs). unfold create_api_key.
      rewrite Ht. simpl. unfold bind at 1. unfold lift at 1. rewrite Hin. simpl.
      unfold token_urlsafe, urandom. unfold bind at 1.
      unfold bind at 1. unfold lift at 1. rewrite Hget.
      unfold bind at 1. unfold current_user_id, bind at 1.
      assert (Hcu : current_user (draw w) = (Return (Some cu), draw w)).
      { pose proof (current_user_signed_in cu w Hs) as H. unfold current_user in *.
        simpl. injection H as H. rewrite H. reflexivity. }
      rewrite Hcu. unfold ret at 1.
      unfold set_key, urandom, bind, lift, ret. rewrite Hcol. reflexivity. }
    rewrite Hrun. repeat split.
Qed.

(** X28. [GET /api/keys] answers an authenticated caller with the keys
    whose owner is the caller, all of them and no key of anybody else,
    and changes nothing. *)
Theorem list_api_keys_own_keys_only (cu : User.t) (w : World) :
  signed_in cu w ->
  exists keys,
    route_list_api_keys w = (KeysBody keys 200, w)
    /\ forall k, In k keys <->
                 In k (api_keys w) /\ ApiKey.user_id k = User.id cu.
Proof.
  intros Hs.
  exists (filter (fun r => ApiKey.user_id r =? User.id cu) (api_keys w)). split.
  - unfold route_list_api_keys, serve_api_reply.
    rewrite (login_reply_run _ cu w Hs).
    unfold list_api_keys, current_user_id, bind.
    rewrite (current_user_signed_in cu w Hs). reflexivity.
  - intros k. rewrite filter_In, Z.eqb_eq. reflexivity.
Qed.

(** *** The default admin *)

(** X29. The default admin of [create_app].  When some user is named
    [admin], nothing happens, whatever that user is.  Otherwise one row
    is appended: named [admin], an admin, active, with the address and the
    hash of the password of the environment (or their defaults).  Either
    way a user named [admin] exists afterwards, and a second start-up, in
    any environment, changes nothing. *)
Theorem create_default_admin_once
        (admin_email admin_password admin_email' admin_password' : option string)
        (w : World) :
  pending w = [] ->
  let w1 := snd (create_default_admin admin_email admin_password w) in
  ((exists r, In r (users w) /\ User.username r = "admin") -> w1 = w)
  /\ ((forall r, In r (users w) -> User.username r <> "admin") ->
      users w1
      = users w
        ++ [User.mk (next_id (map User.id (users w))) "admin"
              (match admin_email with Some e => e | None => "admin@example.com" end)
              (bcrypt_generate_password_hash (entropy (draws w))
                 (match admin_password with Some p => p | None => "changeme123" end))
              true true 0 None None (utc (ticks w)) None]
      /\ api_keys w1 = api_keys w)
  /\ (exists r, In r (users w1) /\ User.username r = "admin")
  /\ snd (create_default_admin admin_email' admin_password' w1) = w1.
Proof.
  intros Hp w1.
  assert (Hrun : forall e p w0,
             (exists r, In r (users w0) /\ User.username r = "admin") ->
             snd (create_default_admin e p w0) = w0).
  { intros e p w0 (r & Hin & Hr).
    unfold create_default_admin, first_user_by_username, bind, ret.
    destruct (find (fun r => (User.username r =? "admin")%string) (users w0)) eqn:Hf;
      [reflexivity|].
    rewrite find_none_iff in Hf. specialize (Hf r Hin). simpl in Hf.
    rewrite Hr in Hf. discriminate. }
  assert (Hnew : (forall r, In r (users w) -> User.username r <> "admin") ->
                 users w1
                 = users w
                   ++ [User.mk (next_id (map User.id (users w))) "admin"
                         (match admin_email with
                          | Some e => e | None => "admin@example.com" end)
                         (bcrypt_generate_password_hash (entropy (draws w))
                            (match admin_password with
                             | Some p => p | None => "changeme123" end))
                         true true 0 None None (utc (ticks w)) None]
                 /\ api_keys w1 = api_keys w).
  { intros Hno. subst w1.
    unfold create_default_admin, first_user_by_username, bind.
    assert (Hf : find (fun r => (User.username r =? "admin")%string) (users w) = None).
    { apply find_none_iff. intros r Hin. apply String.eqb_neq. apply Hno, Hin. }
    rewrite Hf.
    destruct w as [us ks p li fl tk dr tr]; simpl in Hp; subst p.
    unfold set_password, session_add_user, urandom, commit, bind, ret.
    simpl. split; reflexivity. }
  assert (Hex : exists r, In r (users w1) /\ User.username r = "admin").
  { destruct (find (fun r => (User.username r =? "admin")%string) (users w)) eqn:Hf.
    - apply find_some in Hf. destruct Hf as [Hin Hr]. apply String.eqb_eq in Hr.
      subst w1. rewrite Hrun by eauto. eauto.
    - rewrite find_none_iff in Hf.
      destruct Hnew as [Hu _].
      { intros r Hin. apply String.eqb_neq. apply (Hf r Hin). }
      rewrite Hu. eexists. split; [apply in_or_app; right; left; reflexivity|].
      reflexivity. }
  split; [intros H; apply Hrun; exact H|].
  split; [exact Hnew|]. split; [exact Hex|].
  apply Hrun. exact Hex.
Qed.

End Program.

(** ** The properties at the concrete instance *)

Lemma is_account_locked_spec_witness :
  is_account_locked Demo.utc Demo.carol (Demo.world None)
  = (Return (true, Demo.carol), tick (Demo.world None))
  /\ (exists w',
         is_account_locked Demo.utc Demo.carol (Demo.world_at 30 None)
         = (Return (false, User.with_failed_login_attempts 0
                             (User.with_account_locked_until None Demo.carol)), w'))
  /\ is_account_locked Demo.utc Demo.alice (Demo.world None)
     = (Return (false, Demo.alice), Demo.world None).
Proof.
  split; [|split].
  - apply (proj1 (is_account_locked_spec Demo.utc Demo.carol (Demo.world None))
             1800000000); [reflexivity | vm_compute; reflexivity].
  - destruct (proj1 (proj2 (is_account_locked_spec Demo.utc Demo.carol
                              (Demo.world_at 30 None)))
                    1800000000) as (w' & H & _);
      [reflexivity | vm_compute; discriminate |].
    exists w'. exact H.
  - apply (proj2 (proj2 (is_account_locked_spec Demo.utc Demo.alice (Demo.world None)))).
    reflexivity.
Defined.

Lemma record_failed_login_lockout_witness :
  exists u5 w5,
    record_failures Demo.utc 5 Demo.alice (Demo.world None) = (Return u5, w5)
    /\ User.failed_login_attempts u5 = 5
    /\ User.account_locked_until u5 = Some 2160000000.
Proof.
  destruct (record_failed_login_lockout Demo.utc Demo.alice (Demo.world None))
    as (_ & u5 & w5 & Hr & Hf & _ & Hl & _); [reflexivity | reflexivity |].
  exists u5, w5. split; [exact Hr|]. split; [exact Hf|]. exact Hl.
Defined.

(** C3 as the spec states it fails: on alice, the fifth failure locks the
    account until 2160000000; the sixth is recorded while that lock is
    running, and moves the lock to 2280000000. *)
Lemma sixth_failure_extends_lock :
  option_map User.account_locked_until
    (value (record_failures Demo.utc 5 Demo.alice (Demo.world None)))
  = Some (Some 2160000000)
  /\ option_map fst
       (value ((u5 <- record_failures Demo.utc 5 Demo.alice ;;
                is_account_locked Demo.utc u5) (Demo.world None)))
     = Some true
  /\ option_map User.account_locked_until
       (value (record_failures Demo.utc 6 Demo.alice (Demo.world None)))
     = Some (Some 2280000000).
Proof.
  repeat split; vm_compute; reflexivity.
Qed.

Lemma expired_key_fails_verification_witness :
  verify_key Demo.utc Demo.check_password_hash Demo.stale_key "stale-secret"
             (Demo.world None)
  = (Return false, tick (Demo.world None))
  /\ exists n r,
      api_key_required Demo.utc Demo.check_password_hash get_current_user
                       (Some "stale-secret") (Demo.world None)
      = (Return r, advance n (Demo.world None))
      /\ status_of r = 401.
Proof.
  destruct (expired_key_fails_verification Demo.utc Demo.check_password_hash
              Demo.stale_key "stale-secret" (Demo.world None) 1)
    as [Hv Hroute]; [reflexivity | vm_compute; reflexivity |].
  split; [exact Hv|].
  apply Hroute.
  - intros m Hm. unfold Demo.utc. simpl in Hm. lia.
  - intros k [<- | [<- | [<- | []]]] Hne; [reflexivity | reflexivity | contradiction].
Defined.

Lemma api_key_required_guard_witness :
  api_key_required Demo.utc Demo.check_password_hash get_current_user None
                   (Demo.world None)
  = (Return key_required, Demo.world None)
  /\ (exists n,
         api_key_required Demo.utc Demo.check_password_hash get_current_user
                          (Some "no-such-key") (Demo.world None)
         = (Return key_invalid, advance n (Demo.world None)))
  /\ (exists w',
         api_key_required Demo.utc Demo.check_password_hash get_current_user
                          (Some "bob-secret") (Demo.world None)
         = (Return (Json (ErrorBody "Account deactivated"
                            "Your account has been deactivated") 403), w')
         /\ users w' = users (Demo.world None)).
Proof.
  destruct (api_key_required_guard Demo.utc Demo.check_password_hash
              get_current_user (Demo.world None)) as (H1 & H2 & H3).
  split; [exact H1|]. split.
  - apply (H2 "no-such-key"). intros k [<- | [<- | [<- | []]]] _; reflexivity.
  - apply (H3 "bob-secret" [Demo.alice_key] Demo.bob_key [Demo.stale_key] Demo.bob).
    + reflexivity.
    + discriminate.
    + reflexivity.
    + intros k [<- | []]. right. right. reflexivity.
    + split; [reflexivity|]. split; [|reflexivity]. intros e He. discriminate.
    + reflexivity.
    + reflexivity.
Defined.

Lemma revoke_api_key_owner_only_witness :
  route_revoke_api_key Demo.utc Demo.is_authenticated 1 (Demo.world (Some 2))
  = (Json (MessageBody "API key revoked successfully") 200,
     set_tables (users (Demo.world (Some 2))) [Demo.bob_key; Demo.stale_key]
                (Demo.world (Some 2)))
  /\ route_revoke_api_key Demo.utc Demo.is_authenticated 2 (Demo.world (Some 2))
     = (Json (ErrorBody "Not found" "API key not found") 404, Demo.world (Some 2)).
Proof.
  assert (Hs : signed_in Demo.is_authenticated Demo.alice (Demo.world (Some 2))).
  { repeat split. }
  split.
  - apply (proj1 (revoke_api_key_owner_only Demo.utc Demo.is_authenticated 1
                    Demo.alice (Demo.world (Some 2)) Hs eq_refl)).
    exists Demo.alice_key. repeat split. left. reflexivity.
  - apply (proj1 (proj2 (revoke_api_key_owner_only Demo.utc Demo.is_authenticated 2
                           Demo.alice (Demo.world (Some 2)) Hs eq_refl))).
    intros k [<- | [<- | [<- | []]]] Hid; simpl in Hid; discriminate.
Defined.

Lemma delete_user_self_rejected_witness :
  route_delete_user Demo.utc Demo.is_authenticated 1 (Demo.world (Some 1))
  = (Json (ErrorBody "Invalid operation" "You cannot delete your own account") 400,
     Demo.world (Some 1)).
Proof.
  apply (delete_user_self_rejected Demo.utc Demo.is_authenticated Demo.admin
           (Demo.world (Some 1))).
  - repeat split.
  - reflexivity.
Defined.

Lemma update_user_frame_witness :
  exists r w' u',
    route_update_user Demo.utc Demo.is_authenticated 2
      (JObj [("email", JStr "Alice@Example.COM"); ("is_admin", JBool true)])
      (Demo.world (Some 1)) = (r, w')
    /\ r = Json (UpdatedBody "User updated successfully" u') 200
    /\ same_outside_update Demo.alice u'
    /\ User.email u' = "alice@example.com".
Proof.
  destruct (update_user_frame Demo.utc Demo.is_authenticated 2
              (JObj [("email", JStr "Alice@Example.COM"); ("is_admin", JBool true)])
              Demo.admin Demo.alice (Demo.world (Some 1)))
    as (r & w' & Hrun & _ & [[H500 _] | (u' & Hr & _ & Hsame & Hem)]).
  - repeat split.
  - reflexivity.
  - reflexivity.
  - reflexivity.
  - exfalso. vm_compute in Hrun. injection Hrun as Hr _. subst r. discriminate.
  - exists r, w', u'. split; [exact Hrun|]. split; [exact Hr|]. split; [exact Hsame|].
    destruct Hem as [Hem | (s & Hs & Hem)].
    + rewrite Hem. reflexivity.
    + simpl in Hs. injection Hs as <-. exact Hem.
Defined.

(** The toy hasher honours the contract of the hasher. *)
Lemma demo_check_generate (salt p q : string) :
  Demo.check_password_hash (Demo.generate_password_hash salt p) q = true <-> p = q.
Proof.
  unfold Demo.check_password_hash, Demo.generate_password_hash.
  rewrite String.eqb_eq. simpl. split; intros H; congruence.
Defined.

Lemma api_key_round_trip_witness :
  exists u' w1,
    route_api_login Demo.utc Demo.entropy Demo.bcrypt_check_password_hash
                    Demo.generate_password_hash Demo.py_str
                    (credentials "alice" "Str0ng!Pass") (Demo.world None)
    = (Json (LoginBody "Authentication successful" "tok-a" u') 200, w1)
    /\ (exists w2,
           route_get_current_user Demo.utc Demo.check_password_hash
                                  (Some "tok-a") w1
           = (Json (UserBody u') 200, w2))
    /\ (exists n r,
           route_get_current_user Demo.utc Demo.check_password_hash
                                  (Some "tok-b") w1
           = (r, advance n w1) /\ status_of r = 401)
    /\ (exists k w3,
           In k (api_keys w1)
           /\ route_revoke_api_key Demo.utc Demo.is_authenticated (ApiKey.id k)
                (set_logged_in (Some (User.id u')) w1)
              = (Json (MessageBody "API key revoked successfully") 200, w3)
           /\ exists n r,
               route_get_current_user Demo.utc Demo.check_password_hash
                                      (Some "tok-a") w3
               = (r, advance n w3) /\ status_of r = 401).
Proof.
  do 2 eexists. split; [reflexivity|].
  match goal with
  | |- (exists w2, _ = (Json (UserBody ?u) 200, w2)) /\ (exists n r, _ ?w = _ /\ _) /\ _ =>
      destruct (api_key_round_trip Demo.utc Demo.entropy
                  Demo.bcrypt_check_password_hash Demo.generate_password_hash
                  Demo.check_password_hash Demo.py_str Demo.is_authenticated
                  demo_check_generate
                  "alice" "Str0ng!Pass" "Authentication successful" "tok-a"
                  u (Demo.world None) w)
        as (H1 & H2 & H3)
  end.
  - reflexivity.
  - reflexivity.
  - discriminate.
  - intros k [<- | [<- | [<- | []]]]; reflexivity.
  - split; [exact H1|]. split.
    + apply (H2 "tok-b"); [discriminate|].
      intros k [<- | [<- | [<- | []]]]; reflexivity.
    + destruct (H3 eq_refl) as (k & w3 & Hin & _ & _ & Hrev & Hme).
      exists k, w3. split; [exact Hin|]. split; [exact Hrev | exact Hme].
Defined.

Lemma api_login_wrong_password_unrecorded_witness :
  route_api_login Demo.utc Demo.entropy Demo.bcrypt_check_password_hash
                  Demo.generate_password_hash Demo.py_str
                  (credentials "alice" "wrong") (Demo.world None)
  = (Json (ErrorBody "Authentication failed" "Invalid username or password") 401,
     record_event (EvCheckPassword 2) (Demo.world None))
  /\ get_user 2 (users (record_event (EvCheckPassword 2) (Demo.world None)))
     = Some Demo.alice.
Proof.
  split; [|reflexivity].
  apply (api_login_wrong_password_unrecorded Demo.utc Demo.entropy
           Demo.bcrypt_check_password_hash Demo.generate_password_hash Demo.py_str
           "alice" "wrong" Demo.alice (Demo.world None)); reflexivity.
Defined.

Lemma api_login_checks_password_before_lock_witness :
  route_api_login Demo.utc Demo.entropy Demo.bcrypt_check_password_hash
                  Demo.generate_password_hash Demo.py_str
                  (credentials "carol" "wrong") (Demo.world None)
  = (Json (ErrorBody "Authentication failed" "Invalid username or password") 401,
     record_event (EvCheckPassword 4) (Demo.world None)).
Proof.
  apply (api_login_checks_password_before_lock Demo.utc Demo.entropy
           Demo.bcrypt_check_password_hash Demo.generate_password_hash Demo.py_str
           "carol" "wrong" Demo.carol (Demo.world None) 1800000000);
    [reflexivity | reflexivity | vm_compute; reflexivity].
Defined.

(** The toy bcrypt honours the contract of the hasher. *)
Lemma demo_bcrypt_check_generate (salt p q : string) :
  Demo.bcrypt_check_password_hash (Demo.bcrypt_generate_password_hash salt p) q = true
  <-> p = q.
Proof.
  unfold Demo.bcrypt_check_password_hash, Demo.bcrypt_generate_password_hash.
  rewrite String.eqb_eq. simpl. split; intros H; congruence.
Defined.

Lemma login_success_witness :
  exists w1,
    route_login Demo.utc Demo.bcrypt_check_password_hash Demo.is_authenticated
      (Build_LoginForm "alice" "Str0ng!Pass" false true) (Some "/profile")
      (Demo.world None)
    = (Redirect "/profile", w1)
    /\ logged_in w1 = Some 2.
Proof.
  destruct (login_success Demo.utc Demo.bcrypt_check_password_hash
              Demo.is_authenticated
              (Build_LoginForm "alice" "Str0ng!Pass" false true) (Some "/profile")
              Demo.alice (Demo.world None))
    as (u1 & w1 & Hrun & Hl & _); try reflexivity.
  exists w1. split; [exact Hrun | exact Hl].
Defined.

Lemma login_after_lock_expired_witness :
  exists r w1,
    route_login Demo.utc Demo.bcrypt_check_password_hash Demo.is_authenticated
      (Build_LoginForm "carol" "C4rol!Pass" false true) None
      (Demo.world_at 31 None)
    = (r, w1)
    /\ r = Redirect "main.dashboard"
    /\ logged_in w1 = Some 4.
Proof.
  destruct (login_after_lock_expired Demo.utc Demo.bcrypt_check_password_hash
              Demo.is_authenticated
              (Build_LoginForm "carol" "C4rol!Pass" false true) None
              Demo.carol (Demo.world_at 31 None) 1800000000)
    as (u1 & w1 & r & Hrun & _ & _ & _ & Hok & _);
    [reflexivity | reflexivity | reflexivity | reflexivity | reflexivity
    | vm_compute; discriminate |].
  destruct (Hok eq_refl eq_refl) as (Hr & Hl & _).
  exists r, w1. split; [exact Hrun|]. split; [exact Hr | exact Hl].
Defined.

Lemma login_deactivated_witness :
  route_login Demo.utc Demo.bcrypt_check_password_hash Demo.is_authenticated
    (Build_LoginForm "bob" "B0b!Passw" false true) None (Demo.world None)
  = (Render "auth/login.html" 200,
     add_flash flash_deactivated (record_event (EvCheckPassword 3) (Demo.world None))).
Proof.
  apply (login_deactivated Demo.utc Demo.bcrypt_check_password_hash
           Demo.is_authenticated
           (Build_LoginForm "bob" "B0b!Passw" false true) None
           Demo.bob (Demo.world None)); reflexivity.
Defined.

Lemma login_failures_indistinguishable_witness :
  fst (route_login Demo.utc Demo.bcrypt_check_password_hash Demo.is_authenticated
         (Build_LoginForm "alice" "wrong" false true) None (Demo.world None))
  = fst (route_login Demo.utc Demo.bcrypt_check_password_hash Demo.is_authenticated
           (Build_LoginForm "nobody" "Str0ng!Pass" false true) None (Demo.world None)).
Proof.
  apply (login_failures_indistinguishable Demo.utc Demo.bcrypt_check_password_hash
           Demo.is_authenticated
           (Build_LoginForm "nobody" "Str0ng!Pass" false true)
           (Build_LoginForm "alice" "wrong" false true) None None
           Demo.alice (Demo.world None) (Demo.world None)); reflexivity.
Defined.

Lemma login_lockout_engages_witness :
  exists w1,
    route_login Demo.utc Demo.bcrypt_check_password_hash Demo.is_authenticated
      (Build_LoginForm "alice" "wrong" false true) None Demo.world_four_failures
    = (Render "auth/login.html" 200, w1)
    /\ route_login Demo.utc Demo.bcrypt_check_password_hash Demo.is_authenticated
         (Build_LoginForm "alice" "Str0ng!Pass" false true) None w1
       = (Render "auth/login.html" 200, add_flash flash_locked (tick w1)).
Proof.
  destruct (login_lockout_engages Demo.utc Demo.bcrypt_check_password_hash
              Demo.is_authenticated
              (Build_LoginForm "alice" "wrong" false true)
              (Build_LoginForm "alice" "Str0ng!Pass" false true) None None
              (User.with_failed_login_attempts 4 Demo.alice)
              Demo.world_four_failures)
    as (u1 & w1 & Hrun & _ & _ & _ & Ht & Hlocked);
    [reflexivity | reflexivity | reflexivity | reflexivity | reflexivity
    | reflexivity | vm_compute; discriminate | reflexivity | reflexivity |].
  exists w1. split; [exact Hrun|].
  apply Hlocked. rewrite Ht. vm_compute. reflexivity.
Defined.

Lemma api_login_malformed_body_witness :
  route_api_login Demo.utc Demo.entropy Demo.bcrypt_check_password_hash
    Demo.generate_password_hash Demo.py_str
    (JObj [("username", JStr "alice")]) (Demo.world None)
  = (login_invalid_request, Demo.world None).
Proof.
  apply (api_login_malformed_body Demo.utc Demo.entropy
           Demo.bcrypt_check_password_hash Demo.generate_password_hash Demo.py_str
           (JObj [("username", JStr "alice")]) (Demo.world None)).
  right. right. split; reflexivity.
Defined.

Lemma api_login_username_not_a_string_witness :
  route_api_login Demo.utc Demo.entropy Demo.bcrypt_check_password_hash
    Demo.generate_password_hash Demo.py_str
    (JObj [("username", JNum 7); ("password", JStr "Str0ng!Pass")])
    (Demo.world None)
  = (server_error, rollback (Demo.world None)).
Proof.
  apply (api_login_username_not_a_string Demo.utc Demo.entropy
           Demo.bcrypt_check_password_hash Demo.generate_password_hash Demo.py_str
           [("username", JNum 7); ("password", JStr "Str0ng!Pass")]
           (JNum 7) (JStr "Str0ng!Pass") (Demo.world None));
    [reflexivity | reflexivity | intros s H; discriminate].
Defined.

Lemma api_login_unknown_user_witness :
  route_api_login Demo.utc Demo.entropy Demo.bcrypt_check_password_hash
    Demo.generate_password_hash Demo.py_str
    (credentials "nobody" "Str0ng!Pass") (Demo.world None)
  = (login_failed, Demo.world None).
Proof.
  apply (api_login_unknown_user Demo.utc Demo.entropy
           Demo.bcrypt_check_password_hash Demo.generate_password_hash Demo.py_str
           "nobody" "Str0ng!Pass" (Demo.world None)).
  reflexivity.
Defined.

Lemma api_login_deactivated_witness :
  route_api_login Demo.utc Demo.entropy Demo.bcrypt_check_password_hash
    Demo.generate_password_hash Demo.py_str
    (credentials "bob" "B0b!Passw") (Demo.world None)
  = (Json (ErrorBody "Account deactivated" "Your account has been deactivated") 403,
     record_event (EvCheckPassword 3) (Demo.world None)).
Proof.
  apply (api_login_deactivated Demo.utc Demo.entropy
           Demo.bcrypt_check_password_hash Demo.generate_password_hash Demo.py_str
           "bob" "B0b!Passw" Demo.bob (Demo.world None)); reflexivity.
Defined.


Lemma api_key_required_runs_as_owner_witness :
  exists w',
    route_get_current_user Demo.utc Demo.check_password_hash (Some "alice-secret")
      (Demo.world None)
    = (Json (UserBody Demo.alice) 200, w')
    /\ users w' = users (Demo.world None).
Proof.
  destruct (api_key_required_runs_as_owner Demo.utc Demo.check_password_hash
              get_current_user "alice-secret" [] [Demo.bob_key; Demo.stale_key]
              Demo.alice_key Demo.alice (Demo.world None))
    as (w' & t & _ & Hme & Hu & _).
  - reflexivity.
  - discriminate.
  - reflexivity.
  - intros k' [].
  - split; [reflexivity|]. split; [|reflexivity]. intros e He. discriminate.
  - reflexivity.
  - reflexivity.
  - exists w'. split; [exact Hme | exact Hu].
Defined.

Lemma admin_views_guarded_witness :
  route_delete_user Demo.utc Demo.is_authenticated 3 (Demo.world None)
  = (Redirect "auth.login", add_flash flash_please_log_in (Demo.world None))
  /\ route_delete_user Demo.utc Demo.is_authenticated 3 (Demo.world (Some 2))
     = (admin_only, Demo.world (Some 2)).
Proof.
  split.
  - apply (proj1 (admin_views_guarded Demo.utc Demo.is_authenticated 3 JNull
                    (Demo.world None))).
    exact I.
  - apply (proj2 (admin_views_guarded Demo.utc Demo.is_authenticated 3 JNull
                    (Demo.world (Some 2))) Demo.alice).
    + repeat split.
    + reflexivity.
Defined.

Lemma delete_user_cascades_witness :
  exists w',
    route_delete_user Demo.utc Demo.is_authenticated 2 (Demo.world (Some 1))
    = (Json (MessageBody "User deleted successfully") 200, w')
    /\ get_user 2 (users w') = None
    /\ ~ In Demo.alice_key (api_keys w')
    /\ In Demo.bob_key (api_keys w').
Proof.
  destruct (delete_user_cascades Demo.utc Demo.is_authenticated 2
              Demo.admin Demo.alice (Demo.world (Some 1)))
    as (w' & Hrun & Hg & Hk & _).
  - repeat split.
  - reflexivity.
  - reflexivity.
  - discriminate.
  - reflexivity.
  - exists w'. split; [exact Hrun|]. split; [exact Hg|]. split.
    + intros Hin. apply Hk in Hin. destruct Hin as [_ Hne]. apply Hne. reflexivity.
    + apply Hk. split; [right; left; reflexivity | discriminate].
Defined.

Lemma deleted_user_keys_stop_working_witness :
  exists w' n,
    route_delete_user Demo.utc Demo.is_authenticated 2 (Demo.world (Some 1))
    = (Json (MessageBody "User deleted successfully") 200, w')
    /\ api_key_required Demo.utc Demo.check_password_hash get_current_user
         (Some "alice-secret") w'
       = (Return key_invalid, advance n w').
Proof.
  destruct (deleted_user_keys_stop_working Demo.utc Demo.check_password_hash
              Demo.is_authenticated get_current_user "alice-secret" 2
              Demo.admin Demo.alice (Demo.world (Some 1)))
    as (w' & n & Hrun & Hkey).
  - repeat split.
  - reflexivity.
  - reflexivity.
  - discriminate.
  - reflexivity.
  - intros k [<- | [<- | [<- | []]]] Hne;
      [exfalso; apply Hne; reflexivity | reflexivity
      | exfalso; apply Hne; reflexivity].
  - exists w', n. split; [exact Hrun | exact Hkey].
Defined.

Lemma admin_views_lookup_witness :
  route_get_user Demo.is_authenticated 2 (Demo.world (Some 1))
  = (Json (UserBody Demo.alice) 200, Demo.world (Some 1))
  /\ route_get_user Demo.is_authenticated 9 (Demo.world (Some 1))
     = (user_not_found, Demo.world (Some 1)).
Proof.
  assert (Hs : signed_in Demo.is_authenticated Demo.admin (Demo.world (Some 1))).
  { repeat split. }
  split.
  - exact (proj1 (admin_views_lookup Demo.utc Demo.is_authenticated 2 JNull
                    Demo.admin (Demo.world (Some 1)) Hs eq_refl)
                 Demo.alice eq_refl).
  - exact (proj1 (proj2 (admin_views_lookup Demo.utc Demo.is_authenticated 9 JNull
                           Demo.admin (Demo.world (Some 1)) Hs eq_refl)
                        eq_refl)).
Defined.

Lemma PasswordValidator_four_kinds_witness :
  PasswordValidator 8 "Str0ng!Pass" = None
  /\ PasswordValidator 8 ("xx" ++ "Str0ng!Pass" ++ "yy") = None.
Proof.
  split; [reflexivity|].
  apply (proj2 (PasswordValidator_four_kinds 8 "Str0ng!Pass" eq_refl)).
Defined.

Lemma register_creates_account_witness :
  exists w1,
    route_register Demo.utc Demo.entropy Demo.is_authenticated
      Demo.bcrypt_generate_password_hash
      (Build_RegistrationForm "dave" "Dave@Example.com" "D4ve!Pass" "D4ve!Pass" true)
      (Demo.world None)
    = (Redirect "auth.login", w1)
    /\ users w1
       = [Demo.admin; Demo.alice; Demo.bob; Demo.carol;
          User.mk 5 "dave" "dave@example.com" "bcrypt:D4ve!Pass" true false
                  0 None None 60000000 None].
Proof.
  destruct (register_creates_account Demo.utc Demo.entropy Demo.is_authenticated
              Demo.bcrypt_generate_password_hash
              (Build_RegistrationForm "dave" "Dave@Example.com" "D4ve!Pass"
                                      "D4ve!Pass" true)
              (Demo.world None))
    as (w1 & Hrun & Hu & _).
  - exact I.
  - reflexivity.
  - reflexivity.
  - reflexivity.
  - intros r [<- | [<- | [<- | [<- | []]]]]; discriminate.
  - intros r [<- | [<- | [<- | [<- | []]]]]; discriminate.
  - exists w1. split; [exact Hrun | exact Hu].
Defined.

Lemma register_refuses_duplicates_witness :
  route_register Demo.utc Demo.entropy Demo.is_authenticated
    Demo.bcrypt_generate_password_hash
    (Build_RegistrationForm "alice" "other@example.com" "D4ve!Pass" "D4ve!Pass" true)
    (Demo.world None)
  = (Render "auth/register.html" 200, Demo.world None).
Proof.
  apply (register_refuses_duplicates Demo.utc Demo.entropy Demo.is_authenticated
           Demo.bcrypt_generate_password_hash
           (Build_RegistrationForm "alice" "other@example.com" "D4ve!Pass"
                                   "D4ve!Pass" true)
           Demo.alice (Demo.world None)).
  - exact I.
  - reflexivity.
  - right. left. reflexivity.
  - left. reflexivity.
Defined.

Lemma register_keeps_accounts_unique_witness :
  unique_accounts (Demo.world None)
  /\ unique_accounts
       (snd (route_register Demo.utc Demo.entropy Demo.is_authenticated
               Demo.bcrypt_generate_password_hash
               (Build_RegistrationForm "dave" "Dave@Example.com" "D4ve!Pass"
                                       "D4ve!Pass" true)
               (Demo.world None))).
Proof.
  assert (Hu : unique_accounts (Demo.world None)).
  { repeat split; simpl;
      repeat (constructor;
        [simpl; intros H; repeat (destruct H as [H | H]; [discriminate H|]); exact H|]);
      constructor. }
  split; [exact Hu|].
  apply (register_keeps_accounts_unique Demo.utc Demo.entropy Demo.is_authenticated
           Demo.bcrypt_generate_password_hash
           (Build_RegistrationForm "dave" "Dave@Example.com" "D4ve!Pass"
                                   "D4ve!Pass" true)
           (Demo.world None)).
  - exact I.
  - reflexivity.
  - exact Hu.
  - intros r [<- | [<- | [<- | [<- | []]]]]; reflexivity.
Defined.

Lemma register_then_login_witness :
  exists w1 w2,
    route_register Demo.utc Demo.entropy Demo.is_authenticated
      Demo.bcrypt_generate_password_hash
      (Build_RegistrationForm "dave" "Dave@Example.com" "D4ve!Pass" "D4ve!Pass" true)
      (Demo.world None)
    = (Redirect "auth.login", w1)
    /\ route_login Demo.utc Demo.bcrypt_check_password_hash Demo.is_authenticated
         (Build_LoginForm "dave" "D4ve!Pass" false true) None w1
       = (Redirect "main.dashboard", w2)
    /\ logged_in w2 = Some 5.
Proof.
  destruct (register_then_login Demo.utc Demo.entropy
              Demo.bcrypt_check_password_hash Demo.is_authenticated
              Demo.bcrypt_generate_password_hash
              (Build_RegistrationForm "dave" "Dave@Example.com" "D4ve!Pass"
                                      "D4ve!Pass" true)
              (Build_LoginForm "dave" "D4ve!Pass" false true) None
              (Demo.world None))
    as (w1 & w2 & Hreg & Hlog & Hl & _).
  - intros salt p. apply demo_bcrypt_check_generate. reflexivity.
  - reflexivity.
  - reflexivity.
  - reflexivity.
  - reflexivity.
  - intros r [<- | [<- | [<- | [<- | []]]]]; discriminate.
  - intros r [<- | [<- | [<- | [<- | []]]]]; discriminate.
  - intros r [<- | [<- | [<- | [<- | []]]]]; discriminate.
  - reflexivity.
  - reflexivity.
  - reflexivity.
  - exists w1, w2. split; [exact Hreg|]. split; [exact Hlog | exact Hl].
Defined.

Lemma change_password_refused_witness :
  fst (route_change_password Demo.utc Demo.entropy Demo.bcrypt_check_password_hash
         Demo.is_authenticated Demo.bcrypt_generate_password_hash
         (Build_ChangePasswordForm "wrong" "N3w!Passw0rd" "N3w!Passw0rd" true)
         (Demo.world (Some 2)))
  = Render "auth/change_password.html" 200
  /\ users (snd (route_change_password Demo.utc Demo.entropy
                   Demo.bcrypt_check_password_hash Demo.is_authenticated
                   Demo.bcrypt_generate_password_hash
                   (Build_ChangePasswordForm "wrong" "N3w!Passw0rd" "N3w!Passw0rd" true)
                   (Demo.world (Some 2))))
     = users (Demo.world (Some 2)).
Proof.
  destruct (change_password_refused Demo.utc Demo.entropy
              Demo.bcrypt_check_password_hash Demo.is_authenticated
              Demo.bcrypt_generate_password_hash
              (Build_ChangePasswordForm "wrong" "N3w!Passw0rd" "N3w!Passw0rd" true)
              Demo.alice (Demo.world (Some 2)))
    as (Hr & Hu & _).
  - repeat split.
  - reflexivity.
  - right. left. reflexivity.
  - split; [exact Hr | exact Hu].
Defined.

Lemma change_password_replaces_hash_witness :
  exists w1,
    route_change_password Demo.utc Demo.entropy Demo.bcrypt_check_password_hash
      Demo.is_authenticated Demo.bcrypt_generate_password_hash
      (Build_ChangePasswordForm "Str0ng!Pass" "N3w!Passw0rd" "N3w!Passw0rd" true)
      (Demo.world (Some 2))
    = (Redirect "auth.profile", w1)
    /\ api_keys w1 = api_keys (Demo.world (Some 2)).
Proof.
  destruct (change_password_replaces_hash Demo.utc Demo.entropy
              Demo.bcrypt_check_password_hash Demo.is_authenticated
              Demo.bcrypt_generate_password_hash
              (Build_ChangePasswordForm "Str0ng!Pass" "N3w!Passw0rd" "N3w!Passw0rd" true)
              Demo.alice (Demo.world (Some 2)))
    as (cu1 & w1 & h & Hrun & _ & _ & Hk & _).
  - exact demo_bcrypt_check_generate.
  - repeat split.
  - reflexivity.
  - reflexivity.
  - reflexivity.
  - reflexivity.
  - exists w1. split; [exact Hrun | exact Hk].
Defined.

Lemma profile_keeps_emails_unique_witness :
  NoDup (map User.email
           (users (snd (route_profile Demo.utc Demo.is_authenticated
                          (Build_ProfileUpdateForm "Alice@New.org" true)
                          (Demo.world (Some 2)))))).
Proof.
  apply (profile_keeps_emails_unique Demo.utc Demo.is_authenticated
           (Build_ProfileUpdateForm "Alice@New.org" true)
           Demo.alice (Demo.world (Some 2))).
  - repeat split.
  - reflexivity.
  - simpl; repeat (constructor;
        [simpl; intros H; repeat (destruct H as [H | H]; [discriminate H|]); exact H|]);
      constructor.
  - simpl; repeat (constructor;
        [simpl; intros H; repeat (destruct H as [H | H]; [discriminate H|]); exact H|]);
      constructor.
  - intros r [<- | [<- | [<- | [<- | []]]]]; reflexivity.
Defined.

Lemma logout_ends_session_witness :
  exists w',
    route_logout Demo.is_authenticated (Demo.world (Some 2))
    = (Redirect "main.index", w')
    /\ route_dashboard Demo.is_authenticated w'
       = (Redirect "auth.login", add_flash flash_please_log_in w').
Proof.
  destruct (logout_ends_session Demo.is_authenticated Demo.alice
              (Demo.world (Some 2)))
    as (w' & Hrun & _ & _ & _ & _ & Hd).
  - repeat split.
  - exists w'. split; [exact Hrun | exact Hd].
Defined.

Lemma create_api_key_round_trip_witness :
  exists w1 w2,
    fst (route_create_api_key Demo.utc Demo.entropy Demo.generate_password_hash
           Demo.is_authenticated Demo.column_text
           (JObj [("name", JStr "ci")]) (Demo.world (Some 2)))
    = CreatedBody "API key created successfully" "tok-a"
        (ApiKey.mk 4 "hash:tok-a" "ci" 2 true None 60000000 None)
        "Save this key now. You will not be able to see it again." 201
    /\ snd (route_create_api_key Demo.utc Demo.entropy Demo.generate_password_hash
              Demo.is_authenticated Demo.column_text
              (JObj [("name", JStr "ci")]) (Demo.world (Some 2)))
       = w1
    /\ route_get_current_user Demo.utc Demo.check_password_hash (Some "tok-a") w1
       = (Json (UserBody Demo.alice) 200, w2).
Proof.
  destruct (create_api_key_round_trip Demo.utc Demo.entropy
              Demo.generate_password_hash Demo.check_password_hash
              Demo.is_authenticated Demo.column_text
              (JObj [("name", JStr "ci")]) (JStr "ci") "ci"
              Demo.alice (Demo.world (Some 2)))
    as (w1 & w2 & keys & Hrun & _ & _ & Hme & _).
  - intros salt p. apply demo_check_generate. reflexivity.
  - repeat split.
  - reflexivity.
  - reflexivity.
  - reflexivity.
  - reflexivity.
  - reflexivity.
  - discriminate.
  - intros k [<- | [<- | [<- | []]]]; reflexivity.
  - reflexivity.
  - exists w1, w2. rewrite Hrun. split; [reflexivity|]. split; [reflexivity|].
    exact Hme.
Defined.

Lemma create_api_key_refused_witness :
  route_create_api_key Demo.utc Demo.entropy Demo.generate_password_hash
    Demo.is_authenticated Demo.column_text (JObj [("label", JStr "ci")])
    (Demo.world (Some 2))
  = (key_name_required, Demo.world (Some 2))
  /\ api_keys (snd (route_create_api_key Demo.utc Demo.entropy
                      Demo.generate_password_hash Demo.is_authenticated
                      Demo.column_text (JObj [("name", JNum 3)])
                      (Demo.world (Some 2))))
     = api_keys (Demo.world (Some 2)).
Proof.
  assert (Hs : signed_in Demo.is_authenticated Demo.alice (Demo.world (Some 2))).
  { repeat split. }
  split.
  - apply (proj1 (create_api_key_refused Demo.utc Demo.entropy
                    Demo.generate_password_hash Demo.is_authenticated
                    Demo.column_text (JObj [("label", JStr "ci")])
                    Demo.alice (Demo.world (Some 2)) Hs eq_refl)).
    right. reflexivity.
  - apply (proj2 (create_api_key_refused Demo.utc Demo.entropy
                    Demo.generate_password_hash Demo.is_authenticated
                    Demo.column_text (JObj [("name", JNum 3)])
                    Demo.alice (Demo.world (Some 2)) Hs eq_refl)
                 (JNum 3) TypeError); reflexivity.
Defined.

Lemma list_api_keys_own_keys_only_witness :
  exists keys,
    route_list_api_keys Demo.is_authenticated (Demo.world (Some 2))
    = (KeysBody keys 200, Demo.world (Some 2))
    /\ In Demo.alice_key keys
    /\ ~ In Demo.bob_key keys.
Proof.
  destruct (list_api_keys_own_keys_only Demo.is_authenticated Demo.alice
              (Demo.world (Some 2)))
    as (keys & Hrun & Hk).
  - repeat split.
  - exists keys. split; [exact Hrun|]. split.
    + apply Hk. split; [left; reflexivity | reflexivity].
    + intros Hin. apply Hk in Hin. destruct Hin as [_ Hid]. discriminate.
Defined.

Lemma create_default_admin_once_witness :
  users (snd (create_default_admin Demo.utc Demo.entropy
                Demo.bcrypt_generate_password_hash None None Demo.world_no_admin))
  = [Demo.alice;
     User.mk 3 "admin" "admin@example.com" "bcrypt:changeme123" true true
             0 None None 60000000 None]
  /\ snd (create_default_admin Demo.utc Demo.entropy
            Demo.bcrypt_generate_password_hash (Some "root@example.com") (Some "x")
            (Demo.world None))
     = Demo.world None.
Proof.
  split.
  - apply (proj1 (proj2 (create_default_admin_once Demo.utc Demo.entropy
                           Demo.bcrypt_generate_password_hash None None None None
                           Demo.world_no_admin eq_refl))).
    intros r [<- | []]. discriminate.
  - apply (proj1 (create_default_admin_once Demo.utc Demo.entropy
                    Demo.bcrypt_generate_password_hash
                    (Some "root@example.com") (Some "x") None None
                    (Demo.world None) eq_refl)).
    exists Demo.admin. split; [left; reflexivity | reflexivity].
Defined.

